(** * Agent-cy web scraper: scrape-job orchestration and content extraction

    A shallow embedding of the scraper agent
    ([ScraperAgent], the job-based variant) and of the single-URL callable
    ([web-scraper.js]), followed by the properties of the specification that
    were checked against them.

    Conventions of the embedding.
    - A JavaScript string is a sequence of UTF-16 code units; the model uses
      [string], i.e. code units in the range 0..255 (ASCII and Latin-1).
    - A [throw] is the [Throw] constructor of [Result]; [try]/[catch] is
      [try_catch]; an [async] function is its sequential reading, [await]
      being the suspension point and nothing more.
    - Everything the code obtains from outside (HTTP responses, the headless
      browser, the document store, the summarisation backends, the clock, the
      random generator) is read from an explicit record of outcomes. *)

From Stdlib Require Import ZArith NArith String Ascii List Bool Lia.
From stdpp Require Import base tactics option list strings gmap pretty.

Local Open Scope string_scope.
Local Open Scope list_scope.
Local Open Scope nat_scope.

Set Warnings "-register-all".

(* ===================================================================== *)
(** * JavaScript values, errors and strings                               *)
(* ===================================================================== *)

Module Js.

(** An [Error] object: the constructor name and the [message]. *)
Record Error := mkError { err_name : string; message : string }.

Definition new_Error (msg : string) : Error := mkError "Error" msg.
Definition new_TypeError (msg : string) : Error := mkError "TypeError" msg.
Definition new_SyntaxError (msg : string) : Error := mkError "SyntaxError" msg.
Definition new_ReferenceError (msg : string) : Error := mkError "ReferenceError" msg.

(** Completion of an expression or of an awaited promise. *)
Inductive Result (A : Type) : Type :=
| Ok (a : A)
| Throw (e : Error).
Global Arguments Ok {A} a.
Global Arguments Throw {A} e.

Definition bind {A B} (f : A → Result B) (m : Result A) : Result B :=
  match m with
  | Ok a => f a
  | Throw e => Throw e
  end.

Global Instance result_ret : MRet Result := λ A a, Ok a.
Global Instance result_bind : MBind Result := λ A B f m, bind f m.

(** [try { body } catch (e) { handler e }]. *)
Definition try_catch {A} (body : Result A) (handler : Error → Result A) : Result A :=
  match body with
  | Ok a => Ok a
  | Throw e => handler e
  end.

(** [try { body } finally { fin }]: a throwing [fin] replaces the
    completion of [body]. *)
Definition try_finally {A} (body : Result A) (fin : Result unit) : Result A :=
  match fin with
  | Ok _ => body
  | Throw e => Throw e
  end.

Definition is_ok {A} (m : Result A) : bool :=
  match m with Ok _ => true | Throw _ => false end.

(** ** Code units *)

Definition code (c : ascii) : N := N_of_ascii c.

Definition in_range (lo hi : N) (c : ascii) : bool :=
  ((lo <=? code c) && (code c <=? hi))%N.

Definition is_digit (c : ascii) : bool := in_range 48 57 c.
Definition is_upper (c : ascii) : bool := in_range 65 90 c.
Definition is_lower (c : ascii) : bool := in_range 97 122 c.
Definition is_alnum (c : ascii) : bool := is_digit c || is_upper c || is_lower c.

(** WhiteSpace and LineTerminator code units below 256: TAB, LF, VT, FF,
    CR, SP and NBSP.  This is what [trim] strips and what [\s] matches. *)
Definition is_space (c : ascii) : bool :=
  in_range 9 13 c || (code c =? 32)%N || (code c =? 160)%N.

(** [String.prototype.toLowerCase] on one code unit: A-Z, and the Latin-1
    capitals 192..222 except the multiplication sign 215. *)
Definition lower_char (c : ascii) : ascii :=
  if is_upper c || (in_range 192 222 c && negb (code c =? 215)%N)
  then ascii_of_N (code c + 32) else c.

Fixpoint toLowerCase (s : string) : string :=
  match s with
  | EmptyString => EmptyString
  | String c s' => String (lower_char c) (toLowerCase s')
  end.

(** [s.startsWith(p)] *)
Definition startsWith (s p : string) : bool := String.prefix p s.

(** [s.includes(p)] *)
Fixpoint includes (s p : string) : bool :=
  String.prefix p s ||
  match s with
  | EmptyString => false
  | String _ s' => includes s' p
  end.

Fixpoint trimStart (s : string) : string :=
  match s with
  | EmptyString => EmptyString
  | String c s' => if is_space c then trimStart s' else s
  end.

Fixpoint trimEnd (s : string) : string :=
  match s with
  | EmptyString => EmptyString
  | String c s' =>
      match trimEnd s' with
      | EmptyString => if is_space c then EmptyString else String c EmptyString
      | t => String c t
      end
  end.

(** [s.trim()] *)
Definition trim (s : string) : string := trimEnd (trimStart s).

(** [s.substring(0, n)] for [0 <= n]. *)
Fixpoint take (n : nat) (s : string) : string :=
  match n, s with
  | S n', String c s' => String c (take n' s')
  | _, _ => EmptyString
  end.

(** [s.replace(/\s+/g, ' ')]: every maximal run of white space becomes one
    space.  [in_run] tells that the previous code unit was white space. *)
Fixpoint collapse_from (in_run : bool) (s : string) : string :=
  match s with
  | EmptyString => EmptyString
  | String c s' =>
      if is_space c
      then (if in_run then collapse_from true s'
            else String " " (collapse_from true s'))
      else String c (collapse_from false s')
  end.

Definition collapse_spaces (s : string) : string := collapse_from false s.

(** [xs.join(sep)] *)
Fixpoint join (sep : string) (xs : list string) : string :=
  match xs with
  | [] => EmptyString
  | [x] => x
  | x :: rest => x +:+ sep +:+ join sep rest
  end.

(** A string is truthy when it is not empty. *)
Definition truthy (s : string) : bool :=
  match s with EmptyString => false | _ => true end.

(** [a || b] on strings. *)
Definition or_else (a b : string) : string := if truthy a then a else b.

(** [xs.slice(0, n)] for an integer [n]: a negative [n] counts from the
    end of the array. *)
Definition slice0 {A} (xs : list A) (n : Z) : list A :=
  if (n <? 0)%Z
  then firstn (length xs - Z.to_nat (- n)) xs
  else firstn (Z.to_nat n) xs.

End Js.

Export Js.

(* ===================================================================== *)
(** * Regular expressions: the fragment of [RegExp] the scorer can reach  *)
(* ===================================================================== *)

(** The scorer builds [new RegExp("\\b" + keyword + "\\b", "gi")] from a
    caller-supplied keyword, so the keyword is read as pattern source.  The
    model parses and runs the part of the pattern language made of literal
    characters, [.], the escapes [\b \B \d \D \w \W \s \S \f \n \r \t \v],
    identity escapes, the anchors [^] and [$], groups (capturing or [(?:]),
    alternation and the quantifiers [* + ?] (greedy or lazy), with the flags
    [g] and [i] and without [u].  Character classes, braces, back-references,
    every other [(?] group and the escapes [\c \x \u \k \0..\9] are left to
    the host engine ([Beyond]). *)

Module Regex.

Inductive cls := ClsDigit | ClsWord | ClsSpace.

Inductive regex :=
| REmpty
| RChar (c : ascii)
| RDot
| RClass (k : cls) (neg : bool)
| RWordB (neg : bool)
| RBol
| REol
| RSeq (a b : regex)
| RAlt (a b : regex)
| RQuant (a : regex) (min : nat) (max : option nat) (greedy : bool)
| RGroup (a : regex).

(** Outcome of the [RegExp] constructor on a pattern source. *)
Inductive Compiled :=
| Pattern (r : regex)
| SyntaxErr (msg : string)
| Beyond.

(** ** Parsing *)

(** One open group (or the top level): the alternatives already closed by
    a [|], most recent first, and the terms of the alternative being read,
    most recent first.  The flag of a term tells whether a quantifier may
    follow it: assertions and already quantified terms may not. *)
Record frame := mkFrame {
  alts : list regex;
  terms : list (regex * bool)
}.

Definition empty_frame : frame := mkFrame [] [].

Definition seq_of (ts : list (regex * bool)) : regex :=
  fold_left (λ acc t, RSeq (fst t) acc) ts REmpty.

Definition close_frame (f : frame) : regex :=
  fold_left (λ acc a, RAlt a acc) (alts f) (seq_of (terms f)).

Definition push_term (f : frame) (r : regex) (quantifiable : bool) : frame :=
  mkFrame (alts f) ((r, quantifiable) :: terms f).

Definition next_alternative (f : frame) : frame :=
  mkFrame (seq_of (terms f) :: alts f) [].

(** The quantifier [q] applied to the last term, or nothing to repeat. *)
Definition quantify (f : frame) (min : nat) (max : option nat) (greedy : bool)
  : option frame :=
  match terms f with
  | (a, true) :: ts => Some (mkFrame (alts f) ((RQuant a min max greedy, false) :: ts))
  | _ => None
  end.

Definition quantifier_bounds (c : ascii) : option (nat * option nat) :=
  if Ascii.eqb c "*" then Some (0, None)
  else if Ascii.eqb c "+" then Some (1, None)
  else if Ascii.eqb c "?" then Some (0, Some 1)
  else None.

(** The atom or assertion written [\e], with its quantifiable flag. *)
Definition escape (e : ascii) : option (regex * bool) :=
  if Ascii.eqb e "b" then Some (RWordB false, false)
  else if Ascii.eqb e "B" then Some (RWordB true, false)
  else if Ascii.eqb e "d" then Some (RClass ClsDigit false, true)
  else if Ascii.eqb e "D" then Some (RClass ClsDigit true, true)
  else if Ascii.eqb e "w" then Some (RClass ClsWord false, true)
  else if Ascii.eqb e "W" then Some (RClass ClsWord true, true)
  else if Ascii.eqb e "s" then Some (RClass ClsSpace false, true)
  else if Ascii.eqb e "S" then Some (RClass ClsSpace true, true)
  else if Ascii.eqb e "f" then Some (RChar (ascii_of_N 12), true)
  else if Ascii.eqb e "n" then Some (RChar (ascii_of_N 10), true)
  else if Ascii.eqb e "r" then Some (RChar (ascii_of_N 13), true)
  else if Ascii.eqb e "t" then Some (RChar (ascii_of_N 9), true)
  else if Ascii.eqb e "v" then Some (RChar (ascii_of_N 11), true)
  else if is_digit e || Ascii.eqb e "c" || Ascii.eqb e "x"
          || Ascii.eqb e "u" || Ascii.eqb e "k" then None
  else Some (RChar e, true).

Fixpoint parse (s : string) (cur : frame) (stack : list frame) : Compiled :=
  match s with
  | EmptyString =>
      match stack with
      | [] => Pattern (close_frame cur)
      | _ :: _ => SyntaxErr "Unterminated group"
      end
  | String c rest =>
      if Ascii.eqb c "(" then
        match rest with
        | String "?" (String ":" rest') => parse rest' empty_frame (cur :: stack)
        | String "?" (String _ _) => Beyond
        | String "?" EmptyString => SyntaxErr "Invalid group"
        | _ => parse rest empty_frame (cur :: stack)
        end
      else if Ascii.eqb c ")" then
        match stack with
        | [] => SyntaxErr "Unmatched ')'"
        | parent :: stack' =>
            parse rest (push_term parent (RGroup (close_frame cur)) true) stack'
        end
      else if Ascii.eqb c "|" then parse rest (next_alternative cur) stack
      else if Ascii.eqb c "^" then parse rest (push_term cur RBol false) stack
      else if Ascii.eqb c "$" then parse rest (push_term cur REol false) stack
      else if Ascii.eqb c "." then parse rest (push_term cur RDot true) stack
      else if Ascii.eqb c "[" || Ascii.eqb c "{" then Beyond
      else if Ascii.eqb c "\" then
        match rest with
        | EmptyString => SyntaxErr "\ at end of pattern"
        | String e rest' =>
            match escape e with
            | Some (r, q) => parse rest' (push_term cur r q) stack
            | None => Beyond
            end
        end
      else
        match quantifier_bounds c with
        | Some (min, max) =>
            match rest with
            | String "?" rest' =>
                match quantify cur min max false with
                | Some f => parse rest' f stack
                | None => SyntaxErr "Nothing to repeat"
                end
            | _ =>
                match quantify cur min max true with
                | Some f => parse rest f stack
                | None => SyntaxErr "Nothing to repeat"
                end
            end
        | None => parse rest (push_term cur (RChar c) true) stack
        end
  end.

Definition compile (source : string) : Compiled := parse source empty_frame [].

(** ** Matching *)

(** A position in the subject: the code unit before it, if any, and what
    is left to read. *)
Definition pos : Type := option ascii * string.

Definition remaining (x : pos) : nat := String.length (snd x).

Definition is_word_char (c : ascii) : bool := is_alnum c || Ascii.eqb c "_".

Definition is_line_terminator (c : ascii) : bool :=
  (code c =? 10)%N || (code c =? 13)%N.

Definition word_before (x : pos) : bool :=
  match fst x with Some c => is_word_char c | None => false end.

Definition word_after (x : pos) : bool :=
  match snd x with String c _ => is_word_char c | EmptyString => false end.

Definition at_boundary (x : pos) : bool := xorb (word_before x) (word_after x).

(** Canonicalize under the [i] flag: the upper-case mapping, when it is
    one code unit and does not take a non-ASCII unit into ASCII. *)
Definition canonicalize (c : ascii) : ascii :=
  if is_lower c || (in_range 224 254 c && negb (code c =? 247)%N)
  then ascii_of_N (code c - 32) else c.

Definition same_char (c d : ascii) : bool :=
  Ascii.eqb (canonicalize c) (canonicalize d).

Definition in_class (k : cls) (c : ascii) : bool :=
  match k with
  | ClsDigit => is_digit c
  | ClsWord => is_word_char c
  | ClsSpace => is_space c
  end.

(** Read one code unit accepted by [p], then continue. *)
Definition read (p : ascii → bool) (x : pos) (k : pos → option pos) : option pos :=
  match snd x with
  | String d rest => if p d then k (Some d, rest) else None
  | EmptyString => None
  end.

Definition or_backtrack (a b : option pos) : option pos :=
  match a with Some z => Some z | None => b end.

(** The backtracking matcher, with the continuation [k] for what follows.
    [repeat] is RepeatMatcher: an iteration of a quantifier whose minimum
    is reached must consume input, which bounds the iterations by
    [remaining x + min]. *)
Fixpoint run (r : regex) (x : pos) (k : pos → option pos) {struct r} : option pos :=
  match r with
  | REmpty => k x
  | RChar c => read (same_char c) x k
  | RDot => read (λ d, negb (is_line_terminator d)) x k
  | RClass cl neg => read (λ d, xorb neg (in_class cl d)) x k
  | RWordB neg => if xorb neg (at_boundary x) then k x else None
  | RBol => match fst x with None => k x | Some _ => None end
  | REol => match snd x with EmptyString => k x | String _ _ => None end
  | RSeq a b => run a x (λ y, run b y k)
  | RAlt a b => or_backtrack (run a x k) (run b x k)
  | RGroup a => run a x k
  | RQuant a min max greedy =>
      (fix repeat (fuel min : nat) (max : option nat) (x : pos) {struct fuel}
         : option pos :=
         match fuel with
         | O => None
         | S fuel' =>
             match max with
             | Some O => k x
             | _ =>
                 let again (y : pos) :=
                   if Nat.eqb min 0 && Nat.eqb (remaining y) (remaining x) then None
                   else repeat fuel' (pred min) (pred <$> max) y in
                 if negb (Nat.eqb min 0) then run a x again
                 else if greedy then or_backtrack (run a x again) (k x)
                 else or_backtrack (k x) (run a x again)
             end
         end) (remaining x + min + 1) min max x
  end.

(** RegExpBuiltinExec from a given position: the first index at or after
    it where the pattern matches, as (start, end). *)
Fixpoint exec (r : regex) (prev : option ascii) (s : string) : option (pos * pos) :=
  match run r (prev, s) Some with
  | Some e => Some ((prev, s), e)
  | None =>
      match s with
      | EmptyString => None
      | String c s' => exec r (Some c) s'
      end
  end.

(** The number of entries of [subject.match(re)] for a global [re]: after
    an empty match the search resumes one code unit further. *)
Fixpoint count_from (fuel : nat) (r : regex) (x : pos) : nat :=
  match fuel with
  | O => 0
  | S fuel' =>
      match exec r (fst x) (snd x) with
      | None => 0
      | Some (b, e) =>
          if Nat.eqb (remaining b) (remaining e) then
            match snd e with
            | EmptyString => 1
            | String c s' => S (count_from fuel' r (Some c, s'))
            end
          else S (count_from fuel' r e)
      end
  end.

Definition count_matches (r : regex) (subject : string) : nat :=
  count_from (String.length subject + 1) r (None, subject).

End Regex.

(* ===================================================================== *)
(** * Parsed documents and the selectors the scraper uses                 *)
(* ===================================================================== *)

(** What [cheerio.load] returns is modelled as the tree of the root element
    ([html]).  A selection (a cheerio object) is the list of the selected
    elements in document order, each with its path from the root, which is
    the identity of the element. *)

Module Dom.

Inductive node :=
| Text (data : string)
| Element (tag : string) (attrs : list (string * string)) (children : list node).

Definition located : Type := list nat * node.
Definition selection : Type := list located.

(** The selectors occurring in the source: a comma-separated list of
    [tag], [#id], [.class], [tag[attr]], [tag[attr="v"]] or [[attr=v]]. *)
Inductive simple :=
| ByTag (t : string)
| ById (i : string)
| ByClass (c : string)
| ByTagAttr (t a : string)
| ByTagAttrEq (t a v : string)
| ByAttrEq (a v : string).

Definition selector : Type := list simple.

Fixpoint get_attr (name : string) (attrs : list (string * string)) : option string :=
  match attrs with
  | [] => None
  | (k, v) :: rest => if String.eqb k name then Some v else get_attr name rest
  end.

(** The white-space separated tokens of a [class] attribute. *)
Fixpoint tokens_from (cur : string) (s : string) : list string :=
  match s with
  | EmptyString => if truthy cur then [cur] else []
  | String c s' =>
      if is_space c
      then (if truthy cur then cur :: tokens_from EmptyString s' else tokens_from EmptyString s')
      else tokens_from (cur +:+ String c EmptyString) s'
  end.

Definition has_class (c : string) (attrs : list (string * string)) : bool :=
  match get_attr "class" attrs with
  | Some v => existsb (String.eqb c) (tokens_from EmptyString v)
  | None => false
  end.

Definition attr_is (a v : string) (attrs : list (string * string)) : bool :=
  match get_attr a attrs with
  | Some w => String.eqb w v
  | None => false
  end.

Definition matches_simple (s : simple) (n : node) : bool :=
  match n with
  | Text _ => false
  | Element tag attrs _ =>
      match s with
      | ByTag t => String.eqb tag t
      | ById i => attr_is "id" i attrs
      | ByClass c => has_class c attrs
      | ByTagAttr t a => String.eqb tag t && bool_decide (is_Some (get_attr a attrs))
      | ByTagAttrEq t a v => String.eqb tag t && attr_is a v attrs
      | ByAttrEq a v => attr_is a v attrs
      end
  end.

Definition matches (sel : selector) (n : node) : bool :=
  existsb (λ s, matches_simple s n) sel.

(** The elements of the subtree of [n], [n] first, in document order. *)
Fixpoint elements_at (p : list nat) (n : node) : selection :=
  match n with
  | Text _ => []
  | Element _ _ cs =>
      (p, n) ::
      (fix children (i : nat) (cs : list node) : selection :=
         match cs with
         | [] => []
         | c :: cs' => elements_at (p ++ [i]) c ++ children (S i) cs'
         end) 0 cs
  end.

(** [$(sel)] on a loaded document. *)
Definition query (doc : node) (sel : selector) : selection :=
  filter (λ e, matches sel (snd e) = true) (elements_at [] doc).

(** [textContent] of a node: the text of its descendants, in order. *)
Fixpoint text_of (n : node) : string :=
  match n with
  | Text d => d
  | Element _ _ cs =>
      (fix children (cs : list node) : string :=
         match cs with
         | [] => EmptyString
         | c :: cs' => text_of c +:+ children cs'
         end) cs
  end.

(** [selection.text()]: the texts of the selected elements, concatenated. *)
Definition text (s : selection) : string :=
  fold_right (λ e acc, text_of (snd e) +:+ acc) EmptyString s.

(** [selection.attr(name)]: the attribute of the first selected element. *)
Definition attr (s : selection) (name : string) : option string :=
  match s with
  | (_, Element _ attrs _) :: _ => get_attr name attrs
  | _ => None
  end.

(** [$(sel).remove()]: the document without the subtrees of the matching
    elements. *)
Fixpoint remove (sel : selector) (n : node) : node :=
  match n with
  | Text _ => n
  | Element tag attrs cs =>
      Element tag attrs
        ((fix children (cs : list node) : list node :=
            match cs with
            | [] => []
            | c :: cs' =>
                if matches sel c then children cs' else remove sel c :: children cs'
            end) cs)
  end.

Fixpoint seen (p : list nat) (s : selection) : bool :=
  match s with
  | [] => false
  | (q, _) :: rest => bool_decide (p = q) || seen p rest
  end.

(** Keep the first occurrence of every element. *)
Fixpoint unique (s : selection) (acc : selection) : selection :=
  match s with
  | [] => []
  | e :: rest => if seen (fst e) acc then unique rest acc else e :: unique rest (e :: acc)
  end.

(** [selection.find(sel)]: the matching proper descendants of the selected
    elements, each once. *)
Definition find (s : selection) (sel : selector) : selection :=
  unique
    (flat_map (λ e, filter (λ d, matches sel (snd d) = true)
                      (tail (elements_at (fst e) (snd e)))) s)
    [].

Definition tag_of (n : node) : string :=
  match n with
  | Element t _ _ => t
  | Text _ => EmptyString
  end.

End Dom.

(* ===================================================================== *)
(** * The scraper agent ([ScraperAgent])                                  *)
(* ===================================================================== *)

Module Scraper.

Import Dom.

(** ** Configuration and construction *)

(** The [config] argument of the constructor; [None] is an absent field. *)
Record Config := mkConfig {
  cfg_defaultKeywords : option (list string);
  cfg_defaultUrls : option (list string);
  cfg_maxRetries : option Z;
  cfg_retryDelay : option Z;
  cfg_maxContentLength : option Z;
  cfg_usePuppeteer : option bool;
  cfg_captureScreenshots : option bool;
  cfg_enableAIExtraction : option bool;
  cfg_searchEnabled : option bool
}.

Definition empty_config : Config :=
  mkConfig None None None None None None None None None.

Record Agent := mkAgent {
  defaultKeywords : list string;
  defaultUrls : list string;
  userAgents : list string;
  maxRetries : Z;
  retryDelay : Z;
  maxContentLength : Z;
  usePuppeteer : bool;
  captureScreenshots : bool;
  enableAIExtraction : bool;
  searchEnabled : bool
}.

(** [x || d] on an optional number: absent and [0] give the default. *)
Definition number_or (x : option Z) (d : Z) : Z :=
  match x with
  | Some n => if (n =? 0)%Z then d else n
  | None => d
  end.

(** [x !== false] *)
Definition not_false (x : option bool) : bool :=
  match x with
  | Some false => false
  | _ => true
  end.

Definition chrome_windows : string :=
  "Mozilla/5.0 (Windows NT 10.0; Win64; x64) AppleWebKit/537.36 (KHTML, like Gecko) Chrome/91.0.4472.124 Safari/537.36".

Definition constructor (config : Config) : Agent := {|
  defaultKeywords := default [] (cfg_defaultKeywords config);
  defaultUrls := default [] (cfg_defaultUrls config);
  userAgents :=
    [ chrome_windows;
      "Mozilla/5.0 (Macintosh; Intel Mac OS X 10_15_7) AppleWebKit/537.36 (KHTML, like Gecko) Chrome/94.0.4606.81 Safari/537.36";
      "Mozilla/5.0 (X11; Linux x86_64) AppleWebKit/537.36 (KHTML, like Gecko) Chrome/94.0.4606.81 Safari/537.36" ];
  maxRetries := number_or (cfg_maxRetries config) 3;
  retryDelay := number_or (cfg_retryDelay config) 1000;
  maxContentLength := number_or (cfg_maxContentLength config) 12000;
  usePuppeteer := not_false (cfg_usePuppeteer config);
  captureScreenshots := not_false (cfg_captureScreenshots config);
  enableAIExtraction := not_false (cfg_enableAIExtraction config);
  searchEnabled := not_false (cfg_searchEnabled config)
|}.

(** The singleton exported by the module: [new ScraperAgent()]. *)
Definition scraperAgent : Agent := constructor empty_config.

(** ** Results *)

Record Heading := mkHeading { level : nat; content : string }.
Record Link := mkLink { href : string; link_text : string }.

(** The object a scrape produces for one URL.  A field that the object
    literal does not mention is [None]; [description] may hold [null]
    (the inner [None]) on the rendered path. *)
Record PageResult := mkPageResult {
  url : string;
  title : option string;
  description : option (option string);
  success : bool;
  timestamp : option string;
  mainContent : option string;
  keywordMatches : option (gmap string nat);
  totalKeywordMatches : option nat;
  textLength : option nat;
  headings : option (list Heading);
  links : option (list Link);
  method : option string;
  screenshotUrl : option string;
  error : option string
}.

(** ** The outside world during the scrape of one URL *)

Record Response := mkResponse { data : string }.

Record PageWorld := mkPageWorld {
  (** [Math.floor(Math.random() * this.userAgents.length)] *)
  random_index : nat;
  (** [axios.get(url, {headers, timeout})] at the given attempt (from 0) *)
  axios_get : string → string → nat → Result Response;
  (** [cheerio.load(html)] *)
  cheerio_load : string → node;
  (** the [RegExp] constructor and global match count for the pattern
      sources outside the modelled fragment *)
  host_regexp : string → Result (string → nat);
  (** [new Date().toISOString()] and [Date.now()] *)
  now_iso : string;
  now_ms : N;
  (** the headless browser *)
  puppeteer_launch : Result unit;
  browser_newPage : Result unit;
  page_setUserAgent : Result unit;
  page_goto : string → Result unit;
  page_title : Result string;
  page_meta_description : Result (option string);
  page_screenshot : Result string;
  page_content : Result string;
  page_innerText : Result string;
  page_close : Result unit;
  browser_close : Result unit;
  (** [storage.uploadFile(bytes, path, options)] *)
  storage_uploadFile : string → Result string;
  (** [process.env.OPENAI_API_KEY] is set *)
  has_OPENAI_API_KEY : bool;
  (** [openai.chat.completions.create(...)] on a user prompt, then
      [.choices[0].message.content] *)
  openai_completion : string → Result string;
  (** [this.generateText(prompt, options)], inherited from [BaseAgent] *)
  generateText : string → Result string
}.

(** The world [w] with other completions of [axios.get]. *)
Definition with_axios_get (w : PageWorld) (get : string → string → nat → Result Response)
    : PageWorld :=
  mkPageWorld (random_index w) get (cheerio_load w) (host_regexp w) (now_iso w) (now_ms w)
    (puppeteer_launch w) (browser_newPage w) (page_setUserAgent w) (page_goto w)
    (page_title w) (page_meta_description w) (page_screenshot w) (page_content w)
    (page_innerText w) (page_close w) (browser_close w) (storage_uploadFile w)
    (has_OPENAI_API_KEY w) (openai_completion w) (generateText w).

(** ** Fetch-strategy selection (the condition of [scrapeUrl]) *)

Inductive Strategy := Lightweight | Rendered.

Definition selectStrategy (a : Agent) (url : string) : Strategy :=
  if negb (usePuppeteer a) || includes url "wikipedia.org" || includes url "britannica.com"
  then Lightweight else Rendered.

(** ** Keyword scoring *)

Definition keyword_pattern (keyword : string) : string := "\b" +:+ keyword +:+ "\b".

(** [(text.match(new RegExp(`\\b${keyword}\\b`, "gi")) || []).length];
    [host] is the engine for the pattern sources outside the modelled
    fragment. *)
Definition countKeyword (host : string → Result (string → nat)) (text keyword : string)
    : Result nat :=
  match Regex.compile (keyword_pattern keyword) with
  | Regex.Pattern r => Ok (Regex.count_matches r text)
  | Regex.SyntaxErr msg =>
      Throw (new_SyntaxError
               ("Invalid regular expression: /" +:+ keyword_pattern keyword +:+ "/: " +:+ msg))
  | Regex.Beyond => count ← host (keyword_pattern keyword); Ok (count text)
  end.

(** [keywordMatches[keyword] = n] on the plain object [keywordMatches], read
    as the map of its own properties: the name [__proto__] is the accessor
    that every plain object inherits, whose setter ignores a number, so that
    this one assignment creates no property. *)
Definition assign (keyword : string) (n : nat) (keywordMatches : gmap string nat)
    : gmap string nat :=
  if String.eqb keyword "__proto__" then keywordMatches
  else <[keyword := n]> keywordMatches.

(** The [for (const keyword of keywords)] loop filling [keywordMatches]. *)
Fixpoint scoreKeywords (host : string → Result (string → nat)) (text : string)
    (keywords : list string) (keywordMatches : gmap string nat)
    : Result (gmap string nat) :=
  match keywords with
  | [] => Ok keywordMatches
  | keyword :: rest =>
      n ← countKeyword host text keyword;
      scoreKeywords host text rest (assign keyword n keywordMatches)
  end.

(** [Object.values(keywordMatches).reduce((a, b) => a + b, 0)] *)
Definition total_matches (keywordMatches : gmap string nat) : nat :=
  map_fold (λ _ n acc, acc + n) 0 keywordMatches.

(** ** Summarisation of the page text ([extractMainContent]) *)

Definition truncate (a : Agent) (fullText : string) : string :=
  if (maxContentLength a <? Z.of_nat (String.length fullText))%Z
  then take (Z.to_nat (maxContentLength a)) fullText +:+ "..."
  else fullText.

Definition openai_prompt (keywords : list string) (truncatedText : string) : string :=
  "
        Extract the most important and relevant information from this web page text. 
        Focus especially on information related to these keywords: " +:+ join ", " keywords +:+ ".
        
        Page text:
        " +:+ truncatedText +:+ "
        
        Extract only the main meaningful content. Ignore navigation menus, ads, footers, headers, and other boilerplate elements.
        Format the extracted content in a clean, readable way. Include all relevant facts and details.
        Structure your response with headings and bullet points where appropriate.
        ".

Definition fallback_prompt (keywords : list string) (truncatedText : string) : string :=
  "
    Extract the most important and relevant information from this web page text. 
    Focus especially on information related to these keywords: " +:+ join ", " keywords +:+ ".
    
    Page text:
    " +:+ truncatedText +:+ "
    
    Extract only the main meaningful content. Ignore navigation menus, ads, footers, headers, and other boilerplate elements.
    Format the extracted content in a clean, readable way.
    ".

Definition extractMainContent (a : Agent) (w : PageWorld) (fullText : string)
    (keywords : list string) : Result string :=
  let truncatedText := truncate a fullText in
  let fallback := generateText w (fallback_prompt keywords truncatedText) in
  if has_OPENAI_API_KEY w then
    match openai_completion w (openai_prompt keywords truncatedText) with
    | Ok completion => Ok completion
    | Throw _ => fallback
    end
  else fallback.

(** ** Lightweight fetch: the retry loop of [scrapeWithoutBrowser] *)

(** [while (retries < this.maxRetries) { try { response = await axios.get(..);
    break; } catch (error) { retries++; if (retries >= this.maxRetries) throw
    error; await sleep(this.retryDelay * Math.pow(2, retries)); } }].
    The result is the completion of the loop, with [response] ([None] when it
    is still undefined), and the back-off delays slept, in order, as they
    are passed to [setTimeout].  Every
    iteration that continues increments [retries], so [maxRetries + 1]
    iterations are never exceeded ([fetch_fuel]). *)
Fixpoint retry_loop (fuel : nat) (get : nat → Result Response)
    (maxRetries retryDelay retries : Z) (slept : list Z)
    : Result (option Response) * list Z :=
  match fuel with
  | O => (Ok None, slept)
  | S fuel' =>
      if (retries <? maxRetries)%Z then
        match get (Z.to_nat retries) with
        | Ok response => (Ok (Some response), slept)
        | Throw error =>
            let retries := (retries + 1)%Z in
            if (retries >=? maxRetries)%Z then (Throw error, slept)
            else retry_loop fuel' get maxRetries retryDelay retries
                   (slept ++ [(retryDelay * 2 ^ retries)%Z])
        end
      else (Ok None, slept)
  end.

Definition fetch_fuel (a : Agent) : nat := S (Z.to_nat (maxRetries a)).

Definition fetchWithRetry (a : Agent) (w : PageWorld) (url : string)
    : Result (option Response) * list Z :=
  let userAgent := nth (random_index w) (userAgents a) EmptyString in
  retry_loop (fetch_fuel a) (axios_get w url userAgent)
    (maxRetries a) (retryDelay a) 0 [].

(** ** Content extraction on the parsed markup *)

Definition noise : selector :=
  [ByTag "script"; ByTag "style"; ByTag "nav"; ByTag "footer"; ByTag "iframe";
   ByTag "noscript"].

Definition main_containers : selector :=
  [ByTag "main"; ByTag "article"; ById "content"; ByClass "content";
   ByClass "post"; ByClass "article"].

Definition block_containers : selector := [ByTag "div"; ByTag "section"].

Definition trimmed_length (el : located) : nat := String.length (trim (text [el])).

(** One turn of [$('div, section').each((i, el) => { ... })] on the pair
    [(maxTextLength, maxTextElement)]. *)
Definition larger (st : nat * selection) (el : located) : nat * selection :=
  let textLength := trimmed_length el in
  if (fst st <? textLength)%nat then (textLength, [el]) else st.

(** The fallback to the largest text container. *)
Definition largestTextContainer (doc : node) : selection :=
  snd (fold_left larger (query doc block_containers) (0, query doc [ByTag "body"])).

Definition mainElementOf (doc : node) : selection :=
  let mainElement := query doc main_containers in
  if (length mainElement =? 0)%nat then largestTextContainer doc else mainElement.

(** [parseInt(el.name.substring(1))] on [h1] .. [h6] *)
Definition heading_level (tag : string) : nat :=
  match tag with
  | String _ (String d _) => default 0 (Ascii.is_nat d)
  | _ => 0
  end.

Definition collect_headings (mainElement : selection) : list Heading :=
  flat_map
    (λ el, let content := trim (text [el]) in
           if truthy content then [mkHeading (heading_level (tag_of (snd el))) content]
           else [])
    (find mainElement [ByTag "h1"; ByTag "h2"; ByTag "h3"; ByTag "h4"; ByTag "h5"; ByTag "h6"]).

Definition collect_links (mainElement : selection) : list Link :=
  flat_map
    (λ el, let href := default EmptyString (attr [el] "href") in
           let text := trim (text [el]) in
           if truthy href && truthy text && negb (startsWith href "#")
           then [mkLink href text] else [])
    (find mainElement [ByTagAttr "a" "href"]).

(** ** [scrapeWithoutBrowser] *)

Definition failed_lightweight (w : PageWorld) (url : string) (e : Error) : PageResult := {|
  url := url; title := None; description := None;
  success := false;
  timestamp := Some (now_iso w);
  mainContent := None; keywordMatches := None; totalKeywordMatches := None;
  textLength := None; headings := None; links := None;
  method := Some "lightweight";
  screenshotUrl := None;
  error := Some (message e)
|}.

(** The [try] block. *)
Definition scrapeWithoutBrowser_body (a : Agent) (w : PageWorld) (url : string)
    (keywords : list string) : Result PageResult :=
  response ← fst (fetchWithRetry a w url);
  html ← match response with
         | Some r => Ok (data r)
         | None => Throw (new_TypeError "Cannot read properties of undefined (reading 'data')")
         end;
  let doc := cheerio_load w html in
  let title := trim (text (query doc [ByTag "title"])) in
  let description :=
    or_else (default EmptyString (attr (query doc [ByTagAttrEq "meta" "name" "description"]) "content"))
      (or_else (default EmptyString (attr (query doc [ByTagAttrEq "meta" "property" "og:description"]) "content"))
         EmptyString) in
  let doc := remove noise doc in
  let mainElement := mainElementOf doc in
  let textContent := collapse_spaces (trim (text mainElement)) in
  let headings := collect_headings mainElement in
  let links := collect_links mainElement in
  keywordMatches ← scoreKeywords (host_regexp w) textContent keywords ∅;
  mainContent ← (if enableAIExtraction a
                 then extractMainContent a w textContent keywords
                 else Ok textContent);
  Ok {|
    url := url;
    title := Some title;
    description := Some (Some description);
    success := true;
    timestamp := Some (now_iso w);
    mainContent := Some mainContent;
    keywordMatches := Some keywordMatches;
    totalKeywordMatches := Some (total_matches keywordMatches);
    textLength := Some (String.length textContent);
    headings := Some headings;
    links := Some (slice0 links 20);
    method := Some "lightweight";
    screenshotUrl := None;
    error := None
  |}.

Definition scrapeWithoutBrowser (a : Agent) (w : PageWorld) (url : string)
    (keywords : list string) : PageResult :=
  match scrapeWithoutBrowser_body a w url keywords with
  | Ok result => result
  | Throw error => failed_lightweight w url error
  end.

(** ** [scrapePage]: the rendered fetch *)

Definition failed_rendered (w : PageWorld) (url : string) (e : Error) : PageResult := {|
  url := url; title := None; description := None;
  success := false;
  timestamp := Some (now_iso w);
  mainContent := None; keywordMatches := None; totalKeywordMatches := None;
  textLength := None; headings := None; links := None;
  method := None;
  screenshotUrl := None;
  error := Some (message e)
|}.

(** [url.replace(/[^a-z0-9]/gi, "_")] *)
Fixpoint sanitize (s : string) : string :=
  match s with
  | EmptyString => EmptyString
  | String c s' => String (if is_alnum c then c else "_"%char) (sanitize s')
  end.

Definition screenshot_path (w : PageWorld) (url : string) : string :=
  "screenshots/" +:+ pretty (now_ms w) +:+ "_" +:+ sanitize url +:+ ".png".

(** The [try] block. *)
Definition scrapePage_body (a : Agent) (w : PageWorld) (url : string)
    (keywords : list string) : Result PageResult :=
  _ ← page_setUserAgent w;
  _ ← page_goto w url;
  title ← page_title w;
  description ← try_catch (page_meta_description w) (λ _, Ok (Some EmptyString));
  screenshot ← page_screenshot w;
  content ← page_content w;
  textContent ← page_innerText w;
  mainContent ← extractMainContent a w textContent keywords;
  keywordMatches ← scoreKeywords (host_regexp w) textContent keywords ∅;
  screenshotUrl ← storage_uploadFile w (screenshot_path w url);
  Ok {|
    url := url;
    title := Some title;
    description := Some description;
    success := true;
    timestamp := Some (now_iso w);
    mainContent := Some mainContent;
    keywordMatches := Some keywordMatches;
    totalKeywordMatches := Some (total_matches keywordMatches);
    textLength := Some (String.length textContent);
    headings := None;
    links := None;
    method := None;
    screenshotUrl := Some screenshotUrl;
    error := None
  |}.

Definition scrapePage (a : Agent) (w : PageWorld) (url : string)
    (keywords : list string) : Result PageResult :=
  _ ← browser_newPage w;
  try_finally
    (try_catch (scrapePage_body a w url keywords)
       (λ error, Ok (failed_rendered w url error)))
    (page_close w).

(** ** [scrapeUrl]: strategy, then fetch.  The job passes no browser, so
    one is launched and closed around the page. *)
Definition scrapeUrl (a : Agent) (w : PageWorld) (url : string)
    (keywords : list string) : Result PageResult :=
  match selectStrategy a url with
  | Lightweight => Ok (scrapeWithoutBrowser a w url keywords)
  | Rendered =>
      _ ← puppeteer_launch w;
      result ← scrapePage a w url keywords;
      _ ← browser_close w;
      Ok result
  end.

(** ** URL discovery ([searchForUrls]) *)

Definition hex_digit (n : N) : ascii :=
  if (n <? 10)%N then ascii_of_N (48 + n) else ascii_of_N (55 + n).

Definition percent (byte : N) : string :=
  String "%" (String (hex_digit (byte / 16)) (String (hex_digit (byte mod 16)) EmptyString)).

(** The characters [encodeURIComponent] leaves alone. *)
Definition uri_unreserved (c : ascii) : bool :=
  is_alnum c || existsb (Ascii.eqb c) (list_ascii_of_string "-_.!~*'()").

(** [encodeURIComponent]: every other code unit is written as the
    percent-escaped bytes of its UTF-8 encoding (one byte below 128, two
    bytes from 128 to 255). *)
Fixpoint encodeURIComponent (s : string) : string :=
  match s with
  | EmptyString => EmptyString
  | String c s' =>
      (if uri_unreserved c then String c EmptyString
       else if (code c <? 128)%N then percent (code c)
       else percent (192 + code c / 64) +:+ percent (128 + code c mod 64))
      +:+ encodeURIComponent s'
  end.

Fixpoint literal (s : string) : Regex.regex :=
  match s with
  | EmptyString => Regex.REmpty
  | String c s' => Regex.RSeq (Regex.RChar c) (literal s')
  end.

(** [/who is|what is|when did|where is/i] *)
Definition interrogative : Regex.regex :=
  Regex.RAlt (literal "who is")
    (Regex.RAlt (literal "what is")
       (Regex.RAlt (literal "when did") (literal "where is"))).

(** [s.match(re)] is not [null], for a [re] without the [g] flag. *)
Definition test (r : Regex.regex) (s : string) : bool :=
  bool_decide (is_Some (Regex.exec r None s)).

(** [s.replace(re, '')] for a [re] without the [g] flag: the first match
    is cut out. *)
Definition remove_first (r : Regex.regex) (s : string) : string :=
  match Regex.exec r None s with
  | Some (b, e) => take (String.length s - Regex.remaining b) s +:+ snd e
  | None => s
  end.

(** The [try] block; [logActivity] is inherited from [BaseAgent] and its
    completion is given. *)
Definition searchForUrls_body (logActivity : Result unit) (query : string)
    (maxResults : Z) : Result (list string) :=
  _ ← logActivity;
  let queryLower := toLowerCase query in
  let predefinedUrls :=
    if includes queryLower "weather" then ["https://weather.com/"]
    else if includes queryLower "news" then ["https://news.google.com/"]
    else if test interrogative queryLower then
      let topic := trim (remove_first interrogative query) in
      if truthy topic
      then ["https://en.wikipedia.org/wiki/" +:+ encodeURIComponent topic]
      else []
    else [] in
  if (0 <? length predefinedUrls)%nat then Ok (slice0 predefinedUrls maxResults)
  else
    let fallbackSources :=
      [ "https://en.wikipedia.org/wiki/Special:Search?search=" +:+ encodeURIComponent query;
        "https://www.britannica.com/search?query=" +:+ encodeURIComponent query ] in
    Ok (slice0 fallbackSources maxResults).

Definition searchForUrls (logActivity : Result unit) (query : string)
    (maxResults : Z) : list string :=
  match searchForUrls_body logActivity query maxResults with
  | Ok urls => urls
  | Throw _ => []
  end.

(** The handler of [createCallableFunction] up to the start of the job:
    the validation of the input and the choice of the URLs.  [None] is an
    absent field of [data] or of [options]. *)
Definition urlsToScrape (a : Agent) (logActivity : Result unit) (url query : option string)
    (maxSearchResults : option Z) : Result (list string) :=
  let url := default EmptyString url in
  let query := default EmptyString query in
  if negb (truthy url) && negb (truthy query)
  then Throw (new_Error "Either url or query must be provided")
  else if negb (truthy url) && truthy query && searchEnabled a
  then Ok (searchForUrls logActivity query (number_or maxSearchResults 3))
  else if truthy url then Ok [url]
  else Ok [].

(** ** The job controller ([runScrapingJob]) *)

Inductive Status := Queued | Running | Completed | Failed.

(** A document of the [scrapingJobs] collection. *)
Record JobDoc := mkJobDoc {
  urls : list string;
  keywords : list string;
  taskId : option string;
  status : Status;
  startedAt : bool;
  endedAt : bool;
  scrapedDataId : option string;
  rawDataPath : option string;
  resultCount : option nat;
  successCount : option nat;
  job_error : option string
}.

(** A document of the [scrapedData] collection. *)
Record ScrapedDoc := mkScrapedDoc {
  sd_jobId : string;
  sd_taskId : option string;
  results : list PageResult;
  autoProcess : bool
}.

(** The persistence and storage collaborators: the two collections and the
    raw result dumps, by path.  The other effects of a run, the screenshot
    that [scrapePage] uploads for a rendered page and the entries of the
    activity log, are completions of calls in the page and job worlds and
    leave no content here. *)
Record Store := mkStore {
  scrapingJobs : gmap string JobDoc;
  scrapedData : gmap string ScrapedDoc;
  rawFiles : gmap string (list PageResult)
}.

(** The outside world during one run of a job: the completion of every
    call to a collaborator, and the world of each URL by its index. *)
Record JobWorld := mkJobWorld {
  update_running : Result unit;
  get_job : Result unit;
  pages : nat → PageWorld;
  set_results : Result unit;
  upload_raw : Result unit;
  update_completed : Result unit;
  log_completed : Result unit;
  update_failed : Result unit;
  log_failed : Result unit
}.

(** Computations on the store that may throw. *)
Definition Eff (A : Type) : Type := Store → Result A * Store.

Definition eff_ret {A} (a : A) : Eff A := λ s, (Ok a, s).

Definition eff_bind {A B} (f : A → Eff B) (m : Eff A) : Eff B :=
  λ s, match m s with
       | (Ok a, s') => f a s'
       | (Throw e, s') => (Throw e, s')
       end.

Global Instance eff_mret : MRet Eff := @eff_ret.
Global Instance eff_mbind : MBind Eff := @eff_bind.

Definition eff_try {A} (body : Eff A) (handler : Error → Eff A) : Eff A :=
  λ s, match body s with
       | (Ok a, s') => (Ok a, s')
       | (Throw e, s') => handler e s'
       end.

(** A call whose only effect is its completion. *)
Definition call {A} (r : Result A) : Eff A := λ s, (r, s).

(** [db.collection("scrapingJobs").doc(jobId).update(fields)]: fails when
    the service does or when there is no such document. *)
Definition job_update (outcome : Result unit) (jobId : string)
    (fields : JobDoc → JobDoc) : Eff unit :=
  λ s, match outcome, scrapingJobs s !! jobId with
       | Throw e, _ => (Throw e, s)
       | Ok _, None => (Throw (new_Error "No document to update"), s)
       | Ok _, Some doc =>
           (Ok tt, mkStore (<[jobId := fields doc]> (scrapingJobs s))
                     (scrapedData s) (rawFiles s))
       end.

(** [(await db.collection("scrapingJobs").doc(jobId).get()).data()], then
    the first property read on it. *)
Definition job_data (outcome : Result unit) (jobId : string) : Eff JobDoc :=
  λ s, match outcome, scrapingJobs s !! jobId with
       | Throw e, _ => (Throw e, s)
       | Ok _, None =>
           (Throw (new_TypeError "Cannot read properties of undefined (reading 'urls')"), s)
       | Ok _, Some doc => (Ok doc, s)
       end.

Definition scraped_set (outcome : Result unit) (id : string) (doc : ScrapedDoc) : Eff unit :=
  λ s, match outcome with
       | Throw e => (Throw e, s)
       | Ok _ => (Ok tt, mkStore (scrapingJobs s) (<[id := doc]> (scrapedData s)) (rawFiles s))
       end.

Definition raw_upload (outcome : Result unit) (path : string) (body : list PageResult)
    : Eff unit :=
  λ s, match outcome with
       | Throw e => (Throw e, s)
       | Ok _ => (Ok tt, mkStore (scrapingJobs s) (scrapedData s) (<[path := body]> (rawFiles s)))
       end.

(** The object pushed by the [catch] of the per-URL loop. *)
Definition failed_page (url : string) (pageError : Error) : PageResult := {|
  url := url; title := None; description := None;
  success := false;
  timestamp := None;
  mainContent := None; keywordMatches := None; totalKeywordMatches := None;
  textLength := None; headings := None; links := None;
  method := None;
  screenshotUrl := None;
  error := Some (message pageError)
|}.

(** The body of the per-URL loop: what is pushed on [scrapedData]. *)
Definition scrapeOne (a : Agent) (w : PageWorld) (url : string)
    (keywords : list string) : PageResult :=
  match scrapeUrl a w url keywords with
  | Ok pageData => pageData
  | Throw pageError => failed_page url pageError
  end.

(** [for (const url of jobData.urls) { ... }], from the [i]-th URL on. *)
Fixpoint scrapeAll (a : Agent) (pages : nat → PageWorld) (i : nat)
    (urls : list string) (keywords : list string) (scrapedData : list PageResult)
    : list PageResult :=
  match urls with
  | [] => scrapedData
  | url :: rest =>
      scrapeAll a pages (S i) rest keywords
        (scrapedData ++ [scrapeOne a (pages i) url keywords])
  end.

(** The identifiers bound where [runScrapingJob] evaluates
    [browser.close()]: the constants of the module and the parameter and
    constants of the function ([url], [pageData] and [pageError] belong to
    the blocks of the loop).  No global of the runtime is named [browser]
    either. *)
Definition bindings_in_scope : list string :=
  [ "BaseAgent"; "puppeteer"; "admin"; "db"; "storage"; "scheduler"; "config";
    "cheerio"; "axios"; "ScraperAgent"; "scraperAgent";
    "jobId"; "jobDoc"; "jobData"; "scrapedData"; "scrapedDataId"; "rawDataPath" ].

(** Evaluation of a reference to the identifier [x] at that point. *)
Definition resolve (x : string) : Result unit :=
  if bool_decide (x ∈ bindings_in_scope) then Ok tt
  else Throw (new_ReferenceError (x +:+ " is not defined")).

Definition count_success (scrapedData : list PageResult) : nat :=
  length (filter (λ d, success d = true) scrapedData).

(** The [try] block of [runScrapingJob]. *)
Definition runScrapingJob_body (a : Agent) (w : JobWorld) (jobId : string) : Eff unit :=
  _ ← job_update (update_running w) jobId
        (λ d, mkJobDoc (urls d) (keywords d) (taskId d) Running true (endedAt d)
                (scrapedDataId d) (rawDataPath d) (resultCount d) (successCount d)
                (job_error d));
  jobData ← job_data (get_job w) jobId;
  let scrapedData := scrapeAll a (pages w) 0 (urls jobData) (keywords jobData) [] in
  _ ← call (resolve "browser");
  let scrapedDataId := "scrape_result_" +:+ jobId in
  _ ← scraped_set (set_results w) scrapedDataId
        (mkScrapedDoc jobId (taskId jobData) scrapedData true);
  let rawDataPath := "scraping/" +:+ scrapedDataId +:+ ".json" in
  _ ← raw_upload (upload_raw w) rawDataPath scrapedData;
  _ ← job_update (update_completed w) jobId
        (λ d, mkJobDoc (urls d) (keywords d) (taskId d) Completed (startedAt d) true
                (Some scrapedDataId) (Some rawDataPath)
                (Some (length scrapedData)) (Some (count_success scrapedData))
                (job_error d));
  call (log_completed w).

Definition runScrapingJob (a : Agent) (w : JobWorld) (jobId : string) : Eff unit :=
  eff_try (runScrapingJob_body a w jobId)
    (λ error,
       _ ← job_update (update_failed w) jobId
             (λ d, mkJobDoc (urls d) (keywords d) (taskId d) Failed (startedAt d) true
                     (scrapedDataId d) (rawDataPath d) (resultCount d) (successCount d)
                     (Some (message error)));
       call (log_failed w)).

End Scraper.

(* ===================================================================== *)
(** * The single-URL callable ([web-scraper.js])                          *)
(* ===================================================================== *)

Module Single.

Import Dom.

(** The fields of [options] that the functions read. *)
Record Options := mkOptions {
  opt_maxRetries : option Z;
  opt_maxLength : option Z
}.

(** What the code reads of an axios response. *)
Record HttpResponse := mkHttpResponse {
  status : Z;
  data : string;
  responseUrl : option string
}.

Record Scraped := mkScraped {
  html : string;
  scraped_url : string;
  scraped_status : Z
}.

(** The [try] block of one iteration of [scrapeUrl], on the completion of
    [axios.get]: a status other than 200 is thrown as an error. *)
Definition attempt (url : string) (got : Result HttpResponse) : Result Scraped :=
  response ← got;
  if negb (status response =? 200)%Z
  then Throw (new_Error ("HTTP Error: " +:+ pretty (status response)))
  else Ok (mkScraped (data response)
             (or_else (default EmptyString (responseUrl response)) url)
             (status response)).

(** The loop of [scrapeUrl]: the last failure is rethrown wrapped.  [None]
    is the [undefined] returned when the loop is not entered. *)
Fixpoint retry_loop (fuel : nat) (get : nat → Result HttpResponse) (url : string)
    (maxRetries retries : Z) (slept : list Z) : Result (option Scraped) * list Z :=
  match fuel with
  | O => (Ok None, slept)
  | S fuel' =>
      if (retries <? maxRetries)%Z then
        match attempt url (get (Z.to_nat retries)) with
        | Ok scraped => (Ok (Some scraped), slept)
        | Throw error =>
            let retries := (retries + 1)%Z in
            if (retries >=? maxRetries)%Z
            then (Throw (new_Error ("Failed to scrape URL after " +:+ pretty maxRetries
                                      +:+ " attempts: " +:+ message error)), slept)
            else retry_loop fuel' get url maxRetries retries
                   (slept ++ [(1000 * 2 ^ retries)%Z])
        end
      else (Ok None, slept)
  end.

Definition scrapeUrl (get : string → nat → Result HttpResponse) (url : string)
    (options : Options) : Result (option Scraped) * list Z :=
  let maxRetries := Scraper.number_or (opt_maxRetries options) 3 in
  retry_loop (S (Z.to_nat maxRetries)) (get url) url maxRetries 0 [].

Definition noise : selector :=
  [ByTag "script"; ByTag "style"; ByTag "nav"; ByTag "footer"; ByTag "iframe";
   ByTag "noscript"; ByTag "svg"; ByAttrEq "role" "banner"; ByAttrEq "role" "navigation"].

(** The main element of [extractContent]: after the removal of the noise,
    the same statements as in [scrapeWithoutBrowser]. *)
Definition extractContent_mainElement (doc : node) : selection :=
  Scraper.mainElementOf (remove noise doc).

Record Extracted := mkExtracted {
  title : string;
  description : string;
  text : string;
  headings : list Scraper.Heading
}.

(** The object [processWithAI] returns; [error] is present on the fallback
    only. *)
Record Processed := mkProcessed {
  summary : string;
  keyPoints : list string;
  topics : list string;
  sentiment : string;
  entities : list string;
  error : option string
}.

Definition ai_context (extractedData : Extracted) (url : string) (text : string) : string :=
  "
URL: " +:+ url +:+ "
TITLE: " +:+ title extractedData +:+ "
DESCRIPTION: " +:+ description extractedData +:+ "

CONTENT:
" +:+ text +:+ "

HEADINGS:
" +:+ join (String (ascii_of_N 10) EmptyString)
        (map (λ h, String.concat EmptyString (replicate (Scraper.level h) "-") +:+ " "
                   +:+ Scraper.content h)
           (headings extractedData)) +:+ "
".

(** [openai] gives, for a context, the completion parsed by [JSON.parse];
    a service error and a malformed response are both a [Throw].  Of the
    object returned on success, the fields [processedAt] and [tokens] that
    are added to the parsed response are left out. *)
Definition processWithAI (openai : string → Result Processed)
    (extractedData : Extracted) (url : string) (options : Options) : Processed :=
  let maxLength := Scraper.number_or (opt_maxLength options) 9000 in
  let text := take (Z.to_nat maxLength) (text extractedData) in
  match openai (ai_context extractedData url text) with
  | Ok aiResponse => aiResponse
  | Throw error =>
      {| summary := "Failed to generate AI summary. Original title: "
                      +:+ title extractedData +:+ ". Description: "
                      +:+ description extractedData;
         keyPoints := [];
         topics := [];
         sentiment := "unknown";
         entities := [];
         error := Some (message error) |}
  end.

End Single.

(* ===================================================================== *)
(** * The specification's reading of "the host of a URL"                  *)
(* ===================================================================== *)

Module SpecHost.

(** What follows the first ["://"], or the whole string without one. *)
Fixpoint after_scheme (s : string) : option string :=
  match s with
  | EmptyString => None
  | String c s' =>
      match s with
      | String ":" (String "/" (String "/" rest)) => Some rest
      | _ => after_scheme s'
      end
  end.

(** The first of [/ ? #] ends the authority of a URL. *)
Definition ends_authority (c : ascii) : bool :=
  existsb (Ascii.eqb c) (list_ascii_of_string "/?#").

(** The code units of [s] before the first one that [stop] accepts. *)
Fixpoint take_until (stop : ascii → bool) (s : string) : string :=
  match s with
  | EmptyString => EmptyString
  | String c s' => if stop c then EmptyString else String c (take_until stop s')
  end.

(** The authority: what stands between the scheme separator and the first
    of [/ ? #]. *)
Definition authority (url : string) : string :=
  take_until ends_authority (default url (after_scheme url)).

(** What follows the last [@]: the authority without its user
    information ([user:password@]). *)
Fixpoint after_userinfo (s : string) : string :=
  match s with
  | EmptyString => EmptyString
  | String c s' =>
      if includes s' "@" then after_userinfo s'
      else if Ascii.eqb c "@" then s' else s
  end.

(** The host as the URL writes it: the authority without user information
    and without port. *)
Definition written_host (url : string) : string :=
  take_until (Ascii.eqb ":") (after_userinfo (authority url)).

(** The host of a URL, as the specification's allow-list rule reads it:
    the name of a host is read without regard to the case of its letters. *)
Definition host (url : string) : string := toLowerCase (written_host url).






End SpecHost.

(* ===================================================================== *)
(** * Sample pages, worlds and jobs                                       *)
(* ===================================================================== *)

Module Sample.

Import Dom Scraper.

Definition article_page : node :=
  Element "html" []
    [ Element "head" []
        [ Element "title" [] [Text " Large language models "];
          Element "meta" [("name", "description"); ("content", "About GPT-4")] [];
          Element "script" [] [Text "track()"] ];
      Element "body" []
        [ Element "nav" [] [Element "a" [("href", "/")] [Text "Home"]];
          Element "div" [("id", "intro")]
            [ Element "h1" [] [Text "GPT-4"];
              Text "GPT-4 is here. ";
              Element "a" [("href", "/gpt-4")] [Text "GPT-4"];
              Text " rocks." ];
          Element "section" [] [Text "  "];
          Element "footer" [] [Text "Contact"] ] ].

Definition ok_response : Response := mkResponse "<html>...</html>".

(** A world in which every collaborator answers. *)
Definition world : PageWorld := {|
  random_index := 1;
  axios_get := λ _ _ _, Ok ok_response;
  cheerio_load := λ _, article_page;
  host_regexp := λ _, Throw (new_SyntaxError "Invalid regular expression");
  now_iso := "2025-01-01T00:00:00.000Z";
  now_ms := 1735689600000%N;
  puppeteer_launch := Ok tt;
  browser_newPage := Ok tt;
  page_setUserAgent := Ok tt;
  page_goto := λ _, Ok tt;
  page_title := Ok "Large language models";
  page_meta_description := Ok (Some "About GPT-4");
  page_screenshot := Ok "PNG";
  page_content := Ok "<html>...</html>";
  page_innerText := Ok "GPT-4 is here. GPT-4 rocks.";
  page_close := Ok tt;
  browser_close := Ok tt;
  storage_uploadFile := λ path, Ok ("https://storage.example/" +:+ path);
  has_OPENAI_API_KEY := true;
  openai_completion := λ _, Ok "GPT-4 was released.";
  generateText := λ _, Ok "GPT-4 was released."
|}.

Definition timeout : Error := new_Error "timeout of 15000ms exceeded".
Definition unavailable : Error := new_Error "503 Service Unavailable".

(** The first two requests time out, the third is answered. *)
Definition flaky_get (url userAgent : string) (n : nat) : Result Response :=
  if n <? 2 then Throw timeout else Ok ok_response.

(** No request is ever answered. *)
Definition dead_get (url userAgent : string) (n : nat) : Result Response :=
  Throw timeout.

(** The world [w] with both summarisation backends failing. *)
Definition without_summarizer (w : PageWorld) : PageWorld :=
  mkPageWorld (random_index w) (axios_get w) (cheerio_load w) (host_regexp w) (now_iso w)
    (now_ms w) (puppeteer_launch w) (browser_newPage w) (page_setUserAgent w) (page_goto w)
    (page_title w) (page_meta_description w) (page_screenshot w) (page_content w)
    (page_innerText w) (page_close w) (browser_close w) (storage_uploadFile w)
    (has_OPENAI_API_KEY w) (λ _, Throw unavailable) (λ _, Throw unavailable).

Definition single_flaky (url : string) (n : nat) : Result Single.HttpResponse :=
  if n <? 2 then Ok (Single.mkHttpResponse 503 EmptyString None)
  else Ok (Single.mkHttpResponse 200 "<html>...</html>" None).

Definition single_ok (url : string) (n : nat) : Result Single.HttpResponse :=
  Ok (Single.mkHttpResponse 200 "<html>...</html>" None).

Definition single_dead (url : string) (n : nat) : Result Single.HttpResponse :=
  Ok (Single.mkHttpResponse 503 EmptyString None).

Definition no_options : Single.Options := Single.mkOptions None None.

(** A job of two URLs, queued. *)
Definition job : JobDoc :=
  mkJobDoc ["https://en.wikipedia.org/wiki/GPT-4"; "https://example.com/gpt"] ["GPT-4"]
    None Queued false false None None None None None.

Definition store : Store := mkStore {[ "scrape_1_7" := job ]} ∅ ∅.

(** Every collaborator of the job answers; every page is [world]. *)
Definition job_world : JobWorld :=
  mkJobWorld (Ok tt) (Ok tt) (λ _, world) (Ok tt) (Ok tt) (Ok tt) (Ok tt) (Ok tt) (Ok tt).

(** Every collaborator of the job answers; no page can be fetched. *)
Definition offline_job_world : JobWorld :=
  mkJobWorld (Ok tt) (Ok tt)
    (λ _, mkPageWorld 0 dead_get (cheerio_load world) (host_regexp world) (now_iso world)
            (now_ms world) (Throw timeout) (Throw timeout) (Throw timeout)
            (λ _, Throw timeout) (Throw timeout) (Throw timeout) (Throw timeout)
            (Throw timeout) (Throw timeout) (Throw timeout) (Throw timeout)
            (λ _, Throw timeout) false (λ _, Throw unavailable) (λ _, Throw unavailable))
    (Ok tt) (Ok tt) (Ok tt) (Ok tt) (Ok tt) (Ok tt).

End Sample.

(* ===================================================================== *)
(** * The two shapes of a page result                                     *)
(* ===================================================================== *)

Module Shape.

Import Scraper.

Definition content_populated (r : PageResult) : Prop :=
  is_Some (title r) ∧ is_Some (mainContent r) ∧ is_Some (keywordMatches r) ∧
  is_Some (totalKeywordMatches r) ∧ is_Some (textLength r).

Definition content_absent (r : PageResult) : Prop :=
  title r = None ∧ description r = None ∧ mainContent r = None ∧
  keywordMatches r = None ∧ totalKeywordMatches r = None ∧ textLength r = None ∧
  headings r = None ∧ links r = None ∧ screenshotUrl r = None.

Definition succeeded (r : PageResult) : Prop :=
  success r = true ∧ content_populated r ∧ error r = None.

Definition failed (r : PageResult) : Prop :=
  success r = false ∧ is_Some (error r) ∧ content_absent r.

(** The shape of a successful rendered scrape. *)
Definition rendered_fields (r : PageResult) : Prop :=
  is_Some (screenshotUrl r) ∧ headings r = None ∧ links r = None ∧ method r = None.

(** The shape of a successful lightweight scrape; [collected] are the links
    found in the main element. *)
Definition lightweight_fields (r : PageResult) : Prop :=
  is_Some (headings r) ∧
  (∃ collected, links r = Some (firstn 20 collected)) ∧
  method r = Some "lightweight" ∧ screenshotUrl r = None.

End Shape.

(* ===================================================================== *)
(** * Sample markup without a semantic container                          *)
(* ===================================================================== *)

Module Markup.

Import Dom.

Fixpoint filler (n : nat) (c : ascii) : string :=
  match n with
  | O => EmptyString
  | S n' => String c (filler n' c)
  end.

Definition short_div : node := Element "div" [] [Text ("  " +:+ filler 100 "a" +:+ " ")].
Definition long_div : node := Element "div" [] [Text (filler 500 "b")].
Definition other_short_div : node := Element "div" [] [Text (filler 100 "c")].

(** Two [div]s of trimmed text lengths 100 and 500. *)
Definition two_divs : node :=
  Element "html" [] [Element "head" [] []; Element "body" [] [short_div; long_div]].

(** Two [div]s of the same trimmed text length. *)
Definition tied_divs : node :=
  Element "html" [] [Element "head" [] []; Element "body" [] [short_div; other_short_div]].

(** Containers with white space only. *)
Definition blank_divs : node :=
  Element "html" [] [Element "head" [] [];
                     Element "body" [] [Text "loose text";
                                        Element "div" [] [Text "   "];
                                        Element "section" [] []]].

End Markup.

(* ===================================================================== *)
(** * Unavailability of the summarisation backends                        *)
(* ===================================================================== *)

Module Backend.

Import Scraper.

(** Every summarisation stage fails, whatever the prompt. *)
Definition unavailable (w : PageWorld) : Prop :=
  (∀ prompt, is_ok (openai_completion w prompt) = false) ∧
  (∀ prompt, is_ok (generateText w prompt) = false).

End Backend.

(* ===================================================================== *)
(** * Keywords without pattern syntax                                     *)
(* ===================================================================== *)

Module Keyword.

(** The characters with a meaning in a pattern. *)
Definition syntax_char (c : ascii) : bool :=
  existsb (Ascii.eqb c) (list_ascii_of_string "()|^$.[{\*+?").

(** A keyword that is read as the sequence of its characters. *)
Fixpoint plain (keyword : string) : bool :=
  match keyword with
  | EmptyString => true
  | String c rest => negb (syntax_char c) && plain rest
  end.

(** The frame after reading the characters of a plain keyword. *)
Fixpoint push_chars (keyword : string) (f : Regex.frame) : Regex.frame :=
  match keyword with
  | EmptyString => f
  | String c rest => push_chars rest (Regex.push_term f (Regex.RChar c) true)
  end.

(** The pattern [\bkeyword\b] of a plain keyword. *)
Definition word_pattern (keyword : string) : Regex.regex :=
  Regex.close_frame
    (Regex.push_term
       (push_chars keyword (Regex.push_term Regex.empty_frame (Regex.RWordB false) false))
       (Regex.RWordB false) false).

(** The characters of [keyword] in sequence, then [tail]. *)
Fixpoint chars_then (keyword : string) (tail : Regex.regex) : Regex.regex :=
  match keyword with
  | EmptyString => tail
  | String c rest => Regex.RSeq (Regex.RChar c) (chars_then rest tail)
  end.

(** [p] is a prefix of [s] up to the case of the letters. *)
Fixpoint prefix_ci (p s : string) : bool :=
  match p, s with
  | EmptyString, _ => true
  | String c p', String d s' => Regex.same_char c d && prefix_ci p' s'
  | String _ _, EmptyString => false
  end.

(** [p] occurs in [s] up to the case of the letters. *)
Fixpoint occurs_ci (p s : string) : bool :=
  prefix_ci p s ||
  match s with
  | EmptyString => false
  | String _ s' => occurs_ci p s'
  end.

End Keyword.

(* ===================================================================== *)
(** * More samples: a finished job and a document store that is down      *)
(* ===================================================================== *)

Module Outage.

Import Scraper.

Definition down : Error := new_Error "14 UNAVAILABLE: document store is down".

(** A job that an earlier run would have completed. *)
Definition finished_job : JobDoc :=
  mkJobDoc ["https://en.wikipedia.org/wiki/GPT-4"] ["GPT-4"] None Completed true true
    (Some "scrape_result_scrape_1_7") (Some "scraping/scrape_result_scrape_1_7.json")
    (Some 1) (Some 1) None.

Definition finished_store : Store := mkStore {[ "scrape_1_7" := finished_job ]} ∅ ∅.

(** No call to the document store succeeds. *)
Definition store_down : JobWorld :=
  mkJobWorld (Throw down) (Throw down) (λ _, Sample.world) (Throw down) (Throw down)
    (Throw down) (Throw down) (Throw down) (Throw down).

Definition extracted : Single.Extracted :=
  Single.mkExtracted "Large language models" "About GPT-4" "GPT-4 is here. GPT-4 rocks." [].

End Outage.

(* ===================================================================== *)
(** * The payload of a callable function                                  *)
(* ===================================================================== *)

Module Call.

(** The [data] the platform hands to the handler of a callable function:
    what the client sent.  A call without payload gives [null]; everything
    but [null] and [undefined] can be destructured, and is read here as an
    object with the fields [A]. *)
Inductive Payload (A : Type) : Type :=
| Null
| Undefined
| Object (data : A).
Global Arguments Null {A}.
Global Arguments Undefined {A}.
Global Arguments Object {A} data.

(** [const { first, ... } = data]: destructuring [null] or [undefined]
    throws. *)
Definition destructure {A} (first : string) (data : Payload A) : Result A :=
  match data with
  | Null =>
      Throw (new_TypeError ("Cannot destructure property '" +:+ first
                              +:+ "' of 'data' as it is null."))
  | Undefined =>
      Throw (new_TypeError ("Cannot destructure property '" +:+ first
                              +:+ "' of 'data' as it is undefined."))
  | Object fields => Ok fields
  end.

End Call.

(* ===================================================================== *)
(** * Submitting jobs ([startScraping], the callable, [runDailyScraping]) *)
(* ===================================================================== *)

Module Submission.

Import Scraper.

(** The outside world during one call of [startScraping]. *)
Record StartWorld := mkStartWorld {
  (** [Date.now()] *)
  start_now : N;
  (** [Math.floor(Math.random() * 1000)] *)
  start_random : N;
  (** [db.collection("scrapingJobs").doc(jobId).set(...)] *)
  set_job : Result unit;
  (** [this.logActivity("Scraping job created", ...)] *)
  log_created : Result unit
}.

(** [`scrape_${Date.now()}_${Math.floor(Math.random() * 1000)}`] *)
Definition new_jobId (w : StartWorld) : string :=
  "scrape_" +:+ pretty (start_now w) +:+ "_" +:+ pretty (start_random w).

(** [db.collection("scrapingJobs").doc(jobId).set(doc)]: creates the
    document or replaces it. *)
Definition job_set (outcome : Result unit) (jobId : string) (doc : JobDoc) : Eff unit :=
  λ s, match outcome with
       | Throw e => (Throw e, s)
       | Ok _ => (Ok tt, mkStore (<[jobId := doc]> (scrapingJobs s)) (scrapedData s)
                           (rawFiles s))
       end.

(** The document [startScraping] stores; [None] is [null] or [undefined]
    (an empty array is truthy and is kept). *)
Definition queued_job (a : Agent) (urls keywords : option (list string))
    (taskId : option string) : JobDoc :=
  mkJobDoc (default (defaultUrls a) urls) (default (defaultKeywords a) keywords) taskId
    Queued false false None None None None None.

(** [promise.catch(console.error)] on a promise that is not awaited: the
    computation is started, in a world that is not known yet, and the caller
    goes on at once.  Nothing is written at this moment, and a rejection is
    only printed; what the computation writes while its caller goes on, and
    after the caller has returned, is applied where the store is read
    ([in_flight], [at_return], [settled]). *)
Definition unawaited (run : JobWorld → Eff unit) : Eff unit := λ s, (Ok tt, s).

(** [startScraping]: the writes it awaits.  The run of the job is started
    between the write of the document and the log, and is not awaited
    ([this.runScrapingJob(jobId).catch(console.error)]). *)
Definition startScraping (a : Agent) (w : StartWorld) (urls keywords : option (list string))
    (taskId : option string) : Eff string :=
  eff_try
    (let jobId := new_jobId w in
     _ ← job_set (set_job w) jobId (queued_job a urls keywords taskId);
     _ ← unawaited (λ jw, runScrapingJob a jw jobId);
     _ ← call (log_created w);
     mret jobId)
    (λ error, call (Throw (new_Error ("Failed to start scraping job: " +:+ message error)))).

(** The store once the run that a call of [startScraping] in the world
    [w] started has settled, [after] being the store the call left: the run
    is started as soon as the document is stored, whether or not the log
    that follows succeeds. *)
Definition settled (a : Agent) (jw : JobWorld) (w : StartWorld) (after : Store) : Store :=
  match set_job w with
  | Ok _ => snd (runScrapingJob a jw (new_jobId w) after)
  | Throw _ => after
  end.

(** How far a run that is under way has got at a moment at which the store
    is read.  The first request of the run, the update to [running], is
    issued as soon as the run is started, before [startScraping] awaits its
    log; so the caller of [startScraping] may find the store before any write
    of the run, after its [try] block (whose one write is that update,
    [runScrapingJob_body_writes_once]), or after its [catch] block. *)
Inductive Progress := NotYet | TryOver | Over.

(** The store [s] with the writes that the run of [jobId], in the world
    [jw], has done when it has got as far as [progress]. *)
Definition in_flight (a : Agent) (jw : JobWorld) (jobId : string) (progress : Progress)
    (s : Store) : Store :=
  match progress with
  | NotYet => s
  | TryOver => snd (runScrapingJob_body a jw jobId s)
  | Over => snd (runScrapingJob a jw jobId s)
  end.

(** The store that the caller of [startScraping] finds when the call in
    the world [w] returns or throws, [after] being the store its awaited
    writes left, and the run it started having got as far as [progress]. *)
Definition at_return (a : Agent) (jw : JobWorld) (w : StartWorld) (progress : Progress)
    (after : Store) : Store :=
  match set_job w with
  | Ok _ => in_flight a jw (new_jobId w) progress after
  | Throw _ => after
  end.

(** [job] is the document [queued] that [startScraping] stored, as a run
    under way leaves it: with the URLs, the keywords and the task id
    submitted, without any result, and with the status [queued], [running] or
    [failed]. *)
Definition under_way (queued job : JobDoc) : Prop :=
  urls job = urls queued ∧ keywords job = keywords queued ∧ taskId job = taskId queued ∧
  resultCount job = None ∧ scrapedDataId job = None ∧
  (status job = Queued ∨ status job = Running ∨ status job = Failed).

(** The same for the runs of several jobs, the [i]-th in the world
    [runs i] and as far as [progress i].  A run reads and writes the document
    of its own job only, so that, for ids that differ, the order in which the
    writes of the runs and the awaited writes are applied is immaterial
    ([in_flight_other], [in_flight_set]). *)
Fixpoint in_flight_all (a : Agent) (runs : nat → JobWorld) (progress : nat → Progress)
    (i : nat) (jobIds : list string) (s : Store) : Store :=
  match jobIds with
  | [] => s
  | jobId :: rest =>
      in_flight_all a runs progress (S i) rest
        (in_flight a (runs i) jobId (progress i) s)
  end.

(** The fields of [data] that the handler reads; [None] is an absent field
    (for [keywords], the inner [None] is [null], which the default value [[]]
    does not replace). *)
Record CallData := mkCallData {
  data_url : option string;
  data_query : option string;
  data_keywords : option (option (list string));
  data_maxSearchResults : option Z
}.

(** [keywords], with its default [[]] for an absent field. *)
Definition call_keywords (data : CallData) : option (list string) :=
  default (Some []) (data_keywords data).

Record CallResponse := mkCallResponse {
  resp_success : bool;
  resp_jobId : string;
  resp_message : string;
  resp_urls : list string
}.

(** The handler of [createCallableFunction]; [log_search] is the completion
    of the activity log of the discovery.  Nothing of it stands in a [try]:
    what throws rejects the call. *)
Definition callable (a : Agent) (log_search : Result unit) (w : StartWorld)
    (payload : Call.Payload CallData) : Eff CallResponse :=
  data ← call (Call.destructure "url" payload);
  urlsToScrape ← call (urlsToScrape a log_search (data_url data) (data_query data)
                         (data_maxSearchResults data));
  jobId ← startScraping a w (Some urlsToScrape) (call_keywords data) None;
  mret (mkCallResponse true jobId
          ("Scraping job started with " +:+ pretty (length urlsToScrape) +:+ " URLs")
          urlsToScrape).

(** A document of [scrapingSources], with its id. *)
Record Source := mkSource {
  source_id : string;
  active : bool;
  source_urls : option (list string);
  source_keywords : option (list string)
}.

(** The outside world during [runDailyScraping]: the query of the sources,
    then, for the [i]-th active source, the date and the world of its
    [startScraping], and the final log. *)
Record DailyWorld := mkDailyWorld {
  get_sources : Result unit;
  today_iso : nat → string;
  starts : nat → StartWorld;
  log_daily : Result unit
}.

(** The [k]-th start of the batch meets no failure. *)
Definition starts_well (w : DailyWorld) (k : nat) : Prop :=
  set_job (starts w k) = Ok tt ∧ log_created (starts w k) = Ok tt.

(** [s.split("T")[0]] *)
Fixpoint before_T (s : string) : string :=
  match s with
  | EmptyString => EmptyString
  | String c s' => if Ascii.eqb c "T" then EmptyString else String c (before_T s')
  end.

(** [`daily_${new Date().toISOString().split("T")[0]}_${doc.id}`] *)
Definition daily_taskId (iso : string) (source : Source) : string :=
  "daily_" +:+ before_T iso +:+ "_" +:+ source_id source.

(** [for (const doc of sourcesSnapshot.docs) { ... jobIds.push(jobId); }],
    from the [i]-th document on. *)
Fixpoint startEach (a : Agent) (w : DailyWorld) (i : nat) (docs : list Source)
    (jobIds : list string) : Eff (list string) :=
  match docs with
  | [] => mret jobIds
  | source :: rest =>
      jobId ← startScraping a (starts w i) (source_urls source) (source_keywords source)
                (Some (daily_taskId (today_iso w i) source));
      startEach a w (S i) rest (jobIds ++ [jobId])
  end.

(** The ids of the first [n] starts of the batch. *)
Definition batch_ids (w : DailyWorld) (n : nat) : list string :=
  (λ i, new_jobId (starts w i)) <$> seq 0 n.

(** The ids of the jobs whose run has been started when the [j]-th start
    is the first to fail: those before it, and its own when the document was
    written and only the log failed. *)
Definition started_before_failure (w : DailyWorld) (j : nat) : list string :=
  batch_ids w (if is_ok (set_job (starts w j)) then S j else j).

(** [runDailyScraping] on the collection [scrapingSources]. *)
Definition runDailyScraping (a : Agent) (w : DailyWorld) (scrapingSources : list Source)
    : Eff (list string) :=
  eff_try
    (_ ← call (get_sources w);
     jobIds ← startEach a w 0 (filter (λ source, active source = true) scrapingSources) [];
     _ ← call (log_daily w);
     mret jobIds)
    (λ error, call (Throw (new_Error ("Failed to run daily scraping: " +:+ message error)))).

End Submission.

(* ===================================================================== *)
(** * The single-URL callable, whole ([webScraper])                       *)
(* ===================================================================== *)

Module Handler.

Import Dom.

(** [s.replace(re, rep)] for a [re] with the flags [g] and [i]: every
    match, found as [String.prototype.match] finds them, is replaced. *)
Fixpoint replace_from (fuel : nat) (r : Regex.regex) (rep : string) (x : Regex.pos)
    : string :=
  match fuel with
  | O => snd x
  | S fuel' =>
      match Regex.exec r (fst x) (snd x) with
      | None => snd x
      | Some (b, e) =>
          let kept := take (Regex.remaining x - Regex.remaining b) (snd x) in
          if Nat.eqb (Regex.remaining b) (Regex.remaining e) then
            match snd e with
            | EmptyString => kept +:+ rep
            | String c s' =>
                kept +:+ rep +:+ String c (replace_from fuel' r rep (Some c, s'))
            end
          else kept +:+ rep +:+ replace_from fuel' r rep e
      end
  end.

Definition replace_all (r : Regex.regex) (s rep : string) : string :=
  replace_from (String.length s + 1) r rep (None, s).

(** [/what is|wikipedia|tell me about|who is/gi] *)
Definition stripped : Regex.regex :=
  Regex.RAlt (Scraper.literal "what is")
    (Regex.RAlt (Scraper.literal "wikipedia")
       (Regex.RAlt (Scraper.literal "tell me about") (Scraper.literal "who is"))).

(** [searchForUrl] *)
Definition searchForUrl (query : string) : string :=
  let queryLower := toLowerCase query in
  if includes queryLower "weather" then "https://weather.com/"
  else if includes queryLower "news" then "https://news.google.com/"
  else if includes queryLower "wikipedia" || includes queryLower "what is" then
    let topic := trim (replace_all stripped query EmptyString) in
    "https://en.wikipedia.org/wiki/" +:+ Scraper.encodeURIComponent topic
  else "https://en.wikipedia.org/wiki/Web_scraping".

(** [s.replace(/\\s+/g, ' ')]: the pattern of this literal is a backslash
    followed by one or more letters [s], not white space.  [in_match] tells
    that the code units read are the [s] of a match. *)
Fixpoint replace_backslash_s (in_match : bool) (s : string) : string :=
  match s with
  | EmptyString => EmptyString
  | String c rest =>
      if in_match && Ascii.eqb c "s" then replace_backslash_s true rest
      else if Ascii.eqb c "\" && String.prefix "s" rest
      then String " " (replace_backslash_s true rest)
      else String c (replace_backslash_s false rest)
  end.

(** What [extractContent] returns. *)
Record Page := mkPage {
  fields : Single.Extracted;
  links : list Scraper.Link;
  page_url : string
}.

(** [extractContent]; [load] is the parser of [cheerio]. *)
Definition extractContent (load : string → node) (html url : string) : Page :=
  let doc := remove Single.noise (load html) in
  let title :=
    or_else (trim (text (query doc [ByTag "title"])))
      (or_else (trim (text (firstn 1 (query doc [ByTag "h1"])))) EmptyString) in
  let description :=
    or_else (default EmptyString
               (attr (query doc [ByTagAttrEq "meta" "name" "description"]) "content"))
      (or_else (default EmptyString
                  (attr (query doc [ByTagAttrEq "meta" "property" "og:description"])
                     "content"))
         EmptyString) in
  let mainElement := Scraper.mainElementOf doc in
  let text := replace_backslash_s false (trim (text mainElement)) in
  mkPage
    (Single.mkExtracted title description text (Scraper.collect_headings mainElement))
    (Scraper.collect_links mainElement)
    url.

(** The documents of the collections [scrapes], [scrape_errors] and
    [agent_tasks], without their time stamps. *)
Record ScrapeDoc := mkScrapeDoc {
  scrape_url : string;
  scrape_query : option string;
  raw_title : string;
  raw_description : string;
  raw_textLength : nat;
  processed : Single.Processed;
  scrape_status : string
}.

Record ErrorDoc := mkErrorDoc {
  error_url : option string;
  error_query : option string;
  error_message : string
}.

Record Task := mkTask {
  task_type : string;
  task_source : string;
  task_status : string;
  task_scrapeId : string;
  task_url : string;
  task_title : string
}.

Record Db := mkDb {
  scrapes : gmap string ScrapeDoc;
  scrape_errors : gmap string ErrorDoc;
  agent_tasks : list Task
}.

(** The outside world during one call. *)
Record CallWorld := mkCallWorld {
  axios_get : string → nat → Result Single.HttpResponse;
  cheerio_load : string → node;
  openai : string → Result Single.Processed;
  (** [Date.now()] where the id of the scrape and of the error are built *)
  scrape_now : N;
  error_now : N;
  set_scrape : Result unit;
  add_task : Result unit;
  set_error : Result unit
}.

(** The [data] of a call; [None] is an absent field. *)
Record Request := mkRequest {
  req_url : option string;
  req_query : option string;
  req_options : Single.Options
}.

Record ReplyData := mkReplyData {
  reply_url : string;
  reply_title : string;
  reply_summary : string;
  reply_keyPoints : list string
}.

(** What the callable returns: [{success: true, id, data}] or
    [{success: false, error, errorId}]. *)
Inductive Reply :=
| Done (id : string) (data : ReplyData)
| Failed (error errorId : string).

(** Computations on the collections that may throw. *)
Definition DbEff (A : Type) : Type := Db → Result A * Db.

Definition db_ret {A} (a : A) : DbEff A := λ s, (Ok a, s).

Definition db_bind {A B} (f : A → DbEff B) (m : DbEff A) : DbEff B :=
  λ s, match m s with
       | (Ok a, s') => f a s'
       | (Throw e, s') => (Throw e, s')
       end.

Global Instance dbeff_mret : MRet DbEff := @db_ret.
Global Instance dbeff_mbind : MBind DbEff := @db_bind.

Definition db_try {A} (body : DbEff A) (handler : Error → DbEff A) : DbEff A :=
  λ s, match body s with
       | (Ok a, s') => (Ok a, s')
       | (Throw e, s') => handler e s'
       end.

Definition db_call {A} (r : Result A) : DbEff A := λ s, (r, s).

Definition scrape_set (outcome : Result unit) (id : string) (doc : ScrapeDoc) : DbEff unit :=
  λ s, match outcome with
       | Throw e => (Throw e, s)
       | Ok _ => (Ok tt, mkDb (<[id := doc]> (scrapes s)) (scrape_errors s) (agent_tasks s))
       end.

Definition error_set (outcome : Result unit) (id : string) (doc : ErrorDoc) : DbEff unit :=
  λ s, match outcome with
       | Throw e => (Throw e, s)
       | Ok _ => (Ok tt, mkDb (scrapes s) (<[id := doc]> (scrape_errors s)) (agent_tasks s))
       end.

Definition task_add (outcome : Result unit) (task : Task) : DbEff unit :=
  λ s, match outcome with
       | Throw e => (Throw e, s)
       | Ok _ => (Ok tt, mkDb (scrapes s) (scrape_errors s) (agent_tasks s ++ [task]))
       end.

(** [notifyNextAgent]: the task is queued, or the failure is logged and
    [false] returned. *)
Definition notifyNextAgent (w : CallWorld) (scrapeId : string) (doc : ScrapeDoc)
    : DbEff bool :=
  db_try
    (_ ← task_add (add_task w)
           (mkTask "copywriter" "web_scraper" "pending" scrapeId (scrape_url doc)
              (raw_title doc));
     mret true)
    (λ _, mret false).

(** A string field that is absent or empty is falsy. *)
Definition given (x : option string) : bool := truthy (default EmptyString x).

(** [x || null] *)
Definition or_null (x : option string) : option string :=
  if given x then x else None.

(** [url || await searchForUrl(query)] *)
Definition targetUrl (request : Request) : string :=
  if given (req_url request) then default EmptyString (req_url request)
  else searchForUrl (default EmptyString (req_query request)).

(** [extractedData] and [aiProcessedData] for the markup fetched. *)
Definition extractedData (w : CallWorld) (request : Request) (html : string)
    : Single.Extracted :=
  fields (extractContent (cheerio_load w) html (targetUrl request)).

Definition aiProcessedData (w : CallWorld) (request : Request) (html : string)
    : Single.Processed :=
  Single.processWithAI (openai w) (extractedData w request html) (targetUrl request)
    (req_options request).

Definition scrapeId (w : CallWorld) : string := "scrape_" +:+ pretty (scrape_now w).

(** [scrapeResult], the document stored. *)
Definition scrapeResult (w : CallWorld) (request : Request) (html : string) : ScrapeDoc :=
  mkScrapeDoc (targetUrl request) (or_null (req_query request))
    (Single.title (extractedData w request html))
    (Single.description (extractedData w request html))
    (String.length (Single.text (extractedData w request html)))
    (aiProcessedData w request html) "completed".

(** The object returned on success. *)
Definition done (w : CallWorld) (request : Request) (html : string) : Reply :=
  Done (scrapeId w)
    (mkReplyData (targetUrl request) (Single.title (extractedData w request html))
       (Single.summary (aiProcessedData w request html))
       (Single.keyPoints (aiProcessedData w request html))).

(** The [try] block of [webScraper]. *)
Definition webScraper_body (w : CallWorld) (request : Request) : DbEff Reply :=
  _ ← db_call (if negb (given (req_url request)) && negb (given (req_query request))
               then Throw (new_Error "Either url or query must be provided")
               else Ok tt);
  scrapedContent ← db_call (fst (Single.scrapeUrl (axios_get w) (targetUrl request)
                                   (req_options request)));
  html ← db_call (match scrapedContent with
                  | Some scraped => Ok (Single.html scraped)
                  | None => Throw (new_TypeError
                                     "Cannot read properties of undefined (reading 'html')")
                  end);
  _ ← scrape_set (set_scrape w) (scrapeId w) (scrapeResult w request html);
  _ ← notifyNextAgent w (scrapeId w) (scrapeResult w request html);
  mret (done w request html).

(** [webScraper], from its [try] on, for the fields [request] that the
    handler destructured from its payload. *)
Definition webScraper (w : CallWorld) (request : Request) : DbEff Reply :=
  db_try (webScraper_body w request)
    (λ error,
       let errorId := "scrape_error_" +:+ pretty (error_now w) in
       _ ← error_set (set_error w) errorId
             (mkErrorDoc (or_null (req_url request)) (or_null (req_query request))
                (message error));
       mret (Failed (message error) errorId)).

(** The handler as the platform calls it.  The destructuring of [data]
    ([const { url, query, options = {} } = data]) and [getFirestore()] stand
    before the [try]: what they throw rejects the call. *)
Definition onCall (getFirestore : Result unit) (w : CallWorld)
    (data : Call.Payload Request) : DbEff Reply :=
  request ← db_call (Call.destructure "url" data);
  _ ← db_call getFirestore;
  webScraper w request.

End Handler.

(* ===================================================================== *)
(** * Sample sources for the daily batch                                  *)
(* ===================================================================== *)

Module Daily.

Import Scraper Submission.

Definition sources : list Source :=
  [ mkSource "models" true (Some ["https://en.wikipedia.org/wiki/GPT-4"]) (Some ["GPT-4"]);
    mkSource "retired" false (Some ["https://example.com/old"]) None;
    mkSource "weather" true None None ].

(** Every start succeeds. *)
Definition fine : DailyWorld :=
  mkDailyWorld (Ok tt) (λ _, "2025-01-01T06:00:00.000Z")
    (λ i, mkStartWorld (1735711200000 + N.of_nat i) 7 (Ok tt) (Ok tt)) (Ok tt).

(** The document store fails at the second start. *)
Definition failing : DailyWorld :=
  mkDailyWorld (Ok tt) (λ _, "2025-01-01T06:00:00.000Z")
    (λ i, mkStartWorld (1735711200000 + N.of_nat i) 7
            (if i =? 1 then Throw Outage.down else Ok tt) (Ok tt)) (Ok tt).

Definition empty_store : Store := mkStore ∅ ∅ ∅.

End Daily.

(* ===================================================================== *)
(** * Vocabulary for the properties of the scorer and of the extractor    *)
(* ===================================================================== *)

Module Vocabulary.

Import Scraper.

(** The count of a keyword, [0] standing for a keyword that throws. *)
Definition count_of (host : string → Result (string → nat)) (text keyword : string) : nat :=
  match countKeyword host text keyword with
  | Ok n => n
  | Throw _ => 0
  end.

(** The keywords that get a property of their own in [keywordMatches]:
    all but [__proto__]. *)
Definition own_keys (keywords : list string) : list string :=
  filter (λ k, k ≠ "__proto__") keywords.

(** Every white-space code unit of [s] is a single space between two
    other code units: [after_space] tells that [s] follows a space or
    starts the text. *)
Fixpoint single_spaced (after_space : bool) (s : string) : bool :=
  match s with
  | EmptyString => true
  | String c rest =>
      if is_space c
      then Ascii.eqb c " " && negb after_space && single_spaced true rest
      else single_spaced false rest
  end.

(** The text has no white space at its ends and none inside but single
    spaces. *)
Definition normalised (s : string) : Prop :=
  single_spaced true s = true ∧ trim s = s.

(** Two texts, of code units below 256 as all strings here, that differ by
    the case of their letters only: [toLowerCase] makes them equal.  (On
    these code units [toLowerCase] and the canonicalisation of the flag [i]
    pair the same letters; above 255 they do not.) *)
Definition same_letters (s t : string) : Prop := toLowerCase s = toLowerCase t.

End Vocabulary.

(* ===================================================================== *)
(** * Texts that differ by the case of their letters                     *)
(* ===================================================================== *)

Module LetterCase.

Import Js.

(** A test on code units that does not see the case of the letters. *)
Definition blind (p : ascii → bool) : Prop :=
  ∀ d d', lower_char d = lower_char d' → p d = p d'.

(** Two positions in two texts that differ by the case of the letters. *)
Definition alike (x y : Regex.pos) : Prop :=
  lower_char <$> fst x = lower_char <$> fst y ∧ toLowerCase (snd x) = toLowerCase (snd y).

Definition alike_results (o o' : option Regex.pos) : Prop :=
  match o, o' with
  | Some y, Some y' => alike y y'
  | None, None => True
  | _, _ => False
  end.

Definition alike_conts (k k' : Regex.pos → option Regex.pos) : Prop :=
  ∀ x x', alike x x' → alike_results (k x) (k' x').

Definition alike_matches (o o' : option (Regex.pos * Regex.pos)) : Prop :=
  match o, o' with
  | Some (b, e), Some (b', e') => alike b b' ∧ alike e e'
  | None, None => True
  | _, _ => False
  end.

End LetterCase.

(* ===================================================================== *)
(** * Well-formed page content                                            *)
(* ===================================================================== *)

Module Content.

Import Scraper.

(** A text that is not empty and has no white space at its ends. *)
Definition clean (s : string) : Prop := s ≠ EmptyString ∧ trim s = s.

(** A text that does not start with white space. *)
Definition starts_black (s : string) : Prop :=
  match s with
  | EmptyString => True
  | String c _ => is_space c = false
  end.

Definition heading_ok (h : Heading) : Prop :=
  1 ≤ level h ≤ 6 ∧ clean (content h).

Definition link_ok (l : Link) : Prop :=
  href l ≠ EmptyString ∧ startsWith (href l) "#" = false ∧ clean (link_text l).

End Content.

(* ===================================================================== *)
(** * Back-off delays                                                     *)
(* ===================================================================== *)

Module Backoff.

(** The delays slept before the attempts [1 .. k], for the base [d]. *)
Definition delays (d : Z) (k : nat) : list Z :=
  (λ i, d * 2 ^ Z.of_nat i)%Z <$> seq 1 k.

Definition total (delays : list Z) : Z := foldr Z.add 0%Z delays.

(** What [setTimeout] waits, in ms, for a delay of [d] ms requested: a
    delay below 1 or above 2^31 - 1 is set to 1. *)
Definition timer (d : Z) : Z :=
  if (1 <=? d)%Z && (d <=? 2147483647)%Z then d else 1%Z.

(** The waits for the delays requested, in order. *)
Definition waits (requested : list Z) : list Z := timer <$> requested.

End Backoff.

(* ===================================================================== *)
(** * A browser that fails to close                                       *)
(* ===================================================================== *)

Module Crash.

Import Scraper.

(** The world [w] with another completion of [browser.close()]. *)
Definition with_browser_close (w : PageWorld) (closed : Result unit) : PageWorld :=
  mkPageWorld (random_index w) (axios_get w) (cheerio_load w) (host_regexp w) (now_iso w)
    (now_ms w) (puppeteer_launch w) (browser_newPage w) (page_setUserAgent w) (page_goto w)
    (page_title w) (page_meta_description w) (page_screenshot w) (page_content w)
    (page_innerText w) (page_close w) closed (storage_uploadFile w)
    (has_OPENAI_API_KEY w) (openai_completion w) (generateText w).

End Crash.

(* ===================================================================== *)
(** * Properties                                                          *)
(* ===================================================================== *)

Import Dom Scraper.

(** ** Strings *)

Section strings.

Lemma str_app_nil (r : string) : EmptyString +:+ r = r.
Proof. reflexivity. Qed.

Lemma str_app_cons (c : ascii) (s r : string) : String c s +:+ r = String c (s +:+ r).
Proof. reflexivity. Qed.

Lemma str_app_empty (s : string) : s +:+ EmptyString = s.
Proof. induction s as [|c s IH]; [done | by rewrite str_app_cons, IH]. Qed.


Lemma prefix_app (p r : string) : String.prefix p (p +:+ r) = true.
Proof.
  induction p as [|c p IH].
  - by destruct r.
  - rewrite str_app_cons. simpl. destruct (ascii_dec c c); [exact IH | done].
Qed.

Lemma includes_unfold (s p : string) :
  includes s p =
  String.prefix p s || match s with EmptyString => false | String _ s' => includes s' p end.
Proof. by destruct s. Qed.

Lemma includes_infix (a p b : string) : includes (a +:+ p +:+ b) p = true.
Proof.
  induction a as [|c a IH]; rewrite includes_unfold.
  - by rewrite str_app_nil, prefix_app.
  - rewrite str_app_cons, IH. apply orb_true_r.
Qed.









End strings.

(** ** Fetch-strategy selection *)




(** ** The retry loop of the lightweight fetch *)

Section retry.

Variables (get : nat → Result Response) (m d : Z).

Lemma retry_loop_first (fuel : nat) (retries : Z) (slept : list Z) (r : Response) :
  (retries < m)%Z → get (Z.to_nat retries) = Ok r →
  retry_loop (S fuel) get m d retries slept = (Ok (Some r), slept).
Proof.
  intros Hlt Hget. simpl.
  destruct (Z.ltb_spec retries m); [|lia]. by rewrite Hget.
Qed.

Lemma retry_loop_again (fuel : nat) (retries : Z) (slept : list Z) (e : Error) :
  (retries + 1 < m)%Z → (0 ≤ retries)%Z → get (Z.to_nat retries) = Throw e →
  retry_loop (S fuel) get m d retries slept =
  retry_loop fuel get m d (retries + 1) (slept ++ [(d * 2 ^ (retries + 1))%Z]).
Proof.
  intros Hlt Hpos Hget. simpl.
  destruct (Z.ltb_spec retries m); [|lia]. rewrite Hget.
  destruct (Z.geb_spec (retries + 1) m); [lia | done].
Qed.

(** When every attempt of the budget fails, the loop throws the error of
    the last attempt. *)
Lemma retry_loop_exhausted (fuel : nat) :
  ∀ (retries : Z) (slept : list Z),
    (0 ≤ retries < m)%Z → Z.to_nat (m - retries) ≤ fuel →
    (∀ n, n < Z.to_nat m → is_ok (get n) = false) →
    ∃ e, get (Z.to_nat (m - 1)) = Throw e ∧
         fst (retry_loop fuel get m d retries slept) = Throw e.
Proof.
  induction fuel as [|fuel IH]; intros retries slept Hr Hfuel Hfail; [lia|].
  simpl. destruct (Z.ltb_spec retries m); [|lia].
  destruct (get (Z.to_nat retries)) as [r|e] eqn:Hget.
  { specialize (Hfail (Z.to_nat retries)). rewrite Hget in Hfail.
    discriminate Hfail. lia. }
  destruct (Z.geb_spec (retries + 1) m).
  - exists e. split; [|done].
    replace (m - 1)%Z with retries by lia. exact Hget.
  - apply IH; [lia | lia | exact Hfail].
Qed.

End retry.

Section single_retry.

Variables (get : nat → Result Single.HttpResponse) (url : string) (m : Z).

Lemma single_retry_first (fuel : nat) (retries : Z) (slept : list Z) (s : Single.Scraped) :
  (retries < m)%Z → Single.attempt url (get (Z.to_nat retries)) = Ok s →
  Single.retry_loop (S fuel) get url m retries slept = (Ok (Some s), slept).
Proof.
  intros Hlt Hget. simpl.
  destruct (Z.ltb_spec retries m); [|lia]. by rewrite Hget.
Qed.

Lemma single_retry_again (fuel : nat) (retries : Z) (slept : list Z) (e : Error) :
  (retries + 1 < m)%Z → (0 ≤ retries)%Z →
  Single.attempt url (get (Z.to_nat retries)) = Throw e →
  Single.retry_loop (S fuel) get url m retries slept =
  Single.retry_loop fuel get url m (retries + 1) (slept ++ [(1000 * 2 ^ (retries + 1))%Z]).
Proof.
  intros Hlt Hpos Hget. simpl.
  destruct (Z.ltb_spec retries m); [|lia]. rewrite Hget.
  destruct (Z.geb_spec (retries + 1) m); [lia | done].
Qed.

Lemma single_retry_exhausted (fuel : nat) :
  ∀ (retries : Z) (slept : list Z),
    (0 ≤ retries < m)%Z → Z.to_nat (m - retries) ≤ fuel →
    (∀ n, n < Z.to_nat m → is_ok (Single.attempt url (get n)) = false) →
    ∃ e, Single.attempt url (get (Z.to_nat (m - 1))) = Throw e ∧
         fst (Single.retry_loop fuel get url m retries slept) =
         Throw (new_Error ("Failed to scrape URL after " +:+ pretty m
                             +:+ " attempts: " +:+ message e)).
Proof.
  induction fuel as [|fuel IH]; intros retries slept Hr Hfuel Hfail; [lia|].
  simpl. destruct (Z.ltb_spec retries m); [|lia].
  destruct (Single.attempt url (get (Z.to_nat retries))) as [r|e] eqn:Hget.
  { specialize (Hfail (Z.to_nat retries)). rewrite Hget in Hfail.
    discriminate Hfail. lia. }
  destruct (Z.geb_spec (retries + 1) m).
  - exists e. split; [|done].
    replace (m - 1)%Z with retries by lia. exact Hget.
  - apply IH; [lia | lia | exact Hfail].
Qed.

End single_retry.

(** C9: a lightweight fetch whose first two attempts fail and whose third
    succeeds, with a budget of at least three attempts, yields the response
    and the page result of an immediate success (it only sleeps the two
    back-off delays first); a fetch whose attempts all fail through the
    budget of [maxRetries] attempts throws the error of the last attempt and
    yields no response: the scrape of the URL becomes the failed result that
    carries that error.  The same holds for the loop of the single-URL
    callable, which rethrows the last failure wrapped in a new error. *)
Theorem lightweight_fetch_retries (a : Agent) (url : string) (keywords : list string) :
  (∀ w get1 get2 r,
     (3 ≤ maxRetries a)%Z →
     (∀ ua, is_ok (get1 url ua 0) = false ∧ is_ok (get1 url ua 1) = false
            ∧ get1 url ua 2 = Ok r) →
     (∀ ua, get2 url ua 0 = Ok r) →
     fetchWithRetry a (with_axios_get w get1) url
       = (Ok (Some r), [retryDelay a * 2 ^ 1; retryDelay a * 2 ^ 2]%Z) ∧
     fetchWithRetry a (with_axios_get w get2) url = (Ok (Some r), []) ∧
     scrapeWithoutBrowser a (with_axios_get w get1) url keywords
       = scrapeWithoutBrowser a (with_axios_get w get2) url keywords) ∧
  (∀ w,
     (1 ≤ maxRetries a)%Z →
     (∀ ua n, n < Z.to_nat (maxRetries a) → is_ok (axios_get w url ua n) = false) →
     ∃ e, axios_get w url (nth (random_index w) (userAgents a) EmptyString)
            (Z.to_nat (maxRetries a - 1)) = Throw e ∧
          fst (fetchWithRetry a w url) = Throw e ∧
          scrapeWithoutBrowser a w url keywords = failed_lightweight w url e) ∧
  (∀ get1 get2 options s,
     (3 ≤ number_or (Single.opt_maxRetries options) 3)%Z →
     is_ok (Single.attempt url (get1 url 0)) = false →
     is_ok (Single.attempt url (get1 url 1)) = false →
     Single.attempt url (get1 url 2) = Ok s →
     Single.attempt url (get2 url 0) = Ok s →
     fst (Single.scrapeUrl get1 url options) = Ok (Some s) ∧
     fst (Single.scrapeUrl get2 url options) = Ok (Some s)) ∧
  (∀ get options,
     (1 ≤ number_or (Single.opt_maxRetries options) 3)%Z →
     (∀ n, n < Z.to_nat (number_or (Single.opt_maxRetries options) 3) →
           is_ok (Single.attempt url (get url n)) = false) →
     ∃ e, Single.attempt url
            (get url (Z.to_nat (number_or (Single.opt_maxRetries options) 3 - 1))) = Throw e ∧
          fst (Single.scrapeUrl get url options) =
          Throw (new_Error ("Failed to scrape URL after "
                              +:+ pretty (number_or (Single.opt_maxRetries options) 3)
                              +:+ " attempts: " +:+ message e))).
Proof.
  split; [|split; [|split]].
  - intros w get1 get2 r Hm H1 H2.
    set (ua := nth (random_index w) (userAgents a) EmptyString).
    destruct (H1 ua) as (F0 & F1 & S2). specialize (H2 ua).
    assert (E1 : fetchWithRetry a (with_axios_get w get1) url
                 = (Ok (Some r), [retryDelay a * 2 ^ 1; retryDelay a * 2 ^ 2]%Z)).
    { unfold fetchWithRetry, fetch_fuel. cbn [axios_get random_index with_axios_get].
      fold ua.
      destruct (get1 url ua 0) as [?|e0] eqn:G0; [discriminate F0|].
      destruct (get1 url ua 1) as [?|e1] eqn:G1; [discriminate F1|].
      destruct (Z.to_nat (maxRetries a)) as [|[|[|n]]] eqn:En; try lia.
      rewrite (retry_loop_again _ _ _ _ _ _ e0); [|lia|lia|exact G0].
      rewrite (retry_loop_again _ _ _ _ _ _ e1); [|lia|lia|exact G1].
      rewrite (retry_loop_first _ _ _ _ _ _ r); [done|lia|exact S2]. }
    assert (E2 : fetchWithRetry a (with_axios_get w get2) url = (Ok (Some r), [])).
    { unfold fetchWithRetry, fetch_fuel. cbn [axios_get random_index with_axios_get].
      fold ua. rewrite (retry_loop_first _ _ _ _ _ _ r); [done|lia|exact H2]. }
    split; [exact E1|]. split; [exact E2|].
    unfold scrapeWithoutBrowser, scrapeWithoutBrowser_body. rewrite E1, E2. reflexivity.
  - intros w Hm Hfail.
    set (ua := nth (random_index w) (userAgents a) EmptyString).
    destruct (retry_loop_exhausted (axios_get w url ua) (maxRetries a) (retryDelay a)
                (fetch_fuel a) 0 []) as (e & Hlast & Hthrow).
    + lia.
    + unfold fetch_fuel. rewrite Z.sub_0_r. lia.
    + intros n Hn. by apply Hfail.
    + exists e. split; [exact Hlast|]. split; [exact Hthrow|].
      unfold scrapeWithoutBrowser, scrapeWithoutBrowser_body.
      fold ua in Hthrow. unfold fetchWithRetry in *. fold ua. by rewrite Hthrow.
  - intros get1 get2 options s Hm F0 F1 S2 S0.
    unfold Single.scrapeUrl.
    set (M := number_or (Single.opt_maxRetries options) 3) in *.
    destruct (Single.attempt url (get1 url 0)) as [?|e0] eqn:G0; [discriminate F0|].
    destruct (Single.attempt url (get1 url 1)) as [?|e1] eqn:G1; [discriminate F1|].
    destruct (Z.to_nat M) as [|[|[|n]]] eqn:En; try lia.
    split.
    + rewrite (single_retry_again _ _ _ _ _ _ e0); [|lia|lia|exact G0].
      rewrite (single_retry_again _ _ _ _ _ _ e1); [|lia|lia|exact G1].
      rewrite (single_retry_first _ _ _ _ _ _ s); [done|lia|exact S2].
    + rewrite (single_retry_first _ _ _ _ _ _ s); [done|lia|exact S0].
  - intros get options Hm Hfail.
    unfold Single.scrapeUrl.
    set (M := number_or (Single.opt_maxRetries options) 3) in *.
    apply (single_retry_exhausted (get url) url M (S (Z.to_nat M)) 0 []).
    + lia.
    + rewrite Z.sub_0_r. lia.
    + exact Hfail.
Qed.

Lemma lightweight_fetch_retries_witness :
  scrapeWithoutBrowser scraperAgent (with_axios_get Sample.world Sample.flaky_get)
    "https://en.wikipedia.org/wiki/GPT-4" ["GPT-4"]
  = scrapeWithoutBrowser scraperAgent
      (with_axios_get Sample.world (λ _ _ _, Ok Sample.ok_response))
      "https://en.wikipedia.org/wiki/GPT-4" ["GPT-4"] ∧
  fst (fetchWithRetry scraperAgent (with_axios_get Sample.world Sample.dead_get)
         "https://en.wikipedia.org/wiki/GPT-4") = Throw Sample.timeout ∧
  fst (Single.scrapeUrl Sample.single_flaky "https://en.wikipedia.org/wiki/GPT-4"
         Sample.no_options)
  = fst (Single.scrapeUrl Sample.single_ok "https://en.wikipedia.org/wiki/GPT-4"
           Sample.no_options) ∧
  fst (Single.scrapeUrl Sample.single_dead "https://en.wikipedia.org/wiki/GPT-4"
         Sample.no_options)
  = Throw (new_Error "Failed to scrape URL after 3 attempts: HTTP Error: 503").
Proof.
  destruct (lightweight_fetch_retries scraperAgent "https://en.wikipedia.org/wiki/GPT-4"
              ["GPT-4"]) as (H1 & H2 & H3 & H4).
  split; [|split; [|split]].
  - apply (H1 Sample.world Sample.flaky_get (λ _ _ _, Ok Sample.ok_response)
             Sample.ok_response); [by vm_compute | done | done].
  - destruct (H2 (with_axios_get Sample.world Sample.dead_get)) as (e & Hlast & Hthrow & _);
      [by vm_compute | done |].
    rewrite Hthrow. vm_compute in Hlast. injection Hlast as <-. reflexivity.
  - destruct (H3 Sample.single_flaky Sample.single_ok Sample.no_options
                (Single.mkScraped "<html>...</html>" "https://en.wikipedia.org/wiki/GPT-4" 200))
      as (Ha & Hb); [by vm_compute | done | done | done | done |].
    by rewrite Ha, Hb.
  - destruct (H4 Sample.single_dead Sample.no_options) as (e & Hlast & Hthrow);
      [by vm_compute | done |].
    rewrite Hthrow. vm_compute in Hlast. injection Hlast as <-. reflexivity.
Defined.

(** ** Shapes of the page results *)

Section shapes.

Variables (a : Agent) (w : PageWorld) (url : string) (keywords : list string).

Lemma failed_lightweight_shape (e : Error) :
  Shape.failed (failed_lightweight w url e) ∧ Scraper.url (failed_lightweight w url e) = url.
Proof. unfold Shape.failed, Shape.content_absent. simpl. eauto 15. Qed.

Lemma failed_rendered_shape (e : Error) :
  Shape.failed (failed_rendered w url e) ∧ Scraper.url (failed_rendered w url e) = url.
Proof. unfold Shape.failed, Shape.content_absent. simpl. eauto 15. Qed.

Lemma failed_page_shape (e : Error) :
  Shape.failed (failed_page url e) ∧ Scraper.url (failed_page url e) = url.
Proof. unfold Shape.failed, Shape.content_absent. simpl. eauto 15. Qed.

(** What the [try] block of the lightweight scrape returns. *)
Lemma scrapeWithoutBrowser_body_ok (r : PageResult) :
  scrapeWithoutBrowser_body a w url keywords = Ok r →
  Shape.succeeded r ∧ Shape.lightweight_fields r ∧ Scraper.url r = url.
Proof.
  unfold scrapeWithoutBrowser_body.
  destruct (fst (fetchWithRetry a w url)) as [[resp|]|e]; simpl; try discriminate.
  destruct (scoreKeywords _ _ _ _) as [km|e]; simpl; try discriminate.
  destruct (if enableAIExtraction a then _ else _) as [mc|e]; simpl; try discriminate.
  intros [= <-].
  unfold Shape.succeeded, Shape.content_populated, Shape.lightweight_fields. simpl.
  repeat split; eauto.
Qed.

(** What the [try] block of the rendered scrape returns. *)
Lemma scrapePage_body_ok (r : PageResult) :
  scrapePage_body a w url keywords = Ok r →
  Shape.succeeded r ∧ Shape.rendered_fields r ∧ Scraper.url r = url.
Proof.
  unfold scrapePage_body.
  destruct (page_setUserAgent w); simpl; try discriminate.
  destruct (page_goto w url); simpl; try discriminate.
  destruct (page_title w); simpl; try discriminate.
  destruct (try_catch (page_meta_description w) _); simpl; try discriminate.
  destruct (page_screenshot w); simpl; try discriminate.
  destruct (page_content w); simpl; try discriminate.
  destruct (page_innerText w); simpl; try discriminate.
  destruct (extractMainContent a w _ keywords); simpl; try discriminate.
  destruct (scoreKeywords _ _ _ _); simpl; try discriminate.
  destruct (storage_uploadFile w _); simpl; try discriminate.
  intros [= <-].
  unfold Shape.succeeded, Shape.content_populated, Shape.rendered_fields. simpl.
  repeat split; eauto.
Qed.

(** The fields particular to each method, as the [try] blocks fill them. *)
Lemma scrapeWithoutBrowser_body_fields (r : PageResult) :
  scrapeWithoutBrowser_body a w url keywords = Ok r →
  ∃ response,
    fst (fetchWithRetry a w url) = Ok (Some response) ∧
    headings r =
      Some (collect_headings (mainElementOf (remove noise (cheerio_load w (data response))))) ∧
    links r =
      Some (firstn 20
              (collect_links (mainElementOf (remove noise (cheerio_load w (data response)))))).
Proof.
  unfold scrapeWithoutBrowser_body.
  destruct (fst (fetchWithRetry a w url)) as [[resp|]|e]; simpl; try discriminate.
  destruct (scoreKeywords _ _ _ _) as [km|e]; simpl; try discriminate.
  destruct (if enableAIExtraction a then _ else _) as [mc|e]; simpl; try discriminate.
  intros [= <-]. by exists resp.
Qed.

Lemma scrapePage_body_screenshot (r : PageResult) :
  scrapePage_body a w url keywords = Ok r →
  ∃ reference, storage_uploadFile w (screenshot_path w url) = Ok reference ∧
               screenshotUrl r = Some reference.
Proof.
  unfold scrapePage_body.
  destruct (page_setUserAgent w); simpl; try discriminate.
  destruct (page_goto w url); simpl; try discriminate.
  destruct (page_title w); simpl; try discriminate.
  destruct (try_catch (page_meta_description w) _); simpl; try discriminate.
  destruct (page_screenshot w); simpl; try discriminate.
  destruct (page_content w); simpl; try discriminate.
  destruct (page_innerText w); simpl; try discriminate.
  destruct (extractMainContent a w _ keywords); simpl; try discriminate.
  destruct (scoreKeywords _ _ _ _); simpl; try discriminate.
  destruct (storage_uploadFile w _) as [reference|]; simpl; try discriminate.
  intros [= <-]. by exists reference.
Qed.

Lemma scrapePage_ok (r : PageResult) :
  scrapePage a w url keywords = Ok r →
  (Shape.failed r ∨ Shape.succeeded r ∧ Shape.rendered_fields r) ∧ Scraper.url r = url.
Proof.
  unfold scrapePage.
  destruct (browser_newPage w); simpl; try discriminate.
  unfold try_finally. destruct (page_close w); try discriminate.
  destruct (scrapePage_body a w url keywords) as [r'|e] eqn:Hbody; simpl.
  - intros [= <-]. apply scrapePage_body_ok in Hbody as (? & ? & ?). auto.
  - intros [= <-]. destruct (failed_rendered_shape e). auto.
Qed.

Lemma scrapeWithoutBrowser_shape :
  let r := scrapeWithoutBrowser a w url keywords in
  (Shape.failed r ∨ Shape.succeeded r ∧ Shape.lightweight_fields r) ∧ Scraper.url r = url.
Proof.
  unfold scrapeWithoutBrowser.
  destruct (scrapeWithoutBrowser_body a w url keywords) as [r'|e] eqn:Hbody; simpl.
  - apply scrapeWithoutBrowser_body_ok in Hbody as (? & ? & ?). auto.
  - destruct (failed_lightweight_shape e). auto.
Qed.

Lemma scrapeUrl_ok (r : PageResult) :
  scrapeUrl a w url keywords = Ok r →
  (Shape.failed r ∨ Shape.succeeded r) ∧ Scraper.url r = url.
Proof.
  unfold scrapeUrl. destruct (selectStrategy a url).
  - intros [= <-]. destruct scrapeWithoutBrowser_shape as ([?|[? ?]] & ?); auto.
  - destruct (puppeteer_launch w); simpl; try discriminate.
    destruct (scrapePage a w url keywords) as [r'|e] eqn:Hpage; simpl; try discriminate.
    destruct (browser_close w); simpl; try discriminate.
    intros [= <-]. apply scrapePage_ok in Hpage as ([?|[? ?]] & ?); auto.
Qed.

(** Every object the per-URL loop pushes is a page result of one of the
    two shapes, for the URL of the iteration. *)
Lemma scrapeOne_shape :
  let r := scrapeOne a w url keywords in
  (Shape.failed r ∨ Shape.succeeded r) ∧ Scraper.url r = url.
Proof.
  unfold scrapeOne.
  destruct (scrapeUrl a w url keywords) as [r|e] eqn:H; simpl.
  - by apply scrapeUrl_ok.
  - destruct (failed_page_shape e). auto.
Qed.

End shapes.

Lemma shapes_exclusive (r : PageResult) : ¬ (Shape.succeeded r ∧ Shape.failed r).
Proof. intros [(Hs & _) (Hf & _)]. congruence. Qed.

(** The per-URL loop appends, in order, the result of each URL. *)
Lemma scrapeAll_imap (a : Agent) (pages : nat → PageWorld) (keywords : list string)
    (urls : list string) :
  ∀ (i : nat) (acc : list PageResult),
    scrapeAll a pages i urls keywords acc =
    acc ++ imap (λ j url, scrapeOne a (pages (i + j)) url keywords) urls.
Proof.
  induction urls as [|url urls IH]; intros i acc; simpl.
  - by rewrite app_nil_r.
  - rewrite IH, <- app_assoc. simpl. rewrite Nat.add_0_r.
    do 2 f_equal. apply imap_ext. intros j u _. simpl. f_equal. f_equal. lia.
Qed.

Lemma scrapeAll_lookup (a : Agent) (pages : nat → PageWorld) (keywords urls : list string)
    (i : nat) :
  scrapeAll a pages 0 urls keywords [] !! i =
  (λ url, scrapeOne a (pages i) url keywords) <$> urls !! i.
Proof. by rewrite scrapeAll_imap, app_nil_l, list_lookup_imap. Qed.

(** C6: every page result pushed for a URL has exactly one of the two
    shapes, success with the content fields (title, main content, match
    counts, text length) present and no error field, or failure with the error
    description present and no content field; and the result of a URL
    depends on the outcome of that URL alone: two runs of the loop that
    differ only in what happens to other URLs give it the same result. *)
Theorem page_result_invariant (a : Agent) (pages : nat → PageWorld)
    (urls keywords : list string) :
  (∀ i r, scrapeAll a pages 0 urls keywords [] !! i = Some r →
          (Shape.succeeded r ∧ ¬ Shape.failed r) ∨ (Shape.failed r ∧ ¬ Shape.succeeded r)) ∧
  (∀ pages' i, pages' i = pages i →
          scrapeAll a pages' 0 urls keywords [] !! i =
          scrapeAll a pages 0 urls keywords [] !! i).
Proof.
  split.
  - intros i r. rewrite scrapeAll_lookup.
    destruct (urls !! i) as [url|]; simpl; [|done].
    intros [= <-].
    destruct (scrapeOne_shape a (pages i) url keywords) as ([Hf | Hs] & _).
    + right. split; [done|]. intros Hs. by apply (shapes_exclusive _ (conj Hs Hf)).
    + left. split; [done|]. intros Hf. by apply (shapes_exclusive _ (conj Hs Hf)).
  - intros pages' i Hi. rewrite !scrapeAll_lookup. by rewrite Hi.
Qed.

Lemma page_result_invariant_witness :
  ((Shape.succeeded (scrapeOne scraperAgent Sample.world
                       "https://en.wikipedia.org/wiki/GPT-4" ["GPT-4"])
    ∧ ¬ Shape.failed (scrapeOne scraperAgent Sample.world
                        "https://en.wikipedia.org/wiki/GPT-4" ["GPT-4"]))
   ∨ (Shape.failed (scrapeOne scraperAgent Sample.world
                      "https://en.wikipedia.org/wiki/GPT-4" ["GPT-4"])
      ∧ ¬ Shape.succeeded (scrapeOne scraperAgent Sample.world
                             "https://en.wikipedia.org/wiki/GPT-4" ["GPT-4"]))) ∧
  scrapeAll scraperAgent
    (λ i, if i =? 1 then Sample.without_summarizer Sample.world else Sample.world) 0
    (urls Sample.job) (keywords Sample.job) [] !! 0 =
  scrapeAll scraperAgent (λ _, Sample.world) 0
    (urls Sample.job) (keywords Sample.job) [] !! 0.
Proof.
  destruct (page_result_invariant scraperAgent (λ _, Sample.world)
              (urls Sample.job) (keywords Sample.job)) as (Hshape & Hindep).
  split.
  - apply (Hshape 0). rewrite scrapeAll_lookup. reflexivity.
  - apply Hindep. reflexivity.
Defined.

(** C10: a successful rendered scrape carries the reference of the
    uploaded screenshot and neither headings nor links nor a method; a
    successful lightweight scrape carries the headings of the main element,
    the first twenty of its links, the method ['lightweight'] and no
    screenshot reference. *)
Theorem success_shape_by_method (a : Agent) (w : PageWorld) (url : string)
    (keywords : list string) :
  (∀ r, scrapePage a w url keywords = Ok r → success r = true →
        (∃ reference, storage_uploadFile w (screenshot_path w url) = Ok reference ∧
                      screenshotUrl r = Some reference) ∧
        headings r = None ∧ links r = None ∧ method r = None) ∧
  (success (scrapeWithoutBrowser a w url keywords) = true →
   ∃ response,
     fst (fetchWithRetry a w url) = Ok (Some response) ∧
     headings (scrapeWithoutBrowser a w url keywords) =
       Some (collect_headings
               (mainElementOf (remove noise (cheerio_load w (data response))))) ∧
     links (scrapeWithoutBrowser a w url keywords) =
       Some (firstn 20
               (collect_links
                  (mainElementOf (remove noise (cheerio_load w (data response)))))) ∧
     length (firstn 20
               (collect_links
                  (mainElementOf (remove noise (cheerio_load w (data response)))))) ≤ 20 ∧
     method (scrapeWithoutBrowser a w url keywords) = Some "lightweight" ∧
     screenshotUrl (scrapeWithoutBrowser a w url keywords) = None).
Proof.
  split.
  - intros r Hr Hs. unfold scrapePage in Hr.
    destruct (browser_newPage w); simpl in Hr; [|discriminate Hr].
    unfold try_finally in Hr. destruct (page_close w); [|discriminate Hr].
    destruct (scrapePage_body a w url keywords) as [r'|e] eqn:Hbody; simpl in Hr.
    + injection Hr as <-.
      destruct (scrapePage_body_screenshot a w url keywords _ Hbody) as (u & Hu & Hsc).
      apply scrapePage_body_ok in Hbody as (_ & (_ & Hh & Hl & Hm) & _).
      split_and!; [by exists u | done | done | done].
    + injection Hr as <-. discriminate Hs.
  - unfold scrapeWithoutBrowser.
    destruct (scrapeWithoutBrowser_body a w url keywords) as [r|e] eqn:Hbody;
      [|discriminate].
    intros _.
    destruct (scrapeWithoutBrowser_body_fields a w url keywords r Hbody)
      as (response & Hfetch & Hh & Hl).
    apply scrapeWithoutBrowser_body_ok in Hbody as (_ & (_ & _ & Hm & Hsc) & _).
    exists response. split_and!; try done. rewrite length_take. lia.
Qed.

Lemma success_shape_by_method_witness :
  (screenshotUrl (scrapeOne scraperAgent Sample.world "https://example.com/gpt" ["GPT-4"])
   = Some "https://storage.example/screenshots/1735689600000_https___example_com_gpt.png"
   ∧ headings (scrapeOne scraperAgent Sample.world "https://example.com/gpt" ["GPT-4"]) = None) ∧
  method (scrapeWithoutBrowser scraperAgent Sample.world
            "https://en.wikipedia.org/wiki/GPT-4" ["GPT-4"]) = Some "lightweight".
Proof.
  split.
  - destruct (success_shape_by_method scraperAgent Sample.world "https://example.com/gpt"
                ["GPT-4"]) as (H & _).
    destruct (H (scrapeOne scraperAgent Sample.world "https://example.com/gpt" ["GPT-4"]))
      as ((u & Hu & Hsc) & H2 & _); [by vm_compute | by vm_compute |].
    split; [|done]. rewrite Hsc. vm_compute in Hu. by injection Hu as <-.
  - destruct (success_shape_by_method scraperAgent Sample.world
                "https://en.wikipedia.org/wiki/GPT-4" ["GPT-4"]) as (_ & H).
    destruct H as (response & _ & _ & _ & _ & H & _); [by vm_compute | exact H].
Defined.

(** ** The fallback to the largest text container *)

(** The fold of [larger] keeps the first candidate of maximal trimmed text
    length among those longer than the initial length, and the initial
    element when there is none. *)
Lemma fold_larger_spec (cands : selection) :
  ∀ (n0 : nat) (best0 : selection),
    (Forall (λ c, trimmed_length c ≤ n0) cands ∧
     fold_left larger cands (n0, best0) = (n0, best0)) ∨
    (∃ i el, cands !! i = Some el ∧
             fold_left larger cands (n0, best0) = (trimmed_length el, [el]) ∧
             n0 < trimmed_length el ∧
             (∀ c, c ∈ cands → trimmed_length c ≤ trimmed_length el) ∧
             (∀ j c, j < i → cands !! j = Some c → trimmed_length c < trimmed_length el)).
Proof.
  induction cands as [|c rest IH]; intros n0 best0.
  - left. by split.
  - assert (Hstep : larger (n0, best0) c =
                    if n0 <? trimmed_length c then (trimmed_length c, [c]) else (n0, best0))
      by done.
    simpl. rewrite Hstep.
    destruct (Nat.ltb_spec n0 (trimmed_length c)) as [Hlt | Hge].
    + right.
      destruct (IH (trimmed_length c) [c])
        as [(Hall & Heq) | (i & el & Hi & Heq & Hgt & Hmax & Hfirst)].
      * exists 0, c. split_and!; [done | done | done | | ].
        -- intros x Hx. apply elem_of_cons in Hx as [-> | Hx]; [lia|].
           by apply (proj1 (Forall_forall _ _) Hall).
        -- intros j x Hj. lia.
      * exists (S i), el. split_and!; [done | done | lia | | ].
        -- intros x Hx. apply elem_of_cons in Hx as [-> | Hx]; [lia | by apply Hmax].
        -- intros [|j] x Hj Hx; simpl in Hx.
           ++ injection Hx as <-. lia.
           ++ apply (Hfirst j); [lia | done].
    + destruct (IH n0 best0)
        as [(Hall & Heq) | (i & el & Hi & Heq & Hgt & Hmax & Hfirst)].
      * left. split; [|done]. by constructor.
      * right. exists (S i), el. split_and!; [done | done | lia | | ].
        -- intros x Hx. apply elem_of_cons in Hx as [-> | Hx]; [lia | by apply Hmax].
        -- intros [|j] x Hj Hx; simpl in Hx.
           ++ injection Hx as <-. lia.
           ++ apply (Hfirst j); [lia | done].
Qed.

(** C8: when no semantic main-content container matches, the main element
    is, among the [div] and [section] elements in document order, the first
    one of maximal trimmed text length; when none of them has text, it is the
    document body.  Of two [div]s of trimmed lengths 100 and 500 the second
    is selected; of two [div]s of the same length, the first. *)
Theorem largest_container_fallback :
  (∀ doc : node,
     query doc main_containers = [] →
     (Forall (λ c, trimmed_length c = 0) (query doc block_containers) →
      mainElementOf doc = query doc [ByTag "body"]) ∧
     (¬ Forall (λ c, trimmed_length c = 0) (query doc block_containers) →
      ∃ i el, query doc block_containers !! i = Some el ∧
              mainElementOf doc = [el] ∧
              0 < trimmed_length el ∧
              (∀ c, c ∈ query doc block_containers → trimmed_length c ≤ trimmed_length el) ∧
              (∀ j c, j < i → query doc block_containers !! j = Some c →
                      trimmed_length c < trimmed_length el))) ∧
  (query Markup.two_divs main_containers = [] ∧
   map trimmed_length (query Markup.two_divs block_containers) = [100; 500] ∧
   mainElementOf Markup.two_divs = [([1; 1], Markup.long_div)] ∧
   Single.extractContent_mainElement Markup.two_divs = [([1; 1], Markup.long_div)]) ∧
  (map trimmed_length (query Markup.tied_divs block_containers) = [100; 100] ∧
   mainElementOf Markup.tied_divs = [([1; 0], Markup.short_div)]) ∧
  mainElementOf Markup.blank_divs = query Markup.blank_divs [ByTag "body"].
Proof.
  split; [|split; [|split]].
  - intros doc Hnone. unfold mainElementOf, largestTextContainer. rewrite Hnone. simpl.
    destruct (fold_larger_spec (query doc block_containers) 0 (query doc [ByTag "body"]))
      as [(Hall & Heq) | (i & el & Hi & Heq & Hgt & Hmax & Hfirst)].
    + split.
      * intros _. by rewrite Heq.
      * intros Hsome. exfalso. apply Hsome.
        eapply Forall_impl; [exact Hall|]. simpl. lia.
    + split.
      * intros Hall. exfalso.
        pose proof (proj1 (Forall_lookup _ _) Hall i el Hi) as Hz. simpl in Hz. lia.
      * intros _. exists i, el. rewrite Heq. simpl. split_and!; [done | done | lia | done | done].
  - by vm_compute.
  - by vm_compute.
  - by vm_compute.
Qed.

Lemma largest_container_fallback_witness :
  mainElementOf Markup.blank_divs = query Markup.blank_divs [ByTag "body"] ∧
  ∃ i el, query Markup.two_divs block_containers !! i = Some el ∧
          mainElementOf Markup.two_divs = [el] ∧ 0 < trimmed_length el.
Proof.
  destruct largest_container_fallback as (H & _).
  split.
  - apply (H Markup.blank_divs); [reflexivity|].
    repeat constructor.
  - destruct (H Markup.two_divs) as (_ & H2); [reflexivity|].
    destruct H2 as (i & el & Hi & Hm & Hpos & _).
    + intros Hall. inversion Hall as [|? ? Hc _]. vm_compute in Hc. discriminate Hc.
    + by exists i, el.
Defined.

(** ** URL discovery *)

Lemma slice0_length {A} (xs : list A) (n : Z) :
  (0 ≤ n)%Z → length (slice0 xs n) ≤ Z.to_nat n.
Proof.
  intros Hn. unfold slice0.
  destruct (Z.ltb_spec n 0); [lia|]. rewrite length_take. lia.
Qed.

(** C4, as stated, fails: for the empty query, discovery answers with the
    two fall-back search URLs, not with the empty sequence. *)
Lemma searchForUrls_empty_query :
  searchForUrls (Ok tt) EmptyString 3 =
    [ "https://en.wikipedia.org/wiki/Special:Search?search=";
      "https://www.britannica.com/search?query=" ] ∧
  searchForUrls (Ok tt) EmptyString 3 ≠ [].
Proof. split; [reflexivity | discriminate]. Qed.

(** C4 (amended): URL discovery never throws, whatever the query: it
    returns a list, and its [try] block completes whenever the activity log
    does.  [discover("what is quantum computing", 3)] returns one URL, the
    encyclopedic lookup of the topic; discovery of the empty query returns the two
    fall-back search URLs (an empty query matches no rule; the callable
    rejects it before discovery is reached); for a non-negative
    [maxResults] the list has at most [maxResults] elements; and when the
    activity log, the one step that can fail, throws, the result is the
    empty list. *)
Theorem searchForUrls_total :
  searchForUrls (Ok tt) "what is quantum computing" 3 =
    ["https://en.wikipedia.org/wiki/quantum%20computing"] ∧
  searchForUrls (Ok tt) EmptyString 3 =
    [ "https://en.wikipedia.org/wiki/Special:Search?search=";
      "https://www.britannica.com/search?query=" ] ∧
  (∀ log query maxResults,
     (0 ≤ maxResults)%Z →
     length (searchForUrls log query maxResults) ≤ Z.to_nat maxResults) ∧
  (∀ e query maxResults, searchForUrls (Throw e) query maxResults = []) ∧
  (∀ query maxResults, is_ok (searchForUrls_body (Ok tt) query maxResults) = true) ∧
  (∀ a log maxSearchResults,
     urlsToScrape a log None (Some EmptyString) maxSearchResults =
     Throw (new_Error "Either url or query must be provided")).
Proof.
  split; [by vm_compute|]. split; [by vm_compute|]. split_and!.
  - intros log query maxResults Hn.
    unfold searchForUrls, searchForUrls_body.
    destruct log as [[]|e]; simpl; [|lia].
    destruct (0 <? length _); by apply slice0_length.
  - done.
  - intros query maxResults. unfold searchForUrls_body. simpl.
    by destruct (0 <? length _).
  - done.
Qed.

Lemma searchForUrls_total_witness :
  length (searchForUrls (Ok tt) "latest news on rocq" 1) ≤ 1 ∧
  length (searchForUrls (Ok tt) "rocq prover" 1) ≤ 1.
Proof.
  destruct searchForUrls_total as (_ & _ & H & _).
  split.
  - apply (H (Ok tt) "latest news on rocq" 1%Z). lia.
  - apply (H (Ok tt) "rocq prover" 1%Z). lia.
Defined.

(** ** The job controller *)

Lemma resolve_browser : resolve "browser" = Throw (new_ReferenceError "browser is not defined").
Proof. by vm_compute. Qed.

Section job.

Variables (a : Agent) (w : JobWorld) (jobId : string) (s : Store).

(** The [try] block never runs to its end: it throws at [browser.close()]
    at the latest, and before that point the only write is the update to
    [running]. *)
Lemma runScrapingJob_body_throws :
  ∃ e, fst (runScrapingJob_body a w jobId s) = Throw e ∧
       scrapedData (snd (runScrapingJob_body a w jobId s)) = scrapedData s ∧
       rawFiles (snd (runScrapingJob_body a w jobId s)) = rawFiles s ∧
       (resultCount <$> scrapingJobs (snd (runScrapingJob_body a w jobId s)) !! jobId) =
       (resultCount <$> scrapingJobs s !! jobId) ∧
       (successCount <$> scrapingJobs (snd (runScrapingJob_body a w jobId s)) !! jobId) =
       (successCount <$> scrapingJobs s !! jobId) ∧
       (∀ job', scrapingJobs (snd (runScrapingJob_body a w jobId s)) !! jobId = Some job' →
                status job' = Completed →
                ∃ job, scrapingJobs s !! jobId = Some job ∧ status job = Completed).
Proof.
  unfold runScrapingJob_body, mbind, eff_mbind, eff_bind, job_update, job_data, call.
  rewrite resolve_browser.
  destruct (update_running w) as [[]|e1].
  2: { eexists. split_and!; try done. simpl. eauto. }
  destruct (scrapingJobs s !! jobId) as [job|] eqn:Hjob.
  2: { eexists. split_and!; try done; simpl; rewrite ?Hjob; done. }
  simpl. rewrite lookup_insert_eq.
  destruct (get_job w) as [[]|e2]; simpl; rewrite ?lookup_insert_eq; simpl.
  - eexists. split_and!; try done. by intros job' [= <-].
  - eexists. split_and!; try done. by intros job' [= <-].
Qed.

End job.

Section job_run.

Variables (a : Agent) (w : JobWorld) (jobId : string).

(** When the two first calls to the document store succeed, the [try]
    block reaches [browser.close()] and throws there, whatever the scrapes
    did. *)
Lemma runScrapingJob_body_at_browser (s : Store) (job : JobDoc) :
  scrapingJobs s !! jobId = Some job →
  update_running w = Ok tt → get_job w = Ok tt →
  ∃ running,
    status running = Running ∧
    resultCount running = resultCount job ∧ successCount running = successCount job ∧
    runScrapingJob_body a w jobId s =
    (Throw (new_ReferenceError "browser is not defined"),
     mkStore (<[jobId := running]> (scrapingJobs s)) (scrapedData s) (rawFiles s)).
Proof.
  intros Hjob Hupd Hget.
  unfold runScrapingJob_body, mbind, eff_mbind, eff_bind, job_update, job_data, call.
  rewrite resolve_browser, Hupd, Hjob, Hget. simpl. rewrite lookup_insert_eq.
  eexists. split_and!; [| | |reflexivity]; done.
Qed.

(** The [catch] block writes the job document only, and only its status,
    error and end time. *)
Lemma handler_effect (e : Error) (s : Store) :
  let s' := snd (((job_update (update_failed w) jobId
                     (λ d, mkJobDoc (urls d) (keywords d) (taskId d) Failed (startedAt d) true
                             (scrapedDataId d) (rawDataPath d) (resultCount d)
                             (successCount d) (Some (message e))))
                  ≫= λ _, call (log_failed w)) s) in
  scrapedData s' = scrapedData s ∧ rawFiles s' = rawFiles s ∧
  (resultCount <$> scrapingJobs s' !! jobId) = (resultCount <$> scrapingJobs s !! jobId) ∧
  (successCount <$> scrapingJobs s' !! jobId) = (successCount <$> scrapingJobs s !! jobId) ∧
  (∀ job', scrapingJobs s' !! jobId = Some job' → status job' = Completed →
           ∃ job, scrapingJobs s !! jobId = Some job ∧ status job = Completed) ∧
  (update_failed w = Ok tt → ∀ job, scrapingJobs s !! jobId = Some job →
   ∃ job', scrapingJobs s' !! jobId = Some job' ∧ status job' = Failed ∧
           job_error job' = Some (message e) ∧
           resultCount job' = resultCount job ∧ successCount job' = successCount job).
Proof.
  unfold mbind, eff_mbind, eff_bind, job_update, call.
  destruct (update_failed w) as [[]|e1]; simpl.
  - destruct (scrapingJobs s !! jobId) as [job|] eqn:Hjob; simpl.
    + rewrite lookup_insert_eq. split_and!; try done.
      * by intros job' [= <-].
      * intros _ ? [= <-]. eexists. by split_and!.
    + rewrite Hjob. by split_and!.
  - split_and!; try done; eauto.
Qed.

End job_run.

(** C1, evaluated on the code: a run whose calls to the document store all
    succeed ends with the job marked [failed] with the error
    ["browser is not defined"], whatever the per-URL scrapes did, and with
    the counts untouched; and no run at all marks a job [completed].  The
    statement after the per-URL loop, [await browser.close()], refers to an
    identifier that nothing binds, so the [try] block always throws there
    and the [catch] block marks the job failed. *)
Theorem runScrapingJob_always_fails (a : Agent) (w : JobWorld) (jobId : string) (s : Store) :
  (∀ job,
     scrapingJobs s !! jobId = Some job →
     update_running w = Ok tt → get_job w = Ok tt → update_failed w = Ok tt →
     ∃ job', scrapingJobs (snd (runScrapingJob a w jobId s)) !! jobId = Some job' ∧
             status job' = Failed ∧
             job_error job' = Some "browser is not defined" ∧
             successCount job' = successCount job ∧
             resultCount job' = resultCount job) ∧
  (∀ job', scrapingJobs (snd (runScrapingJob a w jobId s)) !! jobId = Some job' →
           status job' = Completed →
           ∃ job, scrapingJobs s !! jobId = Some job ∧ status job = Completed).
Proof.
  split.
  - intros job Hjob Hupd Hget Hfail.
    destruct (runScrapingJob_body_at_browser a w jobId s job Hjob Hupd Hget)
      as (running & Hst & Hrc & Hsc & Hbody).
    unfold runScrapingJob, eff_try. rewrite Hbody.
    destruct (handler_effect w jobId (new_ReferenceError "browser is not defined")
                (mkStore (<[jobId := running]> (scrapingJobs s)) (scrapedData s) (rawFiles s)))
      as (_ & _ & _ & _ & _ & H).
    destruct (H Hfail running) as (job' & Hl & H1 & H2 & H3 & H4).
    { simpl. apply lookup_insert_eq. }
    exists job'. split_and!; [exact Hl | done | done | congruence | congruence].
  - intros job' Hl Hdone.
    destruct (runScrapingJob_body_throws a w jobId s) as (e & Hthrow & _ & _ & _ & _ & Hnc).
    unfold runScrapingJob, eff_try in Hl.
    destruct (runScrapingJob_body a w jobId s) as [[[]|e'] s1]; simpl in *; [done|].
    destruct (handler_effect w jobId e' s1) as (_ & _ & _ & _ & H & _).
    destruct (H job' Hl Hdone) as (job1 & Hl1 & Hd1). by apply (Hnc job1).
Qed.

Lemma runScrapingJob_always_fails_witness :
  (∃ job', scrapingJobs (snd (runScrapingJob scraperAgent Sample.offline_job_world
                                "scrape_1_7" Sample.store)) !! "scrape_1_7" = Some job' ∧
           status job' = Failed ∧
           job_error job' = Some "browser is not defined" ∧
           successCount job' = None ∧
           resultCount job' = None) ∧
  (∃ job, scrapingJobs Outage.finished_store !! "scrape_1_7" = Some job ∧
          status job = Completed).
Proof.
  split.
  - destruct (runScrapingJob_always_fails scraperAgent Sample.offline_job_world
                "scrape_1_7" Sample.store) as (H & _).
    apply (H Sample.job); reflexivity.
  - destruct (runScrapingJob_always_fails scraperAgent Outage.store_down
                "scrape_1_7" Outage.finished_store) as (_ & H).
    apply (H Outage.finished_job); reflexivity.
Defined.

(** C2, evaluated on the code: the per-URL loop does build one entry per
    URL, the [i]-th entry being the page result of the [i]-th URL, so for
    [N] URLs the list has [N] entries in input order; but the list is never
    finalised: no run writes the result document or the raw dump, and no run
    changes the [resultCount] of the job, because the run throws at
    [browser.close()] before it saves anything. *)
Theorem results_ordered_but_never_recorded (a : Agent) (w : JobWorld) (jobId : string)
    (s : Store) :
  (∀ urls keywords,
     length (scrapeAll a (pages w) 0 urls keywords []) = length urls ∧
     Scraper.url <$> scrapeAll a (pages w) 0 urls keywords [] = urls ∧
     ∀ i, scrapeAll a (pages w) 0 urls keywords [] !! i =
          (λ url, scrapeOne a (pages w i) url keywords) <$> urls !! i) ∧
  scrapedData (snd (runScrapingJob a w jobId s)) = scrapedData s ∧
  rawFiles (snd (runScrapingJob a w jobId s)) = rawFiles s ∧
  (resultCount <$> scrapingJobs (snd (runScrapingJob a w jobId s)) !! jobId) =
  (resultCount <$> scrapingJobs s !! jobId).
Proof.
  split.
  - intros urls keywords. split_and!.
    + by rewrite scrapeAll_imap, app_nil_l, length_imap.
    + apply list_eq. intros i. rewrite list_lookup_fmap, scrapeAll_lookup.
      destruct (urls !! i) as [url|]; simpl; [|done].
      f_equal. apply scrapeOne_shape.
    + intros i. apply scrapeAll_lookup.
  - destruct (runScrapingJob_body_throws a w jobId s) as (e & Hthrow & Hsd & Hrf & Hrc & _).
    unfold runScrapingJob, eff_try.
    destruct (runScrapingJob_body a w jobId s) as [[[]|e'] s1]; simpl in *; [done|].
    destruct (handler_effect w jobId e' s1) as (H1 & H2 & H3 & _).
    split_and!; congruence.
Qed.

(** ** Failure of the summarisation backends *)

Section summarizer.

Variables (a : Agent) (w : PageWorld) (url : string) (keywords : list string).
Hypothesis down : Backend.unavailable w.

Lemma extractMainContent_unavailable (fullText : string) :
  is_ok (extractMainContent a w fullText keywords) = false.
Proof using down.
  destruct down as (Hopenai & Hgen). unfold extractMainContent.
  destruct (has_OPENAI_API_KEY w); [|apply Hgen].
  specialize (Hopenai (openai_prompt keywords (truncate a fullText))).
  destruct (openai_completion w _); [discriminate Hopenai | apply Hgen].
Qed.

Lemma scrapePage_body_unavailable :
  is_ok (scrapePage_body a w url keywords) = false.
Proof using down.
  unfold scrapePage_body.
  destruct (page_setUserAgent w); simpl; [|done].
  destruct (page_goto w url); simpl; [|done].
  destruct (page_title w); simpl; [|done].
  destruct (try_catch (page_meta_description w) _); simpl; [|done].
  destruct (page_screenshot w); simpl; [|done].
  destruct (page_content w); simpl; [|done].
  destruct (page_innerText w) as [textContent|]; simpl; [|done].
  pose proof (extractMainContent_unavailable textContent) as H.
  by destruct (extractMainContent a w textContent keywords).
Qed.

Lemma scrapeWithoutBrowser_body_unavailable :
  enableAIExtraction a = true →
  is_ok (scrapeWithoutBrowser_body a w url keywords) = false.
Proof using down.
  intros Hai. unfold scrapeWithoutBrowser_body. rewrite Hai.
  destruct (fst (fetchWithRetry a w url)) as [[resp|]|e]; simpl; [|done|done].
  destruct (scoreKeywords _ _ _ _) as [km|e]; simpl; [|done].
  match goal with
  | |- context [extractMainContent a w ?t keywords] =>
      pose proof (extractMainContent_unavailable t) as H;
      by destruct (extractMainContent a w t keywords)
  end.
Qed.

Lemma scrapeOne_unavailable :
  selectStrategy a url = Rendered ∨ enableAIExtraction a = true →
  Shape.failed (scrapeOne a w url keywords).
Proof using down.
  intros Hconsulted. unfold scrapeOne, scrapeUrl.
  destruct (selectStrategy a url) eqn:Hsel.
  - destruct Hconsulted as [? | Hai]; [done|].
    pose proof (scrapeWithoutBrowser_body_unavailable Hai) as Hbody.
    unfold scrapeWithoutBrowser.
    destruct (scrapeWithoutBrowser_body a w url keywords) as [?|e]; [done|].
    apply failed_lightweight_shape.
  - destruct (puppeteer_launch w); simpl; [|apply failed_page_shape].
    unfold scrapePage.
    destruct (browser_newPage w); simpl; [|apply failed_page_shape].
    pose proof scrapePage_body_unavailable as Hbody.
    destruct (scrapePage_body a w url keywords) as [?|e]; [done|]. simpl.
    unfold try_finally.
    destruct (page_close w); simpl; [|apply failed_page_shape].
    destruct (browser_close w); simpl; [|apply failed_page_shape].
    apply failed_rendered_shape.
Qed.

End summarizer.

(** C3, as stated, fails: with both summarisation backends failing, the
    scrape of a page that is fetched and parsed without trouble yields a
    result with [success = false], the error of the backend and no content,
    on the lightweight path as on the rendered one. *)
Lemma summarizer_down_fails_the_page :
  Backend.unavailable (Sample.without_summarizer Sample.world) ∧
  success (scrapeOne scraperAgent Sample.world
             "https://en.wikipedia.org/wiki/GPT-4" ["GPT-4"]) = true ∧
  scrapeOne scraperAgent (Sample.without_summarizer Sample.world)
    "https://en.wikipedia.org/wiki/GPT-4" ["GPT-4"]
  = failed_lightweight Sample.world "https://en.wikipedia.org/wiki/GPT-4" Sample.unavailable ∧
  success (scrapeOne scraperAgent (Sample.without_summarizer Sample.world)
             "https://en.wikipedia.org/wiki/GPT-4" ["GPT-4"]) = false ∧
  success (scrapeOne scraperAgent (Sample.without_summarizer Sample.world)
             "https://example.com/gpt" ["GPT-4"]) = false ∧
  mainContent (scrapeOne scraperAgent (Sample.without_summarizer Sample.world)
                 "https://example.com/gpt" ["GPT-4"]) = None.
Proof. split; [by split | by vm_compute]. Qed.

(** C3 (amended): when every summarisation stage fails, no error
    propagates past the per-URL boundary, the loop obtains a page result for
    the URL and goes on, but wherever the summariser is consulted (always on
    the rendered path, and on the lightweight path unless AI extraction is
    disabled) that result is a failed one: [success = false], the error
    description present, no content and no degraded summary.  Only the
    single-URL callable absorbs the failure: [processWithAI] then returns a
    fall-back summary, a fixed sentence quoting the title and the description,
    with no key points and the error message as marker. *)
Theorem summarizer_failure_is_a_failed_result (a : Agent) (w : PageWorld) (url : string)
    (keywords : list string) :
  Backend.unavailable w →
  (selectStrategy a url = Rendered ∨ enableAIExtraction a = true →
   Shape.failed (scrapeOne a w url keywords) ∧
   Scraper.url (scrapeOne a w url keywords) = url) ∧
  (∀ openai extractedData options,
     (∀ context, is_ok (openai context) = false) →
     ∃ e, Single.processWithAI openai extractedData url options =
          Single.mkProcessed
            ("Failed to generate AI summary. Original title: "
               +:+ Single.title extractedData +:+ ". Description: "
               +:+ Single.description extractedData)
            [] [] "unknown" [] (Some (message e))).
Proof.
  intros Hdown. split.
  - intros Hc. split; [by apply scrapeOne_unavailable | apply scrapeOne_shape].
  - intros openai extractedData options Hfail. unfold Single.processWithAI.
    match goal with
    | |- context [openai ?c] => specialize (Hfail c); destruct (openai c) as [?|e]
    end; [discriminate Hfail|].
    by exists e.
Qed.

Lemma summarizer_failure_is_a_failed_result_witness :
  Shape.failed (scrapeOne scraperAgent (Sample.without_summarizer Sample.world)
                  "https://example.com/gpt" ["GPT-4"]) ∧
  Shape.failed (scrapeOne scraperAgent (Sample.without_summarizer Sample.world)
                  "https://en.wikipedia.org/wiki/GPT-4" ["GPT-4"]) ∧
  ∃ e, Single.processWithAI (λ _, Throw Sample.unavailable) Outage.extracted
         "https://example.com/gpt" Sample.no_options =
       Single.mkProcessed
         "Failed to generate AI summary. Original title: Large language models. Description: About GPT-4"
         [] [] "unknown" [] (Some (message e)).
Proof.
  split_and!.
  - apply (summarizer_failure_is_a_failed_result scraperAgent
             (Sample.without_summarizer Sample.world) "https://example.com/gpt" ["GPT-4"]);
      [by split | left; reflexivity].
  - apply (summarizer_failure_is_a_failed_result scraperAgent
             (Sample.without_summarizer Sample.world)
             "https://en.wikipedia.org/wiki/GPT-4" ["GPT-4"]);
      [by split | right; reflexivity].
  - destruct (summarizer_failure_is_a_failed_result scraperAgent
                (Sample.without_summarizer Sample.world) "https://example.com/gpt" ["GPT-4"])
      as (_ & H); [by split|].
    apply (H (λ _, Throw Sample.unavailable) Outage.extracted Sample.no_options).
    reflexivity.
Defined.

(** ** Keyword scoring *)

Section plain_keywords.

Lemma syntax_char_false (c : ascii) :
  Keyword.syntax_char c = false →
  Ascii.eqb c "(" = false ∧ Ascii.eqb c ")" = false ∧ Ascii.eqb c "|" = false ∧
  Ascii.eqb c "^" = false ∧ Ascii.eqb c "$" = false ∧ Ascii.eqb c "." = false ∧
  Ascii.eqb c "[" = false ∧ Ascii.eqb c "{" = false ∧ Ascii.eqb c "\" = false ∧
  Ascii.eqb c "*" = false ∧ Ascii.eqb c "+" = false ∧ Ascii.eqb c "?" = false.
Proof.
  unfold Keyword.syntax_char. simpl. intros H.
  repeat (apply orb_false_elim in H as [? H]). by split_and!.
Qed.

(** A character without pattern syntax is read as a literal term. *)
Lemma parse_plain_char (c : ascii) (rest : string) (cur : Regex.frame)
    (stack : list Regex.frame) :
  Keyword.syntax_char c = false →
  Regex.parse (String c rest) cur stack =
  Regex.parse rest (Regex.push_term cur (Regex.RChar c) true) stack.
Proof.
  intros H. apply syntax_char_false in H
    as (H1 & H2 & H3 & H4 & H5 & H6 & H7 & H8 & H9 & H10 & H11 & H12).
  cbn [Regex.parse]. unfold Regex.quantifier_bounds.
  by rewrite H1, H2, H3, H4, H5, H6, H7, H8, H9, H10, H11, H12.
Qed.

Lemma parse_plain (keyword : string) :
  ∀ (rest : string) (cur : Regex.frame) (stack : list Regex.frame),
    Keyword.plain keyword = true →
    Regex.parse (keyword +:+ rest) cur stack =
    Regex.parse rest (Keyword.push_chars keyword cur) stack.
Proof.
  induction keyword as [|c keyword IH]; intros rest cur stack Hplain; [done|].
  simpl in Hplain. apply andb_true_iff in Hplain as [Hc Hk].
  apply negb_true_iff in Hc.
  rewrite str_app_cons, parse_plain_char by done. simpl. by apply IH.
Qed.

(** The pattern built from a plain keyword always compiles, to the
    keyword between two word-boundary assertions. *)
Lemma compile_plain (keyword : string) :
  Keyword.plain keyword = true →
  Regex.compile (keyword_pattern keyword) = Regex.Pattern (Keyword.word_pattern keyword).
Proof.
  intros Hplain. unfold Regex.compile, keyword_pattern.
  change ("\b" +:+ keyword +:+ "\b") with (String "\" (String "b" (keyword +:+ "\b"))).
  cbn [Regex.parse Ascii.eqb Bool.eqb Regex.escape]. simpl.
  by rewrite parse_plain.
Qed.

Lemma countKeyword_plain host (text keyword : string) :
  Keyword.plain keyword = true →
  countKeyword host text keyword =
  Ok (Regex.count_matches (Keyword.word_pattern keyword) text).
Proof. intros H. unfold countKeyword. by rewrite compile_plain. Qed.

(** Scoring plain keywords never throws. *)
Lemma scoreKeywords_plain host (text : string) (keywords : list string) :
  ∀ acc, forallb Keyword.plain keywords = true →
         is_ok (scoreKeywords host text keywords acc) = true.
Proof.
  induction keywords as [|k ks IH]; intros acc Hall; [done|].
  simpl in Hall. apply andb_true_iff in Hall as [Hk Hks].
  simpl. rewrite countKeyword_plain by done. simpl. by apply IH.
Qed.

End plain_keywords.

Section absent_keyword.

Lemma seq_of_push_chars (keyword : string) :
  ∀ (f : Regex.frame) (acc : Regex.regex),
    fold_left (λ acc t, Regex.RSeq (fst t) acc) (Regex.terms (Keyword.push_chars keyword f)) acc
    = fold_left (λ acc t, Regex.RSeq (fst t) acc) (Regex.terms f)
        (Keyword.chars_then keyword acc) ∧
    Regex.alts (Keyword.push_chars keyword f) = Regex.alts f.
Proof.
  induction keyword as [|c keyword IH]; intros f acc; [done|].
  simpl. destruct (IH (Regex.push_term f (Regex.RChar c) true) acc) as [-> ->]. done.
Qed.

Lemma word_pattern_eq (keyword : string) :
  Keyword.word_pattern keyword =
  Regex.RSeq (Regex.RWordB false)
    (Keyword.chars_then keyword (Regex.RSeq (Regex.RWordB false) Regex.REmpty)).
Proof.
  unfold Keyword.word_pattern, Regex.close_frame, Regex.seq_of. simpl.
  destruct (seq_of_push_chars keyword
              (Regex.push_term Regex.empty_frame (Regex.RWordB false) false)
              (Regex.RSeq (Regex.RWordB false) Regex.REmpty)) as [-> ->].
  done.
Qed.

(** The characters of a keyword match only where the keyword stands, up
    to the case of the letters. *)
Lemma run_chars_prefix (keyword : string) (tail : Regex.regex) :
  ∀ (x : Regex.pos) (k : Regex.pos → option Regex.pos),
    is_Some (Regex.run (Keyword.chars_then keyword tail) x k) →
    Keyword.prefix_ci keyword (snd x) = true.
Proof.
  induction keyword as [|c keyword IH]; intros [prev s] k Hrun; [done|].
  simpl in Hrun. unfold Regex.read in Hrun. simpl in Hrun.
  destruct s as [|d s]; [by destruct Hrun|]. simpl.
  destruct (Regex.same_char c d); [|by destruct Hrun]. simpl.
  by apply (IH _ _ Hrun).
Qed.

Lemma exec_absent (keyword : string) (s : string) :
  ∀ prev, Keyword.occurs_ci keyword s = false →
          Regex.exec (Keyword.word_pattern keyword) prev s = None.
Proof.
  assert (Hrun : ∀ prev t, Keyword.prefix_ci keyword t = false →
                           Regex.run (Keyword.word_pattern keyword) (prev, t) Some = None).
  { intros prev t Hp. rewrite word_pattern_eq. simpl.
    destruct (Regex.at_boundary (prev, t)); [|done].
    apply eq_None_not_Some. intros H. apply run_chars_prefix in H. simpl in H. congruence. }
  induction s as [|c s IH]; intros prev Ho.
  - simpl. rewrite Hrun; [done|]. simpl in Ho. by rewrite orb_false_r in Ho.
  - assert (Hp : Keyword.prefix_ci keyword (String c s) = false
                 ∧ Keyword.occurs_ci keyword s = false).
    { change (Keyword.prefix_ci keyword (String c s) || Keyword.occurs_ci keyword s = false)
        in Ho. by apply orb_false_elim in Ho. }
    destruct Hp as [Hp Hs].
    change (Regex.exec (Keyword.word_pattern keyword) prev (String c s))
      with (match Regex.run (Keyword.word_pattern keyword) (prev, String c s) Some with
            | Some e => Some ((prev, String c s), e)
            | None => Regex.exec (Keyword.word_pattern keyword) (Some c) s
            end).
    rewrite Hrun by done. by apply IH.
Qed.

(** A plain keyword that does not occur in the text, in any case of the
    letters, counts zero. *)
Lemma countKeyword_absent host (text keyword : string) :
  Keyword.plain keyword = true → Keyword.occurs_ci keyword text = false →
  countKeyword host text keyword = Ok 0.
Proof.
  intros Hplain Habsent. rewrite countKeyword_plain by done.
  unfold Regex.count_matches. rewrite Nat.add_1_r. simpl.
  by rewrite exec_absent.
Qed.

End absent_keyword.

(** C5, evaluated on the code: the scorer counts the case-insensitive
    matches of the keyword between word boundaries ([GPT-4] is counted twice
    in the example, in any case of the letters), an empty keyword list gives
    the empty map and the total zero, keywords without pattern syntax never
    make it throw and count zero when they do not occur in the text.  But
    the keyword is pasted unescaped into the pattern source: a keyword with
    pattern syntax is read as a pattern, so scoring the keyword [C++] throws
    a syntax error on every text, which turns the scrape of the page into a
    failed result, and the keyword [a.c] is counted in a text where it does
    not occur. *)
Theorem keyword_scoring_reads_keyword_as_pattern (host : string → Result (string → nat)) :
  scoreKeywords host "GPT-4 is here. GPT-4 rocks." ["GPT-4"] ∅ = Ok {[ "GPT-4" := 2 ]} ∧
  scoreKeywords host "gpt-4 IS HERE. Gpt-4 ROCKS." ["GPT-4"] ∅ = Ok {[ "GPT-4" := 2 ]} ∧
  total_matches {[ "GPT-4" := 2 ]} = 2 ∧
  (∀ text, scoreKeywords host text [] ∅ = Ok ∅) ∧
  total_matches ∅ = 0 ∧
  (∀ text keywords acc,
     forallb Keyword.plain keywords = true →
     is_ok (scoreKeywords host text keywords acc) = true) ∧
  (∀ text keyword,
     Keyword.plain keyword = true → Keyword.occurs_ci keyword text = false →
     countKeyword host text keyword = Ok 0) ∧
  (∀ text,
     scoreKeywords host text ["C++"] ∅ =
     Throw (new_SyntaxError "Invalid regular expression: /\bC++\b/: Nothing to repeat")) ∧
  scrapeWithoutBrowser scraperAgent Sample.world "https://en.wikipedia.org/wiki/C++" ["C++"]
  = failed_lightweight Sample.world "https://en.wikipedia.org/wiki/C++"
      (new_SyntaxError "Invalid regular expression: /\bC++\b/: Nothing to repeat") ∧
  Keyword.occurs_ci "a.c" "abc" = false ∧
  scoreKeywords host "abc" ["a.c"] ∅ = Ok {[ "a.c" := 1 ]}.
Proof.
  split_and!; try by vm_compute.
  - intros text keywords acc. apply scoreKeywords_plain.
  - intros text keyword. apply countKeyword_absent.
Qed.

Lemma keyword_scoring_reads_keyword_as_pattern_witness :
  is_ok (scoreKeywords (host_regexp Sample.world) "I like C# and F#" ["like"; "C#"] ∅) = true ∧
  countKeyword (host_regexp Sample.world) "GPT-4 is here. GPT-4 rocks." "Claude" = Ok 0.
Proof.
  destruct (keyword_scoring_reads_keyword_as_pattern (host_regexp Sample.world))
    as (_ & _ & _ & _ & _ & H1 & H2 & _).
  split.
  - apply H1. reflexivity.
  - apply H2; reflexivity.
Defined.

(** ** The sample job, run *)

(** With every collaborator answering and both pages scraped with success,
    the run still ends with the job failed and nothing saved. *)
Example sample_job_run :
  success <$> scrapeAll scraperAgent (pages Sample.job_world) 0
                (urls Sample.job) (keywords Sample.job) [] = [true; true] ∧
  fst (runScrapingJob scraperAgent Sample.job_world "scrape_1_7" Sample.store) = Ok tt ∧
  (status <$> scrapingJobs (snd (runScrapingJob scraperAgent Sample.job_world
                                   "scrape_1_7" Sample.store)) !! "scrape_1_7")
  = Some Failed ∧
  (resultCount <$> scrapingJobs (snd (runScrapingJob scraperAgent Sample.job_world
                                        "scrape_1_7" Sample.store)) !! "scrape_1_7")
  = Some None ∧
  scrapedData (snd (runScrapingJob scraperAgent Sample.job_world
                      "scrape_1_7" Sample.store)) !! "scrape_result_scrape_1_7" = None.
Proof. by vm_compute. Qed.

(** With no page reachable, every entry is a failed result, and the job
    ends failed as well, for the same reason. *)
Example offline_job_run :
  success <$> scrapeAll scraperAgent (pages Sample.offline_job_world) 0
                (urls Sample.job) (keywords Sample.job) [] = [false; false] ∧
  (job_error <$> scrapingJobs (snd (runScrapingJob scraperAgent Sample.offline_job_world
                                      "scrape_1_7" Sample.store)) !! "scrape_1_7")
  = Some (Some "browser is not defined").
Proof. by vm_compute. Qed.

(* ===================================================================== *)
(** * Further properties of the job controller                            *)
(* ===================================================================== *)

Ltac run_cases :=
  unfold runScrapingJob, eff_try, runScrapingJob_body, mbind, eff_mbind, eff_bind,
    job_update, job_data, call;
  rewrite resolve_browser;
  repeat (case_match; simplify_eq; simpl in *; rewrite ?lookup_insert_eq in *;
          simplify_eq; simpl in * );
  simplify_eq.

(** X1: of the two collections and the raw result dumps, a run changes the
    document of its own job only: the documents of the other jobs and the
    result documents are those it found, no raw dump is uploaded, and in its
    own document the URLs, the keywords and the task id are never changed.
    (The screenshots that [scrapePage] uploads for the rendered pages and the
    entries of the activity log are completions of calls here, not contents
    of the store: they are not covered.) *)
Theorem runScrapingJob_isolated (a : Agent) (w : JobWorld) (jobId : string) (s : Store) :
  (∀ other, other ≠ jobId →
            scrapingJobs (snd (runScrapingJob a w jobId s)) !! other = scrapingJobs s !! other) ∧
  scrapedData (snd (runScrapingJob a w jobId s)) = scrapedData s ∧
  rawFiles (snd (runScrapingJob a w jobId s)) = rawFiles s ∧
  ((λ d, (urls d, keywords d, taskId d))
     <$> scrapingJobs (snd (runScrapingJob a w jobId s)) !! jobId) =
  ((λ d, (urls d, keywords d, taskId d)) <$> scrapingJobs s !! jobId).
Proof.
  split_and!.
  - intros other Hne. run_cases; rewrite ?lookup_insert_ne by done; done.
  - run_cases; done.
  - run_cases; done.
  - run_cases; rewrite ?lookup_insert_eq; simpl; try done;
      repeat match goal with H : _ !! _ = _ |- _ => rewrite H end; done.
Qed.

Lemma runScrapingJob_isolated_witness :
  scrapingJobs (snd (runScrapingJob scraperAgent Sample.job_world "scrape_2_9"
                       (mkStore (<["scrape_2_9" := Sample.job]> (scrapingJobs Sample.store))
                          ∅ ∅))) !! "scrape_1_7" = Some Sample.job.
Proof.
  destruct (runScrapingJob_isolated scraperAgent Sample.job_world "scrape_2_9"
              (mkStore (<["scrape_2_9" := Sample.job]> (scrapingJobs Sample.store)) ∅ ∅))
    as (H & _).
  rewrite H; [reflexivity | discriminate].
Defined.

(** X2: running a job that has no document changes nothing in the store and
    rejects: both the update to [running] and the update to [failed] find no
    document to update. *)
Theorem runScrapingJob_unknown_job (a : Agent) (w : JobWorld) (jobId : string) (s : Store) :
  scrapingJobs s !! jobId = None →
  snd (runScrapingJob a w jobId s) = s ∧
  is_ok (fst (runScrapingJob a w jobId s)) = false ∧
  (update_running w = Ok tt → update_failed w = Ok tt →
   fst (runScrapingJob a w jobId s) = Throw (new_Error "No document to update")).
Proof.
  intros Hnone. split_and!.
  - run_cases; done.
  - run_cases; done.
  - intros H1 H2. run_cases; done.
Qed.

Lemma runScrapingJob_unknown_job_witness :
  snd (runScrapingJob scraperAgent Sample.job_world "scrape_0_0" Sample.store) = Sample.store ∧
  fst (runScrapingJob scraperAgent Sample.job_world "scrape_0_0" Sample.store)
  = Throw (new_Error "No document to update").
Proof.
  destruct (runScrapingJob_unknown_job scraperAgent Sample.job_world "scrape_0_0"
              Sample.store) as (H1 & _ & H2); [reflexivity|].
  split; [exact H1 | apply H2; reflexivity].
Defined.

(** X3: the promise of a run resolves whenever the two calls of its [catch]
    block succeed on an existing job: the failure of the run is written on
    the job, not thrown; and it rejects only with an error of that block. *)
Theorem runScrapingJob_resolves (a : Agent) (w : JobWorld) (jobId : string) (s : Store) :
  (is_Some (scrapingJobs s !! jobId) → update_failed w = Ok tt → log_failed w = Ok tt →
   fst (runScrapingJob a w jobId s) = Ok tt) ∧
  (∀ e, fst (runScrapingJob a w jobId s) = Throw e →
        update_failed w = Throw e ∨ log_failed w = Throw e ∨
        (scrapingJobs s !! jobId = None ∧ e = new_Error "No document to update")).
Proof.
  split.
  - intros [job Hjob] H1 H2. run_cases; done.
  - intros e. run_cases; intros; simplify_eq; auto.
Qed.

Lemma runScrapingJob_resolves_witness :
  fst (runScrapingJob scraperAgent Sample.offline_job_world "scrape_1_7" Sample.store) = Ok tt ∧
  (update_failed Outage.store_down = Throw Outage.down
   ∨ log_failed Outage.store_down = Throw Outage.down
   ∨ (scrapingJobs Outage.finished_store !! "scrape_1_7" = None
      ∧ Outage.down = new_Error "No document to update")).
Proof.
  split.
  - apply (runScrapingJob_resolves scraperAgent Sample.offline_job_world "scrape_1_7"
             Sample.store); [by eexists | reflexivity | reflexivity].
  - apply (runScrapingJob_resolves scraperAgent Outage.store_down "scrape_1_7"
             Outage.finished_store). reflexivity.
Defined.

(* ===================================================================== *)
(** * Properties of the submission of jobs                                *)
(* ===================================================================== *)

Section submission.

Import Submission.

Variables (a : Agent) (w : StartWorld).

Ltac start_cases :=
  unfold startScraping, eff_try, mbind, eff_mbind, eff_bind, mret, eff_mret, eff_ret,
    job_set, call;
  repeat (case_match; simplify_eq; simpl in * ); simplify_eq.

(** What [startScraping] does to the store, by the completions of its two
    calls. *)
Lemma startScraping_outcome (urls keywords : option (list string)) (taskId : option string)
    (s : Store) :
  startScraping a w urls keywords taskId s =
  match set_job w, log_created w with
  | Throw e, _ =>
      (Throw (new_Error ("Failed to start scraping job: " +:+ message e)), s)
  | Ok _, Throw e =>
      (Throw (new_Error ("Failed to start scraping job: " +:+ message e)),
       mkStore (<[new_jobId w := queued_job a urls keywords taskId]> (scrapingJobs s))
         (scrapedData s) (rawFiles s))
  | Ok _, Ok _ =>
      (Ok (new_jobId w),
       mkStore (<[new_jobId w := queued_job a urls keywords taskId]> (scrapingJobs s))
         (scrapedData s) (rawFiles s))
  end.
Proof. start_cases; done. Qed.

End submission.

(** ** A run under way *)

Section flight.

Import Submission.

Variables (a : Agent) (jw : JobWorld) (jobId : string).

Ltac flight_cases :=
  unfold in_flight, runScrapingJob, eff_try, runScrapingJob_body, mbind, eff_mbind,
    eff_bind, job_update, job_data, call;
  rewrite ?resolve_browser;
  repeat (case_match; simplify_eq; simpl in *; rewrite ?lookup_insert_eq in *;
          simplify_eq; simpl in * );
  simplify_eq.

(** The [try] block of a run writes once at most: the update to
    [running]. *)
Lemma runScrapingJob_body_writes_once (s : Store) :
  snd (runScrapingJob_body a jw jobId s) =
  snd (job_update (update_running jw) jobId
         (λ d, mkJobDoc (urls d) (keywords d) (taskId d) Running true (endedAt d)
                 (scrapedDataId d) (rawDataPath d) (resultCount d) (successCount d)
                 (job_error d)) s).
Proof.
  unfold runScrapingJob_body, mbind, eff_mbind, eff_bind, job_update, job_data, call.
  rewrite resolve_browser.
  repeat (case_match; simplify_eq; simpl in *; rewrite ?lookup_insert_eq in *;
          simplify_eq; simpl in * ); done.
Qed.

(** A run reads and writes the document of its own job only. *)
Lemma in_flight_other (progress : Progress) (s : Store) (other : string) :
  other ≠ jobId →
  scrapingJobs (in_flight a jw jobId progress s) !! other = scrapingJobs s !! other.
Proof.
  intros Hne. destruct progress; flight_cases; rewrite ?lookup_insert_ne by done; done.
Qed.

Lemma in_flight_collections (progress : Progress) (s : Store) :
  scrapedData (in_flight a jw jobId progress s) = scrapedData s ∧
  rawFiles (in_flight a jw jobId progress s) = rawFiles s.
Proof. destruct progress; flight_cases; done. Qed.

Lemma in_flight_missing (progress : Progress) (s : Store) :
  scrapingJobs s !! jobId = None → in_flight a jw jobId progress s = s.
Proof. intros Hnone. destruct progress; flight_cases; done. Qed.

(** What a run under way has made of the document of its job: the fields
    that describe the job are not written, no result is recorded, and the
    status is the one found, [running] or [failed]. *)
Lemma in_flight_own (progress : Progress) (s : Store) (d : JobDoc) :
  scrapingJobs s !! jobId = Some d →
  ∃ d', scrapingJobs (in_flight a jw jobId progress s) !! jobId = Some d' ∧
        urls d' = urls d ∧ keywords d' = keywords d ∧ taskId d' = taskId d ∧
        resultCount d' = resultCount d ∧ scrapedDataId d' = scrapedDataId d ∧
        (status d' = status d ∨ status d' = Running ∨ status d' = Failed) ∧
        (progress = NotYet → d' = d).
Proof.
  intros Hd.
  destruct progress; flight_cases;
    (eexists; split; [first [eassumption | reflexivity | apply lookup_insert_eq]|]);
    simpl; split_and!; try done; auto.
Qed.

Lemma store_eq (s1 s2 : Store) :
  (∀ k, scrapingJobs s1 !! k = scrapingJobs s2 !! k) →
  scrapedData s1 = scrapedData s2 → rawFiles s1 = rawFiles s2 → s1 = s2.
Proof.
  destruct s1, s2. simpl. intros H -> ->. f_equal. by apply map_eq.
Qed.

(** What a run makes of the document of its job depends on that document
    alone. *)
Lemma in_flight_local (progress : Progress) (s1 s2 : Store) :
  scrapingJobs s1 !! jobId = scrapingJobs s2 !! jobId →
  scrapingJobs (in_flight a jw jobId progress s1) !! jobId =
  scrapingJobs (in_flight a jw jobId progress s2) !! jobId.
Proof.
  intros H. destruct progress; [done | |];
    unfold in_flight, runScrapingJob, eff_try, runScrapingJob_body, mbind, eff_mbind,
      eff_bind, job_update, job_data, call;
    rewrite resolve_browser, H;
    repeat (case_match; simplify_eq; simpl in *; rewrite ?lookup_insert_eq in *;
            simplify_eq; simpl in * ); simplify_eq; try done; congruence.
Qed.

(** The writes of a run and the write of the document of another job can
    be applied in either order. *)
Lemma in_flight_set (progress : Progress) (s : Store) (other : string) (doc : JobDoc) :
  other ≠ jobId →
  in_flight a jw jobId progress
    (mkStore (<[other := doc]> (scrapingJobs s)) (scrapedData s) (rawFiles s)) =
  mkStore (<[other := doc]> (scrapingJobs (in_flight a jw jobId progress s)))
    (scrapedData s) (rawFiles s).
Proof.
  intros Hne. apply store_eq.
  - intros k. simpl. destruct (decide (k = jobId)) as [-> | Hk].
    + rewrite lookup_insert_ne by done. apply in_flight_local. simpl.
      by rewrite lookup_insert_ne.
    + rewrite in_flight_other by done. simpl.
      destruct (decide (k = other)) as [-> | Hko].
      * by rewrite !lookup_insert_eq.
      * rewrite !lookup_insert_ne by done. by rewrite in_flight_other.
  - by destruct (in_flight_collections progress
                   (mkStore (<[other := doc]> (scrapingJobs s)) (scrapedData s) (rawFiles s)))
      as [-> _].
  - by destruct (in_flight_collections progress
                   (mkStore (<[other := doc]> (scrapingJobs s)) (scrapedData s) (rawFiles s)))
      as [_ ->].
Qed.

End flight.

(** The runs of two jobs can be advanced in either order. *)
Lemma in_flight_comm (a : Agent) (jw jw' : JobWorld) (jobId jobId' : string)
    (progress progress' : Submission.Progress) (s : Store) :
  jobId' ≠ jobId →
  Submission.in_flight a jw jobId progress (Submission.in_flight a jw' jobId' progress' s) =
  Submission.in_flight a jw' jobId' progress' (Submission.in_flight a jw jobId progress s).
Proof.
  intros Hne. apply store_eq.
  - intros k. destruct (decide (k = jobId)) as [-> | Hk].
    + rewrite (in_flight_other a jw' jobId') by done.
      apply in_flight_local. by rewrite in_flight_other.
    + rewrite in_flight_other by done.
      destruct (decide (k = jobId')) as [-> | Hk'].
      * apply in_flight_local. by rewrite in_flight_other.
      * rewrite !(in_flight_other a jw' jobId') by done. by rewrite in_flight_other.
  - by rewrite !(proj1 (in_flight_collections _ _ _ _ _)).
  - by rewrite !(proj2 (in_flight_collections _ _ _ _ _)).
Qed.

(** X4: [startScraping] throws exactly when the write of the job document or
    the activity log throws, with the message of that error behind
    ["Failed to start scraping job: "].  When the write throws, no run is
    started and the store is left as it was; when only the log throws, the
    caller gets the error although the job document is stored and its run
    is under way. *)
Theorem startScraping_failure (a : Agent) (w : Submission.StartWorld) (jw : JobWorld)
    (progress : Submission.Progress)
    (urls keywords : option (list string)) (taskId : option string) (s : Store) :
  (∀ e, Submission.set_job w = Throw e →
        Submission.startScraping a w urls keywords taskId s =
        (Throw (new_Error ("Failed to start scraping job: " +:+ message e)), s) ∧
        Submission.at_return a jw w progress s = s) ∧
  (∀ e, Submission.set_job w = Ok tt → Submission.log_created w = Throw e →
        fst (Submission.startScraping a w urls keywords taskId s) =
        Throw (new_Error ("Failed to start scraping job: " +:+ message e)) ∧
        ∃ job,
          scrapingJobs (Submission.at_return a jw w progress
                          (snd (Submission.startScraping a w urls keywords taskId s)))
            !! Submission.new_jobId w = Some job ∧
          Submission.under_way (Submission.queued_job a urls keywords taskId) job) ∧
  (is_ok (fst (Submission.startScraping a w urls keywords taskId s)) = true →
   Submission.set_job w = Ok tt ∧ Submission.log_created w = Ok tt).
Proof.
  rewrite startScraping_outcome. unfold Submission.at_return. split_and!.
  - by intros e ->.
  - intros e -> ->. simpl. split; [done|].
    destruct (in_flight_own a jw (Submission.new_jobId w) progress
                (mkStore (<[Submission.new_jobId w := Submission.queued_job a urls keywords taskId]>
                            (scrapingJobs s)) (scrapedData s) (rawFiles s))
                (Submission.queued_job a urls keywords taskId))
      as (job & Hjob & Hu & Hk & Ht & Hr & Hd & Hs & _); [apply lookup_insert_eq|].
    exists job. split; [exact Hjob|]. unfold Submission.under_way.
    split_and!; done.
  - destruct (Submission.set_job w) as [[]|]; [|done].
    by destruct (Submission.log_created w) as [[]|].
Qed.

Lemma startScraping_failure_witness :
  Submission.startScraping scraperAgent
    (Submission.mkStartWorld 1735689600000 7 (Throw Outage.down) (Ok tt))
    (Some ["https://example.com/"]) None None Sample.store =
  (Throw (new_Error "Failed to start scraping job: 14 UNAVAILABLE: document store is down"),
   Sample.store) ∧
  (∃ job,
     scrapingJobs
       (Submission.at_return scraperAgent Sample.job_world
          (Submission.mkStartWorld 1735689600000 7 (Ok tt) (Throw Outage.down))
          Submission.TryOver
          (snd (Submission.startScraping scraperAgent
                  (Submission.mkStartWorld 1735689600000 7 (Ok tt) (Throw Outage.down))
                  (Some ["https://example.com/"]) None None Sample.store)))
       !! "scrape_1735689600000_7" = Some job ∧
     Submission.under_way
       (Submission.queued_job scraperAgent (Some ["https://example.com/"]) None None) job) ∧
  Submission.set_job (Submission.mkStartWorld 1735689600000 7 (Ok tt) (Ok tt)) = Ok tt.
Proof.
  split_and!.
  - destruct (startScraping_failure scraperAgent
                (Submission.mkStartWorld 1735689600000 7 (Throw Outage.down) (Ok tt))
                Sample.job_world Submission.TryOver
                (Some ["https://example.com/"]) None None Sample.store) as (H & _).
    exact (proj1 (H Outage.down eq_refl)).
  - destruct (startScraping_failure scraperAgent
                (Submission.mkStartWorld 1735689600000 7 (Ok tt) (Throw Outage.down))
                Sample.job_world Submission.TryOver
                (Some ["https://example.com/"]) None None Sample.store) as (_ & H & _).
    exact (proj2 (H Outage.down eq_refl eq_refl)).
  - destruct (startScraping_failure scraperAgent
                (Submission.mkStartWorld 1735689600000 7 (Ok tt) (Ok tt))
                Sample.job_world Submission.NotYet
                (Some ["https://example.com/"]) None None Sample.store) as (_ & _ & H).
    apply H. reflexivity.
Defined.

(** X5: when [startScraping] returns an id, the document of the job is
    stored under it, with the URLs and the keywords passed (the defaults of
    the agent standing in only for [null] or [undefined]: an empty list of
    URLs is kept) and without any result; the run is under way, so that its
    status is [queued], [running] or [failed] by then, and the document is
    the one stored as long as the run has written nothing.  The other jobs
    and the results collection are not touched. *)
Theorem startScraping_creates (a : Agent) (w : Submission.StartWorld) (jw : JobWorld)
    (progress : Submission.Progress)
    (urls keywords : option (list string)) (taskId : option string) (s : Store) (jobId : string) :
  fst (Submission.startScraping a w urls keywords taskId s) = Ok jobId →
  jobId = Submission.new_jobId w ∧
  (∃ job,
     scrapingJobs (Submission.at_return a jw w progress
                     (snd (Submission.startScraping a w urls keywords taskId s)))
       !! jobId = Some job ∧
     Submission.under_way (Submission.queued_job a urls keywords taskId) job ∧
     Scraper.urls job = default (defaultUrls a) urls ∧
     Scraper.keywords job = default (defaultKeywords a) keywords ∧
     Scraper.taskId job = taskId ∧
     (progress = Submission.NotYet →
      job = mkJobDoc (default (defaultUrls a) urls) (default (defaultKeywords a) keywords)
              taskId Queued false false None None None None None)) ∧
  (∀ other, other ≠ jobId →
     scrapingJobs (Submission.at_return a jw w progress
                     (snd (Submission.startScraping a w urls keywords taskId s))) !! other =
     scrapingJobs s !! other) ∧
  scrapedData (Submission.at_return a jw w progress
                 (snd (Submission.startScraping a w urls keywords taskId s))) = scrapedData s.
Proof.
  rewrite startScraping_outcome. unfold Submission.at_return.
  destruct (Submission.set_job w) as [[]|]; [|done].
  destruct (Submission.log_created w) as [[]|]; [|done].
  simpl. intros [= <-].
  set (after := mkStore _ _ _).
  destruct (in_flight_own a jw (Submission.new_jobId w) progress after
              (Submission.queued_job a urls keywords taskId))
    as (job & Hjob & Hu & Hk & Ht & Hr & Hd & Hs & Hnot); [apply lookup_insert_eq|].
  split_and!; [done | | |].
  - exists job. split; [exact Hjob|]. unfold Submission.under_way.
    split_and!; done.
  - intros other Hne. rewrite in_flight_other by done. simpl. by rewrite lookup_insert_ne.
  - by destruct (in_flight_collections a jw (Submission.new_jobId w) progress after)
      as [-> _].
Qed.

Lemma startScraping_creates_witness :
  ∃ job,
    scrapingJobs
      (Submission.at_return scraperAgent Sample.job_world
         (Submission.mkStartWorld 1735689600000 7 (Ok tt) (Ok tt)) Submission.TryOver
         (snd (Submission.startScraping scraperAgent
                 (Submission.mkStartWorld 1735689600000 7 (Ok tt) (Ok tt))
                 (Some []) None None Sample.store))) !! "scrape_1735689600000_7" = Some job ∧
    Scraper.urls job = [] ∧ status job = Running.
Proof.
  destruct (startScraping_creates scraperAgent
              (Submission.mkStartWorld 1735689600000 7 (Ok tt) (Ok tt))
              Sample.job_world Submission.TryOver
              (Some []) None None Sample.store "scrape_1735689600000_7")
    as (_ & (job & Hjob & _ & Hu & _) & _); [reflexivity|].
  exists job. split; [exact Hjob|]. split; [exact Hu|].
  vm_compute in Hjob. by injection Hjob as <-.
Defined.

(** X6: a job submitted by [startScraping] ends failed once its run has
    settled, when the document store answers: the document it stored queued
    is found failed with the error ["browser is not defined"], its URLs being
    those submitted. *)
Theorem submitted_job_settles_failed (a : Agent) (w : Submission.StartWorld) (jw : JobWorld)
    (urls keywords : option (list string)) (taskId : option string) (s : Store) :
  Submission.set_job w = Ok tt →
  update_running jw = Ok tt → get_job jw = Ok tt → update_failed jw = Ok tt →
  ∃ job,
    scrapingJobs (Submission.settled a jw w
                    (snd (Submission.startScraping a w urls keywords taskId s)))
      !! Submission.new_jobId w = Some job ∧
    status job = Failed ∧
    job_error job = Some "browser is not defined" ∧
    Scraper.urls job = default (defaultUrls a) urls ∧
    resultCount job = None.
Proof.
  intros Hset Hrun Hget Hfail.
  unfold Submission.settled. rewrite Hset.
  rewrite startScraping_outcome, Hset.
  set (queued := Submission.queued_job a urls keywords taskId).
  set (after := mkStore (<[Submission.new_jobId w := queued]> (scrapingJobs s))
                  (scrapedData s) (rawFiles s)).
  assert (Hafter : snd (match Submission.log_created w with
                        | Ok _ => (Ok (Submission.new_jobId w), after)
                        | Throw e =>
                            (Throw (new_Error ("Failed to start scraping job: " +:+ message e)),
                             after)
                        end) = after) by (by destruct (Submission.log_created w)).
  rewrite Hafter.
  assert (Hjob : scrapingJobs after !! Submission.new_jobId w = Some queued)
    by apply lookup_insert_eq.
  unfold runScrapingJob, eff_try, runScrapingJob_body, mbind, eff_mbind, eff_bind,
    job_update, job_data, call.
  rewrite resolve_browser, Hrun, Hjob, Hget. simpl.
  rewrite lookup_insert_eq. simpl. rewrite Hfail, lookup_insert_eq. simpl.
  rewrite lookup_insert_eq. eexists. split_and!; reflexivity.
Qed.

Lemma submitted_job_settles_failed_witness :
  ∃ job,
    scrapingJobs
      (Submission.settled scraperAgent Sample.job_world
         (Submission.mkStartWorld 1735689600000 7 (Ok tt) (Ok tt))
         (snd (Submission.startScraping scraperAgent
                 (Submission.mkStartWorld 1735689600000 7 (Ok tt) (Ok tt))
                 (Some ["https://example.com/"]) None None Sample.store)))
      !! "scrape_1735689600000_7" = Some job ∧
    status job = Failed ∧
    job_error job = Some "browser is not defined" ∧
    Scraper.urls job = ["https://example.com/"] ∧
    resultCount job = None.
Proof.
  apply (submitted_job_settles_failed scraperAgent
           (Submission.mkStartWorld 1735689600000 7 (Ok tt) (Ok tt)) Sample.job_world
           (Some ["https://example.com/"]) None None Sample.store); reflexivity.
Defined.

(** X7: the callable rejects a call without payload with a type error, and
    a call with neither URL nor query with ["Either url or query must be
    provided"], before anything is stored.  When it answers, the reply is
    consistent with the job it stored: the document under the id returned
    holds the URLs returned, the message counts them, and the run of the job
    is under way.  A URL given is the only URL of the job, whatever the
    query; a query alone, with the search disabled, starts a job without any
    URL. *)
Theorem callable_reply (a : Agent) (log_search : Result unit) (w : Submission.StartWorld)
    (jw : JobWorld) (progress : Submission.Progress)
    (payload : Call.Payload Submission.CallData) (s : Store) :
  (payload = Call.Null ∨ payload = Call.Undefined →
   ∃ msg, Submission.callable a log_search w payload s = (Throw (new_TypeError msg), s)) ∧
  (∀ data, payload = Call.Object data →
     truthy (default EmptyString (Submission.data_url data)) = false →
     truthy (default EmptyString (Submission.data_query data)) = false →
     Submission.callable a log_search w payload s =
     (Throw (new_Error "Either url or query must be provided"), s)) ∧
  (∀ reply, fst (Submission.callable a log_search w payload s) = Ok reply →
     ∃ data,
       payload = Call.Object data ∧
       Submission.resp_success reply = true ∧
       Submission.resp_message reply =
         "Scraping job started with " +:+ pretty (length (Submission.resp_urls reply))
           +:+ " URLs" ∧
       (∃ job,
          scrapingJobs (Submission.at_return a jw w progress
                          (snd (Submission.callable a log_search w payload s)))
            !! Submission.resp_jobId reply = Some job ∧
          Submission.under_way
            (Submission.queued_job a (Some (Submission.resp_urls reply))
               (Submission.call_keywords data) None) job ∧
          Scraper.urls job = Submission.resp_urls reply) ∧
       (truthy (default EmptyString (Submission.data_url data)) = true →
        Submission.resp_urls reply = [default EmptyString (Submission.data_url data)]) ∧
       (truthy (default EmptyString (Submission.data_url data)) = false →
        searchEnabled a = false → Submission.resp_urls reply = [])).
Proof.
  unfold Submission.callable, mbind, eff_mbind, eff_bind, call, mret, eff_mret, eff_ret.
  split_and!.
  - intros [-> | ->]; simpl; by eexists.
  - intros data -> Hu Hq. simpl. unfold urlsToScrape. by rewrite Hu, Hq.
  - intros reply. destruct payload as [| |data]; simpl; [done | done |].
    destruct (urlsToScrape a log_search _ _ _) as [found|e] eqn:Hurls; simpl; [|done].
    rewrite startScraping_outcome. unfold Submission.at_return.
    destruct (Submission.set_job w) as [[]|]; [|done].
    destruct (Submission.log_created w) as [[]|]; [|done].
    simpl. intros [= <-]. simpl. exists data.
    set (after := mkStore _ _ _).
    destruct (in_flight_own a jw (Submission.new_jobId w) progress after
                (Submission.queued_job a (Some found) (Submission.call_keywords data) None))
      as (job & Hjob & Hu & Hk & Ht & Hr & Hd & Hs & _); [apply lookup_insert_eq|].
    split_and!; try done.
    + exists job. split; [exact Hjob|]. unfold Submission.under_way. split_and!; done.
    + intros Hgiven. unfold urlsToScrape in Hurls. rewrite Hgiven in Hurls. simpl in Hurls.
      by injection Hurls as <-.
    + intros Hgiven Hoff. unfold urlsToScrape in Hurls. rewrite Hgiven, Hoff in Hurls.
      simpl in Hurls. rewrite andb_false_r in Hurls.
      destruct (truthy (default EmptyString (Submission.data_query data)));
        simpl in Hurls; [by injection Hurls as <- | done].
Qed.

Lemma callable_reply_witness :
  (∃ msg, Submission.callable scraperAgent (Ok tt)
            (Submission.mkStartWorld 1735689600000 7 (Ok tt) (Ok tt)) Call.Null Sample.store
          = (Throw (new_TypeError msg), Sample.store)) ∧
  Submission.callable scraperAgent (Ok tt)
    (Submission.mkStartWorld 1735689600000 7 (Ok tt) (Ok tt))
    (Call.Object (Submission.mkCallData None (Some EmptyString) None None)) Sample.store =
  (Throw (new_Error "Either url or query must be provided"), Sample.store) ∧
  Submission.resp_urls
    (Submission.mkCallResponse true "scrape_1735689600000_7"
       "Scraping job started with 1 URLs" ["https://example.com/"]) = ["https://example.com/"].
Proof.
  split_and!.
  - destruct (callable_reply scraperAgent (Ok tt)
                (Submission.mkStartWorld 1735689600000 7 (Ok tt) (Ok tt))
                Sample.job_world Submission.NotYet Call.Null Sample.store) as (H & _).
    apply H. by left.
  - destruct (callable_reply scraperAgent (Ok tt)
                (Submission.mkStartWorld 1735689600000 7 (Ok tt) (Ok tt))
                Sample.job_world Submission.NotYet
                (Call.Object (Submission.mkCallData None (Some EmptyString) None None))
                Sample.store) as (_ & H & _).
    by apply (H (Submission.mkCallData None (Some EmptyString) None None)).
  - destruct (callable_reply scraperAgent (Ok tt)
                (Submission.mkStartWorld 1735689600000 7 (Ok tt) (Ok tt))
                Sample.job_world Submission.TryOver
                (Call.Object
                   (Submission.mkCallData (Some "https://example.com/") (Some "weather")
                      None None))
                Sample.store) as (_ & _ & H).
    destruct (H (Submission.mkCallResponse true "scrape_1735689600000_7"
                   "Scraping job started with 1 URLs" ["https://example.com/"]))
      as (data & Hdata & _ & _ & _ & H1 & _); [reflexivity|].
    injection Hdata as <-. apply H1. reflexivity.
Defined.

(** ** The daily batch *)

Section daily.

Import Submission.

Variables (a : Agent) (w : DailyWorld).

Lemma startEach_cons (k : nat) (source : Source) (rest : list Source) (acc : list string)
    (s : Store) :
  startEach a w k (source :: rest) acc s =
  match startScraping a (starts w k) (source_urls source) (source_keywords source)
          (Some (daily_taskId (today_iso w k) source)) s with
  | (Ok jobId, s') => startEach a w (S k) rest (acc ++ [jobId]) s'
  | (Throw e, s') => (Throw e, s')
  end.
Proof. reflexivity. Qed.

(** The awaited writes of the batch are the documents of the jobs it
    starts: a document under another id is not written. *)
Lemma startEach_keeps (docs : list Source) :
  ∀ (k : nat) (acc : list string) (s : Store) (id : string),
    (∀ i, i < length docs → set_job (starts w (k + i)) = Ok tt →
          new_jobId (starts w (k + i)) ≠ id) →
    scrapingJobs (snd (startEach a w k docs acc s)) !! id = scrapingJobs s !! id.
Proof.
  induction docs as [|source rest IH]; intros k acc s id Hother; [done|].
  rewrite startEach_cons, startScraping_outcome.
  destruct (set_job (starts w k)) as [[]|] eqn:Hset; [|done].
  assert (Hne : new_jobId (starts w k) ≠ id).
  { specialize (Hother 0). rewrite Nat.add_0_r in Hother.
    apply Hother; [simpl; lia | done]. }
  destruct (log_created (starts w k)) as [[]|]; simpl.
  - rewrite IH; [simpl; by rewrite lookup_insert_ne|].
    intros i Hi. replace (S k + i) with (k + S i) by lia. apply Hother. simpl. lia.
  - by rewrite lookup_insert_ne.
Qed.

Lemma startEach_collections (docs : list Source) :
  ∀ (k : nat) (acc : list string) (s : Store),
    scrapedData (snd (startEach a w k docs acc s)) = scrapedData s ∧
    rawFiles (snd (startEach a w k docs acc s)) = rawFiles s.
Proof.
  induction docs as [|source rest IH]; intros k acc s; [done|].
  rewrite startEach_cons, startScraping_outcome.
  destruct (set_job (starts w k)) as [[]|]; [|done].
  destruct (log_created (starts w k)) as [[]|]; simpl; [|done].
  by destruct (IH (S k) (acc ++ [new_jobId (starts w k)])
                 (mkStore (<[new_jobId (starts w k) :=
                               queued_job a (source_urls source) (source_keywords source)
                                 (Some (daily_taskId (today_iso w k) source))]>
                             (scrapingJobs s)) (scrapedData s) (rawFiles s))) as [-> ->].
Qed.

(** The document that the [i]-th start stored is the one of its source, as
    long as no later start wrote under the same id. *)
Lemma startEach_stored (docs : list Source) :
  ∀ (k : nat) (acc : list string) (s : Store) (i : nat) (source : Source),
    docs !! i = Some source →
    (∀ i', i' < i → starts_well w (k + i')) →
    set_job (starts w (k + i)) = Ok tt →
    (∀ i', i < i' < length docs → set_job (starts w (k + i')) = Ok tt →
           new_jobId (starts w (k + i')) ≠ new_jobId (starts w (k + i))) →
    scrapingJobs (snd (startEach a w k docs acc s)) !! new_jobId (starts w (k + i)) =
    Some (queued_job a (source_urls source) (source_keywords source)
            (Some (daily_taskId (today_iso w (k + i)) source))).
Proof.
  induction docs as [|source0 rest IH]; intros k acc s i source Hi Hbefore Hset Hlater;
    [done|].
  rewrite startEach_cons, startScraping_outcome.
  destruct i as [|i].
  - injection Hi as ->. rewrite Nat.add_0_r in *. rewrite Hset.
    destruct (log_created (starts w k)) as [[]|]; simpl; [|apply lookup_insert_eq].
    rewrite startEach_keeps; [simpl; apply lookup_insert_eq|].
    intros i' Hi' Hset'. replace (S k + i') with (k + S i') in * by lia.
    apply Hlater; [simpl; lia | done].
  - destruct (Hbefore 0) as [Hset0 Hlog0]; [lia|].
    rewrite Nat.add_0_r in Hset0, Hlog0. rewrite Hset0, Hlog0.
    replace (k + S i) with (S k + i) in * by lia.
    apply IH; [done | | done |].
    + intros i' Hi'. replace (S k + i') with (k + S i') by lia. apply Hbefore. lia.
    + intros i' Hi' Hset'. replace (S k + i') with (k + S i') in * by lia.
      specialize (Hlater (S i')). replace (k + S i') with (S k + i') in * by lia.
      apply Hlater; [simpl; lia | done].
Qed.

(** When every start succeeds, the batch returns the ids of the jobs in
    order, one per document. *)
Lemma startEach_all (docs : list Source) :
  ∀ (k : nat) (acc : list string) (s : Store),
    (∀ i, i < length docs → starts_well w (k + i)) →
    fst (startEach a w k docs acc s) =
      Ok (acc ++ ((λ i, new_jobId (starts w i)) <$> seq k (length docs))).
Proof.
  induction docs as [|source rest IH]; intros k acc s Hall.
  - simpl. by rewrite app_nil_r.
  - rewrite startEach_cons, startScraping_outcome.
    destruct (Hall 0) as [Hset Hlog]; [simpl; lia|].
    rewrite Nat.add_0_r in Hset, Hlog. rewrite Hset, Hlog.
    rewrite IH.
    + by rewrite <- app_assoc.
    + intros i Hi. replace (S k + i) with (k + S i) by lia. apply Hall. simpl. lia.
Qed.

(** When the [j]-th start is the first to fail, the batch stops there
    with its error. *)
Lemma startEach_abort (docs : list Source) :
  ∀ (k : nat) (acc : list string) (s : Store) (j : nat) (e : Error),
    j < length docs →
    (∀ i, i < j → starts_well w (k + i)) →
    (set_job (starts w (k + j)) = Throw e
     ∨ set_job (starts w (k + j)) = Ok tt ∧ log_created (starts w (k + j)) = Throw e) →
    fst (startEach a w k docs acc s) =
      Throw (new_Error ("Failed to start scraping job: " +:+ message e)).
Proof.
  induction docs as [|source rest IH]; intros k acc s j e Hj Hbefore Hfail;
    [simpl in Hj; lia|].
  rewrite startEach_cons, startScraping_outcome.
  destruct j as [|j].
  - rewrite Nat.add_0_r in Hfail. destruct Hfail as [-> | [-> ->]]; done.
  - destruct (Hbefore 0) as [Hset Hlog]; [lia|].
    rewrite Nat.add_0_r in Hset, Hlog. rewrite Hset, Hlog.
    apply (IH (S k) _ _ j e).
    + simpl in Hj. lia.
    + intros i Hi. replace (S k + i) with (k + S i) by lia. apply Hbefore. lia.
    + by replace (S k + j) with (k + S j) by lia.
Qed.

(** A start that fails ends the batch: the sources behind it are not
    read. *)
Lemma startEach_stops (docs : list Source) :
  ∀ (k : nat) (acc : list string) (s : Store) (j : nat) (e : Error),
    j < length docs →
    (∀ i, i < j → starts_well w (k + i)) →
    (set_job (starts w (k + j)) = Throw e
     ∨ set_job (starts w (k + j)) = Ok tt ∧ log_created (starts w (k + j)) = Throw e) →
    startEach a w k docs acc s = startEach a w k (firstn (S j) docs) acc s.
Proof.
  induction docs as [|source rest IH]; intros k acc s j e Hj Hbefore Hfail;
    [simpl in Hj; lia|].
  change (firstn (S j) (source :: rest)) with (source :: firstn j rest).
  rewrite !startEach_cons, startScraping_outcome.
  destruct j as [|j].
  - rewrite Nat.add_0_r in Hfail. destruct Hfail as [-> | [-> ->]]; done.
  - destruct (Hbefore 0) as [Hset Hlog]; [lia|].
    rewrite Nat.add_0_r in Hset, Hlog. rewrite Hset, Hlog.
    apply (IH (S k) _ _ j e).
    + simpl in Hj. lia.
    + intros i Hi. replace (S k + i) with (k + S i) by lia. apply Hbefore. lia.
    + by replace (S k + j) with (k + S j) by lia.
Qed.

(** The store that [runDailyScraping] leaves is the one of its loop. *)
Lemma runDailyScraping_store (sources : list Source) (s : Store) :
  get_sources w = Ok tt →
  snd (runDailyScraping a w sources s) =
  snd (startEach a w 0 (filter (λ source, active source = true) sources) [] s).
Proof.
  intros Hget.
  unfold runDailyScraping, eff_try, mbind, eff_mbind, eff_bind, call, mret, eff_mret,
    eff_ret.
  rewrite Hget.
  destruct (startEach a w 0 _ [] s) as [[ids|e] s1]; simpl; [|done].
  by destruct (log_daily w).
Qed.

(** Two ids of a batch without repetition differ. *)
Lemma batch_ids_differ (n i i' : nat) :
  NoDup (batch_ids w n) → i < n → i' < n → i ≠ i' →
  new_jobId (starts w i) ≠ new_jobId (starts w i').
Proof.
  intros Hnd Hi Hi' Hne Heq. apply Hne.
  apply (NoDup_lookup _ i i' (new_jobId (starts w i)) Hnd);
    unfold batch_ids; rewrite list_lookup_fmap, lookup_seq_lt by done; simpl;
    [done | by rewrite Heq].
Qed.

(** The runs under way leave every document of a job what it is, up to
    the marks of its own run. *)
Lemma in_flight_all_own (runs : nat → JobWorld) (progress : nat → Progress)
    (jobIds : list string) :
  ∀ (i : nat) (s : Store) (id : string) (d : JobDoc),
    scrapingJobs s !! id = Some d →
    ∃ d', scrapingJobs (in_flight_all a runs progress i jobIds s) !! id = Some d' ∧
          urls d' = urls d ∧ keywords d' = keywords d ∧ taskId d' = taskId d ∧
          resultCount d' = resultCount d ∧ scrapedDataId d' = scrapedDataId d ∧
          (status d' = status d ∨ status d' = Running ∨ status d' = Failed).
Proof.
  induction jobIds as [|jobId rest IH]; intros i s id d Hd.
  - exists d. split_and!; auto.
  - simpl.
    assert (H1 : ∃ d1, scrapingJobs (in_flight a (runs i) jobId (progress i) s) !! id
                       = Some d1 ∧
                       urls d1 = urls d ∧ keywords d1 = keywords d ∧ taskId d1 = taskId d ∧
                       resultCount d1 = resultCount d ∧
                       scrapedDataId d1 = scrapedDataId d ∧
                       (status d1 = status d ∨ status d1 = Running ∨ status d1 = Failed)).
    { destruct (decide (id = jobId)) as [-> | Hne].
      - destruct (in_flight_own a (runs i) jobId (progress i) s d Hd)
          as (d1 & H & ? & ? & ? & ? & ? & ? & _).
        exists d1. split_and!; done.
      - exists d. rewrite in_flight_other by done. split_and!; auto. }
    destruct H1 as (d1 & Hd1 & Hu & Hk & Ht & Hr & Hi & Hs).
    destruct (IH (S i) _ id d1 Hd1) as (d' & Hd' & Hu' & Hk' & Ht' & Hr' & Hi' & Hs').
    exists d'. split; [exact Hd'|].
    rewrite Hu', Hk', Ht', Hr', Hi'. split_and!; try done.
    destruct Hs' as [-> | Hs']; [exact Hs | by right].
Qed.

(** The document of a job that the batch stored, with the runs under
    way. *)
Lemma batch_job_under_way (runs : nat → JobWorld) (progress : nat → Progress)
    (jobIds : list string) (s : Store) (id : string) (queued : JobDoc) :
  scrapingJobs s !! id = Some queued →
  status queued = Queued → resultCount queued = None → scrapedDataId queued = None →
  ∃ job, scrapingJobs (in_flight_all a runs progress 0 jobIds s) !! id = Some job ∧
         under_way queued job.
Proof.
  intros Hd Hstatus Hcount Hid.
  destruct (in_flight_all_own runs progress jobIds 0 s id queued Hd)
    as (job & Hjob & Hu & Hk & Ht & Hr & Hi & Hs).
  exists job. split; [exact Hjob|]. unfold under_way.
  rewrite Hu, Hk, Ht, Hr, Hi, Hcount, Hid. split_and!; try done.
  destruct Hs as [Hs | Hs]; [left; by rewrite Hs | by right].
Qed.

End daily.

(** X8: [runDailyScraping] starts one job per active source, in the order of
    the sources, and returns their ids: when the query of the sources, every
    start and the final log succeed, the ids returned are those of the starts,
    one per active source.  When these ids differ from one another, each of
    them names a document of its own, which holds the URLs and the keywords
    of its source and the task id of the day, whatever the runs under way
    have done by then.  Inactive sources start nothing. *)
Theorem runDailyScraping_starts_all (a : Agent) (w : Submission.DailyWorld)
    (runs : nat → JobWorld) (progress : nat → Submission.Progress)
    (sources : list Submission.Source) (s : Store) :
  Submission.get_sources w = Ok tt → Submission.log_daily w = Ok tt →
  (∀ i, i < length (filter (λ source, Submission.active source = true) sources) →
        Submission.starts_well w i) →
  fst (Submission.runDailyScraping a w sources s) =
    Ok (Submission.batch_ids w
          (length (filter (λ source, Submission.active source = true) sources))) ∧
  length (Submission.batch_ids w
            (length (filter (λ source, Submission.active source = true) sources))) =
    length (filter (λ source, Submission.active source = true) sources) ∧
  (NoDup (Submission.batch_ids w
            (length (filter (λ source, Submission.active source = true) sources))) →
   ∀ i source,
     filter (λ source, Submission.active source = true) sources !! i = Some source →
     ∃ job,
       scrapingJobs
         (Submission.in_flight_all a runs progress 0
            (Submission.batch_ids w
               (length (filter (λ source, Submission.active source = true) sources)))
            (snd (Submission.runDailyScraping a w sources s)))
         !! Submission.new_jobId (Submission.starts w i) = Some job ∧
       Submission.under_way
         (Submission.queued_job a (Submission.source_urls source)
            (Submission.source_keywords source)
            (Some (Submission.daily_taskId (Submission.today_iso w i) source))) job).
Proof.
  intros Hget Hlog Hall.
  set (docs := filter (λ source, Submission.active source = true) sources) in *.
  split_and!.
  - pose proof (startEach_all a w docs 0 [] s Hall) as Hids.
    unfold Submission.runDailyScraping, eff_try, mbind, eff_mbind, eff_bind, call,
      mret, eff_mret, eff_ret.
    rewrite Hget. fold docs.
    destruct (Submission.startEach a w 0 docs [] s) as [[ids|e] s1]; simpl in Hids; [|done].
    injection Hids as ->. by rewrite Hlog.
  - unfold Submission.batch_ids. by rewrite length_fmap, length_seq.
  - intros Hnd i source Hi.
    assert (Hlt : i < length docs) by (by apply lookup_lt_Some in Hi).
    rewrite runDailyScraping_store by done. fold docs.
    apply batch_job_under_way; try done.
    apply (startEach_stored a w docs 0 [] s i source Hi).
    + intros i' Hi'. apply Hall. lia.
    + apply Hall. lia.
    + intros i' Hi' _. apply (batch_ids_differ w (length docs)); [done | lia | lia | lia].
Qed.

Lemma runDailyScraping_starts_all_witness :
  fst (Submission.runDailyScraping scraperAgent Daily.fine Daily.sources Daily.empty_store)
  = Ok ["scrape_1735711200000_7"; "scrape_1735711200001_7"] ∧
  ∃ job,
    scrapingJobs
      (Submission.in_flight_all scraperAgent (λ _, Sample.job_world)
         (λ i, if i =? 0 then Submission.Over else Submission.TryOver) 0
         ["scrape_1735711200000_7"; "scrape_1735711200001_7"]
         (snd (Submission.runDailyScraping scraperAgent Daily.fine Daily.sources
                 Daily.empty_store)))
      !! "scrape_1735711200000_7" = Some job ∧
    Scraper.urls job = ["https://en.wikipedia.org/wiki/GPT-4"] ∧
    taskId job = Some "daily_2025-01-01_models".
Proof.
  destruct (runDailyScraping_starts_all scraperAgent Daily.fine (λ _, Sample.job_world)
              (λ i, if i =? 0 then Submission.Over else Submission.TryOver)
              Daily.sources Daily.empty_store) as (H1 & _ & H3);
    [reflexivity | reflexivity | by intros i _ |].
  split; [exact H1|].
  destruct (H3 ltac:(apply (bool_decide_unpack _); by vm_compute) 0
              (Submission.mkSource "models" true
                 (Some ["https://en.wikipedia.org/wiki/GPT-4"]) (Some ["GPT-4"])) eq_refl)
    as (job & Hjob & Hu & _ & Ht & _).
  exists job. split; [exact Hjob|]. split; [exact Hu | exact Ht].
Defined.

(** X9: [runDailyScraping] has no roll-back: when a start fails, the batch
    throws ["Failed to run daily scraping: Failed to start scraping job: "]
    followed by the message of the failure, and no later source is started:
    the store is the one that the starts up to the failing one leave.  The
    jobs started before the failure stay, with their runs under way: when the
    ids of the jobs started differ from one another, each earlier id names
    the document of its source. *)
Theorem runDailyScraping_aborts (a : Agent) (w : Submission.DailyWorld)
    (runs : nat → JobWorld) (progress : nat → Submission.Progress)
    (sources : list Submission.Source) (s : Store) (j : nat) (e : Error) :
  Submission.get_sources w = Ok tt →
  j < length (filter (λ source, Submission.active source = true) sources) →
  (∀ i, i < j → Submission.starts_well w i) →
  (Submission.set_job (Submission.starts w j) = Throw e
   ∨ Submission.set_job (Submission.starts w j) = Ok tt
     ∧ Submission.log_created (Submission.starts w j) = Throw e) →
  fst (Submission.runDailyScraping a w sources s) =
    Throw (new_Error ("Failed to run daily scraping: Failed to start scraping job: "
                        +:+ message e)) ∧
  snd (Submission.runDailyScraping a w sources s) =
    snd (Submission.startEach a w 0
           (firstn (S j) (filter (λ source, Submission.active source = true) sources))
           [] s) ∧
  (NoDup (Submission.started_before_failure w j) →
   ∀ i source,
     i < j →
     filter (λ source, Submission.active source = true) sources !! i = Some source →
     ∃ job,
       scrapingJobs
         (Submission.in_flight_all a runs progress 0 (Submission.started_before_failure w j)
            (snd (Submission.runDailyScraping a w sources s)))
         !! Submission.new_jobId (Submission.starts w i) = Some job ∧
       Submission.under_way
         (Submission.queued_job a (Submission.source_urls source)
            (Submission.source_keywords source)
            (Some (Submission.daily_taskId (Submission.today_iso w i) source))) job).
Proof.
  intros Hget Hj Hbefore Hfail.
  set (docs := filter (λ source, Submission.active source = true) sources) in *.
  pose proof (startEach_abort a w docs 0 [] s j e Hj Hbefore Hfail) as Hthrow.
  pose proof (startEach_stops a w docs 0 [] s j e Hj Hbefore Hfail) as Hstop.
  split_and!.
  - unfold Submission.runDailyScraping, eff_try, mbind, eff_mbind, eff_bind, call,
      mret, eff_mret, eff_ret.
    rewrite Hget. fold docs.
    destruct (Submission.startEach a w 0 docs [] s) as [[ids|e'] s1];
      simpl in Hthrow; [done|].
    by injection Hthrow as ->.
  - rewrite runDailyScraping_store by done. fold docs. by rewrite Hstop.
  - intros Hnd i source Hi Hsource.
    rewrite runDailyScraping_store by done. fold docs. rewrite Hstop.
    apply batch_job_under_way; try done.
    apply (startEach_stored a w (firstn (S j) docs) 0 [] s i source).
    + rewrite lookup_take_lt by lia. exact Hsource.
    + intros i' Hi'. apply Hbefore. lia.
    + apply Hbefore. lia.
    + rewrite length_take. intros i' Hi' Hset. simpl in Hset.
      assert (i' = j ∨ i' < j) as [-> | Hlt] by lia.
      * unfold Submission.started_before_failure in Hnd. simpl. rewrite Hset in Hnd.
        apply (batch_ids_differ w (S j)); [done | lia | lia | lia].
      * unfold Submission.started_before_failure in Hnd.
        apply (batch_ids_differ w j); [|lia | lia | lia].
        destruct (is_ok (Submission.set_job (Submission.starts w j))); [|done].
        unfold Submission.batch_ids in *. rewrite seq_S, fmap_app in Hnd.
        by apply NoDup_app in Hnd as [Hnd _].
Qed.

Lemma runDailyScraping_aborts_witness :
  fst (Submission.runDailyScraping scraperAgent Daily.failing Daily.sources Daily.empty_store)
  = Throw (new_Error
             "Failed to run daily scraping: Failed to start scraping job: 14 UNAVAILABLE: document store is down") ∧
  ∃ job,
    scrapingJobs
      (Submission.in_flight_all scraperAgent (λ _, Sample.job_world) (λ _, Submission.Over) 0
         (Submission.started_before_failure Daily.failing 1)
         (snd (Submission.runDailyScraping scraperAgent Daily.failing Daily.sources
                 Daily.empty_store)))
      !! "scrape_1735711200000_7" = Some job ∧
    Scraper.urls job = ["https://en.wikipedia.org/wiki/GPT-4"].
Proof.
  destruct (runDailyScraping_aborts scraperAgent Daily.failing (λ _, Sample.job_world)
              (λ _, Submission.Over) Daily.sources Daily.empty_store 1 Outage.down)
    as (H1 & _ & H3);
    [reflexivity | by vm_compute; lia | | by left |].
  - intros i Hi. assert (i = 0) as -> by lia. by split.
  - split; [exact H1|].
    destruct (H3 ltac:(apply (bool_decide_unpack _); by vm_compute) 0
                (Submission.mkSource "models" true
                   (Some ["https://en.wikipedia.org/wiki/GPT-4"]) (Some ["GPT-4"]))
                ltac:(lia) eq_refl)
      as (job & Hjob & Hu & _).
    exists job. split; [exact Hjob | exact Hu].
Defined.

(* ===================================================================== *)
(** * Properties of the single-URL callable                               *)
(* ===================================================================== *)

Section handler.

Variables (w : Handler.CallWorld) (request : Handler.Request) (db : Handler.Db).

Lemma notifyNextAgent_outcome (scrapeId : string) (doc : Handler.ScrapeDoc)
    (d : Handler.Db) :
  Handler.notifyNextAgent w scrapeId doc d =
  match Handler.add_task w with
  | Ok _ =>
      (Ok true,
       Handler.mkDb (Handler.scrapes d) (Handler.scrape_errors d)
         (Handler.agent_tasks d ++
            [Handler.mkTask "copywriter" "web_scraper" "pending" scrapeId
               (Handler.scrape_url doc) (Handler.raw_title doc)]))
  | Throw _ => (Ok false, d)
  end.
Proof.
  unfold Handler.notifyNextAgent, Handler.db_try, mbind, Handler.dbeff_mbind,
    Handler.db_bind, Handler.task_add.
  by destruct (Handler.add_task w).
Qed.

(** The [try] block, by the completions of its calls. *)
Lemma webScraper_body_outcome :
  Handler.webScraper_body w request db =
  if negb (Handler.given (Handler.req_url request))
     && negb (Handler.given (Handler.req_query request))
  then (Throw (new_Error "Either url or query must be provided"), db)
  else
    match fst (Single.scrapeUrl (Handler.axios_get w) (Handler.targetUrl request)
                 (Handler.req_options request)) with
    | Throw e => (Throw e, db)
    | Ok None =>
        (Throw (new_TypeError "Cannot read properties of undefined (reading 'html')"), db)
    | Ok (Some scraped) =>
        match Handler.set_scrape w with
        | Throw e => (Throw e, db)
        | Ok _ =>
            (Ok (Handler.done w request (Single.html scraped)),
             Handler.mkDb
               (<[Handler.scrapeId w := Handler.scrapeResult w request (Single.html scraped)]>
                  (Handler.scrapes db))
               (Handler.scrape_errors db)
               (Handler.agent_tasks db ++
                  if is_ok (Handler.add_task w)
                  then [Handler.mkTask "copywriter" "web_scraper" "pending"
                          (Handler.scrapeId w) (Handler.targetUrl request)
                          (Single.title (Handler.extractedData w request (Single.html scraped)))]
                  else []))
        end
    end.
Proof.
  unfold Handler.webScraper_body, mbind, Handler.dbeff_mbind, Handler.db_bind,
    Handler.db_call, Handler.scrape_set.
  destruct (negb _ && negb _); [done|].
  destruct (fst (Single.scrapeUrl _ _ _)) as [[scraped|]|e]; [|done|done].
  destruct (Handler.set_scrape w) as [[]|]; [|done].
  rewrite notifyNextAgent_outcome.
  destruct (Handler.add_task w); simpl; [done|]. by rewrite app_nil_r.
Qed.

(** The callable, by the completion of its [try] block. *)
Lemma webScraper_outcome :
  Handler.webScraper w request db =
  match Handler.webScraper_body w request db with
  | (Ok reply, db') => (Ok reply, db')
  | (Throw error, db') =>
      match Handler.set_error w with
      | Throw e => (Throw e, db')
      | Ok _ =>
          (Ok (Handler.Failed (message error)
                 ("scrape_error_" +:+ pretty (Handler.error_now w))),
           Handler.mkDb (Handler.scrapes db')
             (<["scrape_error_" +:+ pretty (Handler.error_now w) :=
                  Handler.mkErrorDoc (Handler.or_null (Handler.req_url request))
                    (Handler.or_null (Handler.req_query request)) (message error)]>
                (Handler.scrape_errors db'))
             (Handler.agent_tasks db'))
      end
  end.
Proof.
  unfold Handler.webScraper, Handler.db_try.
  destruct (Handler.webScraper_body w request db) as [[reply|error] db']; [done|].
  unfold mbind, Handler.dbeff_mbind, Handler.db_bind, Handler.error_set.
  by destruct (Handler.set_error w) as [[]|].
Qed.

Lemma webScraper_body_throw (e : Error) (db' : Handler.Db) :
  Handler.webScraper_body w request db = (Throw e, db') → db' = db.
Proof.
  rewrite webScraper_body_outcome.
  repeat case_match; intros; simplify_eq; done.
Qed.

End handler.

(** X10: the callable turns every failure of its pipeline into an answer:
    for a payload that can be destructured, and once [getFirestore()] has
    returned, it rejects only when the write of the error record throws, and
    then with that error.  An input with neither URL nor query is such a
    failure: it is answered with [success: false] and recorded, not thrown.
    What stands before the [try] is not covered by it: a call without payload
    is rejected with the type error of the destructuring, and a failure of
    [getFirestore()] rejects the call, nothing being recorded. *)
Theorem webScraper_answers (getFirestore : Result unit) (w : Handler.CallWorld)
    (data : Call.Payload Handler.Request) (db : Handler.Db) :
  (data = Call.Null ∨ data = Call.Undefined →
   ∃ msg, Handler.onCall getFirestore w data db = (Throw (new_TypeError msg), db)) ∧
  (∀ request e, data = Call.Object request → getFirestore = Throw e →
     Handler.onCall getFirestore w data db = (Throw e, db)) ∧
  (∀ request, data = Call.Object request → getFirestore = Ok tt →
     Handler.set_error w = Ok tt →
     is_ok (fst (Handler.onCall getFirestore w data db)) = true) ∧
  (∀ request e, data = Call.Object request → getFirestore = Ok tt →
     fst (Handler.onCall getFirestore w data db) = Throw e →
     Handler.set_error w = Throw e) ∧
  (∀ request, data = Call.Object request → getFirestore = Ok tt →
     Handler.given (Handler.req_url request) = false →
     Handler.given (Handler.req_query request) = false →
     Handler.set_error w = Ok tt →
     fst (Handler.onCall getFirestore w data db) =
       Ok (Handler.Failed "Either url or query must be provided"
             ("scrape_error_" +:+ pretty (Handler.error_now w))) ∧
     Handler.scrape_errors (snd (Handler.onCall getFirestore w data db))
       !! ("scrape_error_" +:+ pretty (Handler.error_now w)) =
       Some (Handler.mkErrorDoc None None "Either url or query must be provided")).
Proof.
  unfold Handler.onCall, mbind, Handler.dbeff_mbind, Handler.db_bind, Handler.db_call.
  split_and!.
  - intros [-> | ->]; simpl; by eexists.
  - by intros request e -> ->.
  - intros request -> -> Herr. simpl. rewrite webScraper_outcome, Herr.
    by destruct (Handler.webScraper_body w request db) as [[?|?] ?].
  - intros request e -> ->. simpl. rewrite webScraper_outcome.
    destruct (Handler.webScraper_body w request db) as [[?|?] ?]; [done|].
    by destruct (Handler.set_error w) as [[]|]; [|intros [= ->]].
  - intros request -> -> Hu Hq Herr. simpl.
    rewrite webScraper_outcome, Herr, webScraper_body_outcome, Hu, Hq. simpl.
    rewrite lookup_insert_eq. unfold Handler.or_null. by rewrite Hu, Hq.
Qed.

Lemma webScraper_answers_witness :
  (∃ msg,
     Handler.onCall (Ok tt)
       (Handler.mkCallWorld Sample.single_ok (λ _, Sample.article_page)
          (λ _, Throw Sample.unavailable) 17 18 (Ok tt) (Ok tt) (Ok tt))
       Call.Null (Handler.mkDb ∅ ∅ [])
     = (Throw (new_TypeError msg), Handler.mkDb ∅ ∅ [])) ∧
  fst (Handler.onCall (Ok tt)
         (Handler.mkCallWorld Sample.single_ok (λ _, Sample.article_page)
            (λ _, Throw Sample.unavailable) 17 18 (Ok tt) (Ok tt) (Ok tt))
         (Call.Object (Handler.mkRequest (Some EmptyString) None Sample.no_options))
         (Handler.mkDb ∅ ∅ []))
  = Ok (Handler.Failed "Either url or query must be provided" "scrape_error_18") ∧
  Handler.set_error
    (Handler.mkCallWorld Sample.single_ok (λ _, Sample.article_page)
       (λ _, Throw Sample.unavailable) 17 18 (Ok tt) (Ok tt) (Throw Outage.down))
  = Throw Outage.down.
Proof.
  split_and!.
  - destruct (webScraper_answers (Ok tt)
                (Handler.mkCallWorld Sample.single_ok (λ _, Sample.article_page)
                   (λ _, Throw Sample.unavailable) 17 18 (Ok tt) (Ok tt) (Ok tt))
                Call.Null (Handler.mkDb ∅ ∅ [])) as (H & _).
    apply H. by left.
  - destruct (webScraper_answers (Ok tt)
                (Handler.mkCallWorld Sample.single_ok (λ _, Sample.article_page)
                   (λ _, Throw Sample.unavailable) 17 18 (Ok tt) (Ok tt) (Ok tt))
                (Call.Object (Handler.mkRequest (Some EmptyString) None Sample.no_options))
                (Handler.mkDb ∅ ∅ [])) as (_ & _ & _ & _ & H).
    by apply (H (Handler.mkRequest (Some EmptyString) None Sample.no_options)).
  - destruct (webScraper_answers (Ok tt)
                (Handler.mkCallWorld Sample.single_ok (λ _, Sample.article_page)
                   (λ _, Throw Sample.unavailable) 17 18 (Ok tt) (Ok tt) (Throw Outage.down))
                (Call.Object (Handler.mkRequest (Some EmptyString) None Sample.no_options))
                (Handler.mkDb ∅ ∅ [])) as (_ & _ & _ & H & _).
    by apply (H (Handler.mkRequest (Some EmptyString) None Sample.no_options)).
Defined.

(** X11: every answer of the callable is backed by exactly one record.  A
    success has stored the scrape, completed, under the id returned, for the
    URL returned, and has written no error record; it has queued one pending
    task for the copywriter when the queue accepted it and none otherwise.
    A failure has stored the error record under the id returned, with the
    message returned, and neither a scrape nor a task. *)
Theorem webScraper_records (w : Handler.CallWorld) (request : Handler.Request)
    (db : Handler.Db) (reply : Handler.Reply) :
  fst (Handler.webScraper w request db) = Ok reply →
  match reply with
  | Handler.Done id data =>
      (∃ doc, Handler.scrapes (snd (Handler.webScraper w request db)) !! id = Some doc ∧
              Handler.scrape_status doc = "completed" ∧
              Handler.scrape_url doc = Handler.reply_url data ∧
              Handler.raw_title doc = Handler.reply_title data ∧
              Handler.agent_tasks (snd (Handler.webScraper w request db)) =
              Handler.agent_tasks db ++
                if is_ok (Handler.add_task w)
                then [Handler.mkTask "copywriter" "web_scraper" "pending" id
                        (Handler.reply_url data) (Handler.reply_title data)]
                else []) ∧
      Handler.scrape_errors (snd (Handler.webScraper w request db)) = Handler.scrape_errors db
  | Handler.Failed error errorId =>
      Handler.scrapes (snd (Handler.webScraper w request db)) = Handler.scrapes db ∧
      Handler.agent_tasks (snd (Handler.webScraper w request db)) = Handler.agent_tasks db ∧
      Handler.error_message
        <$> Handler.scrape_errors (snd (Handler.webScraper w request db)) !! errorId
      = Some error
  end.
Proof.
  rewrite webScraper_outcome.
  destruct (Handler.webScraper_body w request db) as [[r|error] db'] eqn:Hbody; simpl.
  - intros [= ->]. rewrite webScraper_body_outcome in Hbody.
    destruct (negb _ && negb _); [done|].
    destruct (fst (Single.scrapeUrl _ _ _)) as [[scraped|]|e]; [|done|done].
    destruct (Handler.set_scrape w) as [[]|]; [|done].
    injection Hbody as <- <-. simpl. split; [|done].
    eexists. rewrite lookup_insert_eq. by split_and!.
  - apply webScraper_body_throw in Hbody as ->.
    destruct (Handler.set_error w) as [[]|]; [|done].
    simpl. intros [= <-]. simpl. rewrite lookup_insert_eq. by split_and!.
Qed.

Lemma webScraper_records_witness :
  Handler.scrapes
    (snd (Handler.webScraper
            (Handler.mkCallWorld Sample.single_dead (λ _, Sample.article_page)
               (λ _, Throw Sample.unavailable) 17 18 (Ok tt) (Ok tt) (Ok tt))
            (Handler.mkRequest (Some "https://example.com/gpt") None Sample.no_options)
            (Handler.mkDb ∅ ∅ []))) = ∅.
Proof.
  pose proof (webScraper_records
                (Handler.mkCallWorld Sample.single_dead (λ _, Sample.article_page)
                   (λ _, Throw Sample.unavailable) 17 18 (Ok tt) (Ok tt) (Ok tt))
                (Handler.mkRequest (Some "https://example.com/gpt") None Sample.no_options)
                (Handler.mkDb ∅ ∅ [])
                (Handler.Failed "Failed to scrape URL after 3 attempts: HTTP Error: 503"
                   "scrape_error_18") eq_refl) as (H & _).
  exact H.
Defined.

(** X12: neither the summariser nor the task queue can fail a call: once the
    markup is fetched and the scrape is stored, the callable answers with
    success, whatever these two do.  When the summariser fails, the summary
    returned is the fall-back sentence built from the title and the
    description, with no key points.  The URL returned is the one the call
    worked on, not the final location that the response reports. *)
Theorem webScraper_degrades (w : Handler.CallWorld) (request : Handler.Request)
    (db : Handler.Db) (scraped : Single.Scraped) :
  (Handler.given (Handler.req_url request) = true
   ∨ Handler.given (Handler.req_query request) = true) →
  fst (Single.scrapeUrl (Handler.axios_get w) (Handler.targetUrl request)
         (Handler.req_options request)) = Ok (Some scraped) →
  Handler.set_scrape w = Ok tt →
  ∃ data,
    fst (Handler.webScraper w request db) = Ok (Handler.Done (Handler.scrapeId w) data) ∧
    Handler.reply_url data = Handler.targetUrl request ∧
    (Handler.given (Handler.req_url request) = true →
     Some (Handler.reply_url data) = Handler.req_url request) ∧
    ((∀ context, is_ok (Handler.openai w context) = false) →
     Handler.reply_summary data =
       "Failed to generate AI summary. Original title: " +:+ Handler.reply_title data
         +:+ ". Description: "
         +:+ Single.description (Handler.extractedData w request (Single.html scraped)) ∧
     Handler.reply_keyPoints data = []).
Proof.
  intros Hgiven Hfetch Hset.
  rewrite webScraper_outcome, webScraper_body_outcome, Hfetch, Hset.
  assert (negb (Handler.given (Handler.req_url request))
          && negb (Handler.given (Handler.req_query request)) = false) as ->.
  { destruct Hgiven as [-> | ->]; [done | apply andb_false_r]. }
  eexists. split; [reflexivity|]. simpl. split_and!; [done | |].
  - unfold Handler.targetUrl, Handler.given. intros Hu. rewrite Hu.
    by destruct (Handler.req_url request).
  - intros Hdown. unfold Handler.aiProcessedData, Single.processWithAI.
    match goal with
    | |- context [Handler.openai w ?c] =>
        specialize (Hdown c); destruct (Handler.openai w c)
    end; [discriminate Hdown | done].
Qed.

Lemma webScraper_degrades_witness :
  ∃ data,
    fst (Handler.webScraper
           (Handler.mkCallWorld Sample.single_flaky (λ _, Sample.article_page)
              (λ _, Throw Sample.unavailable) 17 18 (Ok tt) (Throw Outage.down) (Ok tt))
           (Handler.mkRequest (Some "https://example.com/gpt") None Sample.no_options)
           (Handler.mkDb ∅ ∅ []))
    = Ok (Handler.Done "scrape_17" data) ∧
    Handler.reply_url data = "https://example.com/gpt" ∧
    Handler.reply_keyPoints data = [].
Proof.
  destruct (webScraper_degrades
              (Handler.mkCallWorld Sample.single_flaky (λ _, Sample.article_page)
                 (λ _, Throw Sample.unavailable) 17 18 (Ok tt) (Throw Outage.down) (Ok tt))
              (Handler.mkRequest (Some "https://example.com/gpt") None Sample.no_options)
              (Handler.mkDb ∅ ∅ [])
              (Single.mkScraped "<html>...</html>" "https://example.com/gpt" 200))
    as (data & H1 & H2 & _ & H3); [by left | reflexivity | reflexivity |].
  exists data. split_and!; [exact H1 | exact H2 | by apply H3].
Defined.

(** X13: a fetch that exhausts its attempts is answered with the count of the
    attempts and the failure of the last one; a negative retry budget makes
    no request at all and is answered with the type error of reading the
    markup of a missing response.  In both cases no scrape is stored. *)
Theorem webScraper_fetch_failures (w : Handler.CallWorld) (request : Handler.Request)
    (db : Handler.Db) :
  (Handler.given (Handler.req_url request) = true
   ∨ Handler.given (Handler.req_query request) = true) →
  Handler.set_error w = Ok tt →
  ((1 ≤ number_or (Single.opt_maxRetries (Handler.req_options request)) 3)%Z →
   (∀ n, n < Z.to_nat (number_or (Single.opt_maxRetries (Handler.req_options request)) 3) →
         is_ok (Single.attempt (Handler.targetUrl request)
                  (Handler.axios_get w (Handler.targetUrl request) n)) = false) →
   ∃ e,
     Single.attempt (Handler.targetUrl request)
       (Handler.axios_get w (Handler.targetUrl request)
          (Z.to_nat (number_or (Single.opt_maxRetries (Handler.req_options request)) 3 - 1)))
     = Throw e ∧
     Handler.webScraper w request db =
     (Ok (Handler.Failed
            ("Failed to scrape URL after "
               +:+ pretty (number_or (Single.opt_maxRetries (Handler.req_options request)) 3)
               +:+ " attempts: " +:+ message e)
            ("scrape_error_" +:+ pretty (Handler.error_now w))),
      Handler.mkDb (Handler.scrapes db)
        (<["scrape_error_" +:+ pretty (Handler.error_now w) :=
             Handler.mkErrorDoc (Handler.or_null (Handler.req_url request))
               (Handler.or_null (Handler.req_query request))
               ("Failed to scrape URL after "
                  +:+ pretty (number_or (Single.opt_maxRetries (Handler.req_options request)) 3)
                  +:+ " attempts: " +:+ message e)]> (Handler.scrape_errors db))
        (Handler.agent_tasks db))) ∧
  ((number_or (Single.opt_maxRetries (Handler.req_options request)) 3 < 0)%Z →
   fst (Handler.webScraper w request db) =
     Ok (Handler.Failed "Cannot read properties of undefined (reading 'html')"
           ("scrape_error_" +:+ pretty (Handler.error_now w))) ∧
   Handler.scrapes (snd (Handler.webScraper w request db)) = Handler.scrapes db).
Proof.
  intros Hgiven Herr.
  assert (negb (Handler.given (Handler.req_url request))
          && negb (Handler.given (Handler.req_query request)) = false) as Hvalid.
  { destruct Hgiven as [-> | ->]; [done | apply andb_false_r]. }
  rewrite webScraper_outcome, webScraper_body_outcome, Hvalid, Herr.
  set (M := number_or (Single.opt_maxRetries (Handler.req_options request)) 3).
  split.
  - intros HM Hfail.
    destruct (single_retry_exhausted (Handler.axios_get w (Handler.targetUrl request))
                (Handler.targetUrl request) M (S (Z.to_nat M)) 0 []) as (e & Hlast & Hthrow);
      [lia | rewrite Z.sub_0_r; lia | exact Hfail |].
    exists e. split; [exact Hlast|].
    unfold Single.scrapeUrl. fold M. by rewrite Hthrow.
  - intros Hneg. unfold Single.scrapeUrl. fold M. simpl.
    destruct (Z.ltb_spec 0 M); [lia|]. done.
Qed.

Lemma webScraper_fetch_failures_witness :
  fst (Handler.webScraper
         (Handler.mkCallWorld Sample.single_dead (λ _, Sample.article_page)
            (λ _, Throw Sample.unavailable) 17 18 (Ok tt) (Ok tt) (Ok tt))
         (Handler.mkRequest (Some "https://example.com/gpt") None Sample.no_options)
         (Handler.mkDb ∅ ∅ []))
  = Ok (Handler.Failed "Failed to scrape URL after 3 attempts: HTTP Error: 503"
          "scrape_error_18") ∧
  fst (Handler.webScraper
         (Handler.mkCallWorld Sample.single_ok (λ _, Sample.article_page)
            (λ _, Throw Sample.unavailable) 17 18 (Ok tt) (Ok tt) (Ok tt))
         (Handler.mkRequest (Some "https://example.com/gpt") None
            (Single.mkOptions (Some (-1)%Z) None))
         (Handler.mkDb ∅ ∅ []))
  = Ok (Handler.Failed "Cannot read properties of undefined (reading 'html')"
          "scrape_error_18").
Proof.
  split.
  - destruct (webScraper_fetch_failures
                (Handler.mkCallWorld Sample.single_dead (λ _, Sample.article_page)
                   (λ _, Throw Sample.unavailable) 17 18 (Ok tt) (Ok tt) (Ok tt))
                (Handler.mkRequest (Some "https://example.com/gpt") None Sample.no_options)
                (Handler.mkDb ∅ ∅ [])) as (H & _); [by left | reflexivity |].
    destruct H as (e & Hlast & Hreply); [by vm_compute | done |].
    rewrite Hreply. vm_compute in Hlast. by injection Hlast as <-.
  - destruct (webScraper_fetch_failures
                (Handler.mkCallWorld Sample.single_ok (λ _, Sample.article_page)
                   (λ _, Throw Sample.unavailable) 17 18 (Ok tt) (Ok tt) (Ok tt))
                (Handler.mkRequest (Some "https://example.com/gpt") None
                   (Single.mkOptions (Some (-1)%Z) None))
                (Handler.mkDb ∅ ∅ [])) as (_ & H); [by left | reflexivity |].
    apply H. by vm_compute.
Defined.

(* ===================================================================== *)
(** * Further properties of the keyword scorer                            *)
(* ===================================================================== *)

Section scorer.

Variables (host : string → Result (string → nat)) (text : string).

Lemma assign_proto (n : nat) (m : gmap string nat) : assign "__proto__" n m = m.
Proof. reflexivity. Qed.

Lemma assign_own (k : string) (n : nat) (m : gmap string nat) :
  k ≠ "__proto__" → assign k n m = <[k := n]> m.
Proof.
  intros Hk. unfold assign. destruct (String.eqb_spec k "__proto__"); done.
Qed.

(** What a successful scoring loop leaves in the map. *)
Lemma scoreKeywords_lookup (keywords : list string) :
  ∀ (acc m : gmap string nat),
    scoreKeywords host text keywords acc = Ok m →
    (∀ k, k ∈ keywords →
          countKeyword host text k = Ok (Vocabulary.count_of host text k)
          ∧ (k ≠ "__proto__" → m !! k = Some (Vocabulary.count_of host text k))) ∧
    (∀ k, k ∉ keywords ∨ k = "__proto__" → m !! k = acc !! k).
Proof.
  induction keywords as [|k0 rest IH]; intros acc m Hm.
  - injection Hm as <-. split; [intros k Hk; by apply elem_of_nil in Hk | done].
  - simpl in Hm. destruct (countKeyword host text k0) as [n0|e] eqn:Hc; [|done].
    simpl in Hm. destruct (IH _ _ Hm) as [Hin Hout].
    assert (Hn0 : Vocabulary.count_of host text k0 = n0)
      by (unfold Vocabulary.count_of; by rewrite Hc).
    split.
    + intros k Hk. destruct (decide (k ∈ rest)) as [Hrest | Hrest]; [by apply Hin|].
      apply elem_of_cons in Hk as [-> | Hk]; [|done].
      rewrite Hn0. split; [done|]. intros Hown.
      rewrite (Hout k0 (or_introl Hrest)), (assign_own _ _ _ Hown).
      apply lookup_insert_eq.
    + intros k [Hk | ->].
      * apply not_elem_of_cons in Hk as [Hne Hrest].
        rewrite (Hout k (or_introl Hrest)).
        destruct (decide (k0 = "__proto__")) as [-> | Hown]; [done|].
        by rewrite (assign_own _ _ _ Hown), lookup_insert_ne.
      * rewrite (Hout _ (or_intror eq_refl)).
        destruct (decide (k0 = "__proto__")) as [-> | Hown]; [done|].
        by rewrite (assign_own _ _ _ Hown), lookup_insert_ne.
Qed.

(** The loop throws as soon as one keyword does. *)
Lemma scoreKeywords_throws (keywords : list string) :
  ∀ (acc : gmap string nat),
    (∀ e, scoreKeywords host text keywords acc = Throw e →
          ∃ k, k ∈ keywords ∧ countKeyword host text k = Throw e) ∧
    (∀ k, k ∈ keywords → is_ok (countKeyword host text k) = false →
          is_ok (scoreKeywords host text keywords acc) = false).
Proof.
  induction keywords as [|k0 rest IH]; intros acc.
  - split; [done | intros k Hk; by apply elem_of_nil in Hk].
  - simpl. destruct (countKeyword host text k0) as [n0|e0] eqn:Hc; simpl.
    + destruct (IH (assign k0 n0 acc)) as [Hthrow Hbad]. split.
      * intros e He. destruct (Hthrow e He) as (k & Hk & Hke).
        exists k. split; [by apply elem_of_cons; right | done].
      * intros k Hk Hfail. apply elem_of_cons in Hk as [-> | Hk].
        -- by rewrite Hc in Hfail.
        -- by apply (Hbad k).
    + split; [|done]. intros e [= ->]. exists k0. split; [apply elem_of_cons; by left | done].
Qed.

Lemma total_matches_insert (k : string) (n : nat) (m : gmap string nat) :
  m !! k = None → total_matches (<[k := n]> m) = total_matches m + n.
Proof.
  intros Hk. unfold total_matches.
  rewrite map_fold_insert_L; [done | intros; lia | done].
Qed.

(** On keywords that are new to the map and all different, the total
    grows by the sum of the counts of those that get a property. *)
Lemma total_matches_scored (keywords : list string) :
  ∀ (acc m : gmap string nat),
    NoDup keywords → (∀ k, k ∈ keywords → acc !! k = None) →
    scoreKeywords host text keywords acc = Ok m →
    total_matches m =
    total_matches acc
    + sum_list (Vocabulary.count_of host text <$> Vocabulary.own_keys keywords).
Proof.
  induction keywords as [|k0 rest IH]; intros acc m Hnd Hfresh Hm.
  - injection Hm as <-. simpl. lia.
  - simpl in Hm. destruct (countKeyword host text k0) as [n0|e] eqn:Hc; [|done].
    simpl in Hm. apply NoDup_cons in Hnd as [Hk0 Hnd].
    assert (Hn0 : Vocabulary.count_of host text k0 = n0)
      by (unfold Vocabulary.count_of; by rewrite Hc).
    unfold Vocabulary.own_keys. rewrite filter_cons.
    destruct (decide (k0 ≠ "__proto__")) as [Hown | Hproto].
    + rewrite (assign_own _ _ _ Hown) in Hm.
      assert (Hfresh' : ∀ k, k ∈ rest → <[k0 := n0]> acc !! k = None).
      { intros k Hk. rewrite lookup_insert_ne; [|by intros ->].
        apply Hfresh. apply elem_of_cons. by right. }
      rewrite (IH (<[k0 := n0]> acc) m Hnd Hfresh' Hm).
      rewrite total_matches_insert by (apply Hfresh; apply elem_of_cons; by left).
      rewrite fmap_cons. simpl. rewrite Hn0. unfold Vocabulary.own_keys. lia.
    + apply dec_stable in Hproto. subst k0. rewrite assign_proto in Hm.
      rewrite (IH acc m Hnd); [done | | exact Hm].
      intros k Hk. apply Hfresh. apply elem_of_cons. by right.
Qed.

End scorer.

(** X14: when the scoring of a page succeeds, [keywordMatches] holds one entry
    per distinct keyword other than [__proto__], the count of that keyword,
    and nothing else (the assignment to the name [__proto__] creates no
    property); a keyword listed twice has one entry, so the scoring of a list
    is the scoring of the list without its repetitions, and
    [totalKeywordMatches] is the sum of the counts of the distinct keywords
    that have an entry. *)
Theorem keywordMatches_entries (host : string → Result (string → nat)) (text : string)
    (keywords : list string) (m : gmap string nat) :
  scoreKeywords host text keywords ∅ = Ok m →
  (∀ k, m !! k = if decide (k ∈ keywords ∧ k ≠ "__proto__")
                 then Some (Vocabulary.count_of host text k) else None) ∧
  dom m = list_to_set (Vocabulary.own_keys keywords) ∧
  scoreKeywords host text (remove_dups keywords) ∅ = Ok m ∧
  total_matches m =
    sum_list (Vocabulary.count_of host text <$> Vocabulary.own_keys (remove_dups keywords)).
Proof.
  intros Hm. destruct (scoreKeywords_lookup host text keywords ∅ m Hm) as [Hin Hout].
  assert (Hlookup : ∀ k, m !! k = if decide (k ∈ keywords ∧ k ≠ "__proto__")
                                   then Some (Vocabulary.count_of host text k) else None).
  { intros k. destruct (decide (k ∈ keywords ∧ k ≠ "__proto__")) as [[Hk Hown] | Hk].
    - by apply Hin.
    - rewrite Hout; [done|].
      destruct (decide (k ∈ keywords)) as [Hk' | Hk']; [|by left].
      right. destruct (decide (k = "__proto__")); [done|]. by destruct Hk. }
  assert (Hdedup : scoreKeywords host text (remove_dups keywords) ∅ = Ok m).
  { destruct (scoreKeywords host text (remove_dups keywords) ∅) as [m'|e] eqn:Hm'.
    - f_equal. apply map_eq. intros k. rewrite Hlookup.
      destruct (scoreKeywords_lookup host text _ ∅ m' Hm') as [Hin' Hout'].
      destruct (decide (k ∈ keywords ∧ k ≠ "__proto__")) as [[Hk Hown] | Hk].
      + apply Hin'; [by rewrite elem_of_remove_dups | done].
      + rewrite Hout'; [done|].
        destruct (decide (k ∈ keywords)) as [Hk' | Hk'];
          [|left; by rewrite elem_of_remove_dups].
        right. destruct (decide (k = "__proto__")); [done|]. by destruct Hk.
    - destruct (scoreKeywords_throws host text (remove_dups keywords) ∅) as [Hthrow _].
      destruct (Hthrow e Hm') as (k & Hk & Hke).
      rewrite elem_of_remove_dups in Hk. destruct (Hin k Hk) as [Hok _]. congruence. }
  split_and!; [exact Hlookup | | exact Hdedup |].
  - apply set_eq. intros k.
    rewrite elem_of_dom, Hlookup, elem_of_list_to_set.
    unfold Vocabulary.own_keys. rewrite list_elem_of_filter.
    destruct (decide (k ∈ keywords ∧ k ≠ "__proto__")) as [[Hk Hown] | Hk].
    + split; [done|]. intros _. by eexists.
    + split; [by intros [? ?] | intros [? ?]; by destruct Hk].
  - rewrite (total_matches_scored host text (remove_dups keywords) ∅ m
               (NoDup_remove_dups keywords)); [done | done | exact Hdedup].
Qed.

Lemma keywordMatches_entries_witness :
  total_matches {[ "GPT-4" := 2; "rocks" := 1 ]} = 3.
Proof.
  destruct (keywordMatches_entries (host_regexp Sample.world) "GPT-4 is here. GPT-4 rocks."
              ["GPT-4"; "rocks"; "__proto__"; "GPT-4"] {[ "GPT-4" := 2; "rocks" := 1 ]})
    as (_ & _ & _ & H); [by vm_compute|].
  rewrite H. by vm_compute.
Defined.

(** X15: one keyword that cannot be compiled loses the counts of all: the
    scoring throws the error of the first such keyword, and the scrape of the
    page, fetched and parsed as it may be, becomes a failed result. *)
Theorem one_bad_keyword_fails_the_page (a : Agent) (w : PageWorld) (url : string)
    (keywords : list string) (k : string) :
  k ∈ keywords → is_ok (countKeyword (host_regexp w) EmptyString k) = false →
  (∀ text, is_ok (scoreKeywords (host_regexp w) text keywords ∅) = false) ∧
  success (scrapeWithoutBrowser a w url keywords) = false.
Proof.
  intros Hk Hbad.
  assert (Hany : ∀ text, is_ok (countKeyword (host_regexp w) text k) = false).
  { intros text. unfold countKeyword in *.
    destruct (Regex.compile (keyword_pattern k)); [done | done |].
    by destruct (host_regexp w (keyword_pattern k)). }
  assert (Hscore : ∀ text, is_ok (scoreKeywords (host_regexp w) text keywords ∅) = false).
  { intros text. by apply (scoreKeywords_throws (host_regexp w) text keywords ∅ ) with k. }
  split; [exact Hscore|].
  unfold scrapeWithoutBrowser, scrapeWithoutBrowser_body.
  destruct (fst (fetchWithRetry a w url)) as [[resp|]|e]; simpl; try done.
  match goal with
  | |- context [scoreKeywords (host_regexp w) ?t keywords ∅] =>
      specialize (Hscore t); destruct (scoreKeywords (host_regexp w) t keywords ∅)
  end; [done | done].
Qed.

Lemma one_bad_keyword_fails_the_page_witness :
  success (scrapeWithoutBrowser scraperAgent Sample.world
             "https://en.wikipedia.org/wiki/GPT-4" ["GPT-4"; "C++"]) = false.
Proof.
  apply (one_bad_keyword_fails_the_page scraperAgent Sample.world
           "https://en.wikipedia.org/wiki/GPT-4" ["GPT-4"; "C++"] "C++").
  - apply elem_of_cons. right. apply elem_of_cons. by left.
  - reflexivity.
Defined.

(** ** The scorer does not see the case of the letters of the text *)

Section letter_case.

Import LetterCase.

Ltac all_chars c := destruct c as [[] [] [] [] [] [] [] []]; reflexivity.

Lemma canonicalize_lower (c : ascii) : Regex.canonicalize (lower_char c) = Regex.canonicalize c.
Proof. all_chars c. Qed.

Lemma is_word_char_lower (c : ascii) : Regex.is_word_char (lower_char c) = Regex.is_word_char c.
Proof. all_chars c. Qed.

Lemma is_digit_lower (c : ascii) : is_digit (lower_char c) = is_digit c.
Proof. all_chars c. Qed.

Lemma is_space_lower (c : ascii) : is_space (lower_char c) = is_space c.
Proof. all_chars c. Qed.

Lemma is_line_terminator_lower (c : ascii) :
  Regex.is_line_terminator (lower_char c) = Regex.is_line_terminator c.
Proof. all_chars c. Qed.

Lemma lower_char_idem (c : ascii) : lower_char (lower_char c) = lower_char c.
Proof. all_chars c. Qed.

Lemma blind_via_lower (p : ascii → bool) : (∀ c, p (lower_char c) = p c) → blind p.
Proof. intros H d d' Hdd. by rewrite <- (H d), <- (H d'), Hdd. Qed.

Lemma same_char_blind (c : ascii) : blind (Regex.same_char c).
Proof.
  apply blind_via_lower. intros d. unfold Regex.same_char. by rewrite canonicalize_lower.
Qed.

Lemma is_word_char_blind : blind Regex.is_word_char.
Proof. apply blind_via_lower, is_word_char_lower. Qed.

Lemma not_line_terminator_blind : blind (λ d, negb (Regex.is_line_terminator d)).
Proof. apply blind_via_lower. intros c. by rewrite is_line_terminator_lower. Qed.

Lemma in_class_blind (k : Regex.cls) (neg : bool) : blind (λ d, xorb neg (Regex.in_class k d)).
Proof.
  apply blind_via_lower. intros c. f_equal.
  destruct k; simpl; [apply is_digit_lower | apply is_word_char_lower | apply is_space_lower].
Qed.

Lemma toLowerCase_length (s t : string) :
  toLowerCase s = toLowerCase t → String.length s = String.length t.
Proof.
  revert t. induction s as [|c s IH]; intros [|d t] H; simpl in *; try done.
  injection H as _ H. f_equal. by apply IH.
Qed.

Lemma alike_remaining (x y : Regex.pos) : alike x y → Regex.remaining x = Regex.remaining y.
Proof. intros [_ H]. by apply toLowerCase_length. Qed.

Lemma alike_split (x y : Regex.pos) :
  alike x y →
  match snd x, snd y with
  | EmptyString, EmptyString => True
  | String c s, String d t => lower_char c = lower_char d ∧ alike (Some c, s) (Some d, t)
  | _, _ => False
  end.
Proof.
  intros [_ H]. destruct (snd x) as [|c s], (snd y) as [|d t]; simpl in *; try done.
  injection H as Hc Hs. split; [done|]. split; simpl; [by rewrite Hc | done].
Qed.

Lemma read_alike (p : ascii → bool) (x y : Regex.pos) (k k' : Regex.pos → option Regex.pos) :
  blind p → alike x y → alike_conts k k' →
  alike_results (Regex.read p x k) (Regex.read p y k').
Proof.
  intros Hp Hxy Hk. unfold Regex.read. apply alike_split in Hxy.
  destruct (snd x) as [|c s], (snd y) as [|d t]; try done.
  destruct Hxy as [Hc Hrest]. rewrite (Hp c d Hc).
  destruct (p d); [by apply Hk | done].
Qed.

Lemma at_boundary_alike (x y : Regex.pos) :
  alike x y → Regex.at_boundary x = Regex.at_boundary y.
Proof.
  intros Hxy. unfold Regex.at_boundary, Regex.word_before, Regex.word_after.
  pose proof (alike_split _ _ Hxy) as Hs. destruct Hxy as [Hp _].
  f_equal.
  - destruct (fst x) as [c|], (fst y) as [d|]; simpl in Hp; try done.
    injection Hp as Hp. by apply is_word_char_blind.
  - destruct (snd x) as [|c s], (snd y) as [|d t]; try done.
    destruct Hs as [Hc _]. by apply is_word_char_blind.
Qed.

Lemma or_backtrack_alike (o1 o1' o2 o2' : option Regex.pos) :
  alike_results o1 o1' → alike_results o2 o2' →
  alike_results (Regex.or_backtrack o1 o2) (Regex.or_backtrack o1' o2').
Proof. by destruct o1, o1'. Qed.

(* The continuation of one iteration of a quantifier, on two like positions. *)
Ltac again_step :=
  let u := fresh "u" in
  let v := fresh "v" in
  let Huv := fresh "Huv" in
  intros u v Huv; cbv beta;
  match goal with
  | Hxy : alike ?x ?y, IH : ∀ min max x y, alike x y → _ |- _ =>
      rewrite (alike_remaining u v Huv), (alike_remaining x y Hxy);
      match goal with
      | |- context [Nat.eqb ?m 0 && Nat.eqb (Regex.remaining v) (Regex.remaining y)] =>
          destruct (Nat.eqb m 0 && Nat.eqb (Regex.remaining v) (Regex.remaining y));
          [exact I | by apply IH]
      end
  end.

(** The matcher takes the same steps on two texts that differ by the case
    of the letters. *)
Lemma run_alike (r : Regex.regex) :
  ∀ (x y : Regex.pos) (k k' : Regex.pos → option Regex.pos),
    alike x y → alike_conts k k' → alike_results (Regex.run r x k) (Regex.run r y k').
Proof.
  induction r as [|c| |cl neg|neg| | |a IHa b IHb|a IHa b IHb|a IHa min max greedy|a IHa];
    intros x y k k' Hxy Hk; simpl.
  - by apply Hk.
  - apply read_alike; [apply same_char_blind | done | done].
  - apply read_alike; [apply not_line_terminator_blind | done | done].
  - apply read_alike; [apply in_class_blind | done | done].
  - rewrite (at_boundary_alike x y Hxy).
    destruct (xorb neg (Regex.at_boundary y)); [by apply Hk | done].
  - pose proof Hxy as [Hp _].
    destruct (fst x), (fst y); simpl in Hp; try done. by apply Hk.
  - pose proof (alike_split _ _ Hxy) as Hs.
    destruct (snd x), (snd y); try done. by apply Hk.
  - apply IHa; [done|]. intros u v Huv. by apply IHb.
  - apply or_backtrack_alike; [by apply IHa | by apply IHb].
  - rewrite (alike_remaining x y Hxy).
    generalize (Regex.remaining y + min + 1) as fuel. intros fuel.
    revert min max x y Hxy.
    induction fuel as [|fuel IHfuel]; intros min max x y Hxy; [done|].
    assert (Hlen := alike_remaining x y Hxy).
    destruct max as [[|n]|].
    + by apply Hk.
    + simpl. destruct (negb (Nat.eqb min 0)); [apply IHa; [done | again_step]|].
      destruct greedy; apply or_backtrack_alike;
        try (by apply Hk); (apply IHa; [done | again_step]).
    + simpl. destruct (negb (Nat.eqb min 0)); [apply IHa; [done | again_step]|].
      destruct greedy; apply or_backtrack_alike;
        try (by apply Hk); (apply IHa; [done | again_step]).
  - by apply IHa.
Qed.

Lemma exec_alike (r : Regex.regex) (s : string) :
  ∀ (t : string) (p q : option ascii),
    alike (p, s) (q, t) → alike_matches (Regex.exec r p s) (Regex.exec r q t).
Proof.
  induction s as [|c s IH]; intros t p q Hxy; pose proof (alike_split _ _ Hxy) as Hs;
    destruct t as [|d t]; simpl in Hs; try done; simpl.
  - pose proof (run_alike r _ _ Some Some Hxy (λ u v Huv, Huv)) as Hrun.
    destruct (Regex.run r (p, EmptyString) Some), (Regex.run r (q, EmptyString) Some);
      simpl in Hrun; try done.
  - pose proof (run_alike r _ _ Some Some Hxy (λ u v Huv, Huv)) as Hrun.
    destruct (Regex.run r (p, String c s) Some), (Regex.run r (q, String d t) Some);
      simpl in Hrun; try done.
    apply IH, Hs.
Qed.

Lemma count_from_alike (r : Regex.regex) (fuel : nat) :
  ∀ x y, alike x y → Regex.count_from fuel r x = Regex.count_from fuel r y.
Proof.
  induction fuel as [|fuel IH]; intros [p s] [q t] Hxy; [done|]. simpl.
  pose proof (exec_alike r s t p q Hxy) as Hexec.
  destruct (Regex.exec r p s) as [[b e]|], (Regex.exec r q t) as [[b' e']|];
    simpl in Hexec; try done.
  destruct Hexec as [Hb He].
  rewrite (alike_remaining b b' Hb), (alike_remaining e e' He).
  pose proof (alike_split _ _ He) as Hs.
  destruct (Nat.eqb (Regex.remaining b') (Regex.remaining e')).
  - destruct (snd e), (snd e'); try done. f_equal. apply IH, Hs.
  - f_equal. by apply IH.
Qed.

Lemma count_matches_alike (r : Regex.regex) (s t : string) :
  Vocabulary.same_letters s t → Regex.count_matches r s = Regex.count_matches r t.
Proof.
  intros Hst. unfold Regex.count_matches.
  rewrite (toLowerCase_length s t Hst). by apply count_from_alike.
Qed.

Lemma canonicalize_same_letter (c d : ascii) :
  lower_char c = lower_char d → Regex.canonicalize c = Regex.canonicalize d.
Proof. intros H. by rewrite <- (canonicalize_lower c), <- (canonicalize_lower d), H. Qed.

(** Two keywords that differ by the case of the letters are matched at the
    same places. *)
Lemma run_chars_same_letters (tail : Regex.regex) (k : string) :
  ∀ (k' : string) (x : Regex.pos) (cont : Regex.pos → option Regex.pos),
    toLowerCase k = toLowerCase k' →
    Regex.run (Keyword.chars_then k tail) x cont =
    Regex.run (Keyword.chars_then k' tail) x cont.
Proof.
  induction k as [|c k IH]; intros [|c' k'] x cont H; simpl in H; try done.
  injection H as Hc Hk. simpl. unfold Regex.read.
  destruct (snd x) as [|d rest]; [done|].
  unfold Regex.same_char. rewrite (canonicalize_same_letter c c' Hc).
  destruct (Ascii.eqb (Regex.canonicalize c') (Regex.canonicalize d)); [|done].
  by apply IH.
Qed.

Lemma exec_same_runs (r r' : Regex.regex) :
  (∀ x, Regex.run r x Some = Regex.run r' x Some) →
  ∀ s p, Regex.exec r p s = Regex.exec r' p s.
Proof.
  intros Hrun. induction s as [|c s IH]; intros p; simpl; rewrite Hrun; [done|].
  by rewrite IH.
Qed.

Lemma count_from_same_runs (r r' : Regex.regex) :
  (∀ x, Regex.run r x Some = Regex.run r' x Some) →
  ∀ fuel x, Regex.count_from fuel r x = Regex.count_from fuel r' x.
Proof.
  intros Hrun. induction fuel as [|fuel IH]; intros x; [done|]. simpl.
  rewrite (exec_same_runs r r' Hrun).
  destruct (Regex.exec r' (fst x) (snd x)) as [[b e]|]; [|done].
  destruct (Nat.eqb (Regex.remaining b) (Regex.remaining e)); [|by rewrite IH].
  destruct (snd e); [done | by rewrite IH].
Qed.

Lemma word_pattern_same_letters (k k' text : string) :
  toLowerCase k = toLowerCase k' →
  Regex.count_matches (Keyword.word_pattern k) text =
  Regex.count_matches (Keyword.word_pattern k') text.
Proof.
  intros H. unfold Regex.count_matches. apply count_from_same_runs.
  intros x. rewrite !word_pattern_eq. simpl.
  destruct (Regex.at_boundary x); [|done]. by apply run_chars_same_letters.
Qed.

End letter_case.

(** X16: on texts made of the code units below 256, which are the strings
    of this development, the keyword scorer (the loops of
    [scrapeWithoutBrowser] and [scrapePage]) does not see the case of the
    letters.  Two such page texts that differ only by the case of their
    letters get the same [keywordMatches], or the same error, for every
    keyword list whose patterns lie in the fragment of the pattern syntax
    that is modelled (for the others the count is the host engine's, about
    which nothing is assumed); and two keywords without pattern syntax that
    differ only by the case of their letters get the same count.  (Above
    255 this fails: the Kelvin sign has the lower case [k] and is not matched
    by [/k/i].) *)
Theorem scorer_ignores_letter_case (host : string → Result (string → nat))
    (text text' : string) :
  Vocabulary.same_letters text text' →
  (∀ (keywords : list string) (acc : gmap string nat),
     (∀ k, k ∈ keywords → Regex.compile (keyword_pattern k) ≠ Regex.Beyond) →
     scoreKeywords host text keywords acc = scoreKeywords host text' keywords acc) ∧
  (∀ k k', Keyword.plain k = true → Keyword.plain k' = true →
           Vocabulary.same_letters k k' →
           countKeyword host text k = countKeyword host text' k').
Proof.
  intros Htext. split.
  - intros keywords. induction keywords as [|k ks IH]; intros acc Hread; [done|]. simpl.
    assert (Hk : countKeyword host text k = countKeyword host text' k).
    { unfold countKeyword.
      assert (Hnot := Hread k ltac:(left)).
      destruct (Regex.compile (keyword_pattern k)) as [r|msg|]; [|done|done].
      by rewrite (count_matches_alike r text text' Htext). }
    rewrite Hk. destruct (countKeyword host text' k) as [n|e]; [|done]. simpl.
    apply IH. intros k0 Hk0. apply Hread. by right.
  - intros k k' Hk Hk' Hkk. rewrite !countKeyword_plain by done. f_equal.
    rewrite (count_matches_alike _ text text' Htext).
    by apply word_pattern_same_letters.
Qed.

Lemma scorer_ignores_letter_case_witness :
  Vocabulary.same_letters "AI helps. ai Helps." "ai HELPS. Ai helps." ∧
  scoreKeywords (host_regexp Sample.world) "AI helps. ai Helps." ["ai"; "help(s|ed)"] ∅ =
  scoreKeywords (host_regexp Sample.world) "ai HELPS. Ai helps." ["ai"; "help(s|ed)"] ∅ ∧
  countKeyword (host_regexp Sample.world) "AI helps. ai Helps." "AI" =
  countKeyword (host_regexp Sample.world) "ai HELPS. Ai helps." "ai".
Proof.
  assert (H : Vocabulary.same_letters "AI helps. ai Helps." "ai HELPS. Ai helps.")
    by reflexivity.
  split; [exact H|].
  destruct (scorer_ignores_letter_case (host_regexp Sample.world) _ _ H) as [Hlist Hone].
  split.
  - apply Hlist. intros k Hk.
    apply elem_of_cons in Hk as [->|Hk]; [by vm_compute|].
    apply elem_of_cons in Hk as [->|Hk]; [by vm_compute|].
    by apply elem_of_nil in Hk.
  - by apply Hone.
Defined.

(** ** The content of a page is well formed *)

Section content.

Import Content.

Lemma trimEnd_idem (s : string) : trimEnd (trimEnd s) = trimEnd s.
Proof.
  induction s as [|c s IH]; [done|]. simpl.
  destruct (trimEnd s) as [|d t] eqn:E.
  - destruct (is_space c) eqn:Hc; [done|]. simpl. by rewrite Hc.
  - simpl. simpl in IH. by rewrite IH.
Qed.

Lemma trimStart_black (s : string) : starts_black (trimStart s).
Proof.
  induction s as [|c s IH]; [done|]. simpl. by destruct (is_space c) eqn:Hc.
Qed.

Lemma trimStart_of_black (s : string) : starts_black s → trimStart s = s.
Proof. destruct s as [|c s]; [done|]. simpl. by intros ->. Qed.

Lemma trimEnd_black (s : string) : starts_black s → starts_black (trimEnd s).
Proof.
  destruct s as [|c s]; [done|]. simpl. intros Hc.
  destruct (trimEnd s); [by rewrite Hc | done].
Qed.

Lemma trim_black (s : string) : starts_black (trim s).
Proof. apply trimEnd_black, trimStart_black. Qed.

Lemma trim_idem (s : string) : trim (trim s) = trim s.
Proof.
  unfold trim at 1. rewrite (trimStart_of_black _ (trim_black s)).
  unfold trim. apply trimEnd_idem.
Qed.

Lemma trimEnd_trim (s : string) : trimEnd (trim s) = trim s.
Proof. apply trimEnd_idem. Qed.

Lemma truthy_clean (s : string) : truthy (trim s) = true → Content.clean (trim s).
Proof.
  intros H. split; [|apply trim_idem]. intros E. by rewrite E in H.
Qed.

(** A text that is its own [trimEnd] has a tail that is its own, too, and
    is not only one white-space code unit. *)
Lemma trimEnd_fixed_tail (c : ascii) (s : string) :
  trimEnd (String c s) = String c s →
  trimEnd s = s ∧ (s = EmptyString → is_space c = false).
Proof.
  simpl. destruct (trimEnd s) as [|d t] eqn:E.
  - destruct (is_space c); [done|]. intros [= <-]. by split.
  - intros [= <-]. by split.
Qed.

Lemma collapse_from_nonempty (s : string) :
  ∀ b, trimEnd s = s → s ≠ EmptyString → collapse_from b s ≠ EmptyString.
Proof.
  induction s as [|c s IH]; intros b Hs Hne; [done|].
  apply trimEnd_fixed_tail in Hs as [Hs Hc]. simpl.
  destruct (is_space c) eqn:E; [|done].
  destruct b; [|done]. apply IH; [done|]. intros Hnil. discriminate (Hc Hnil).
Qed.

Lemma trimEnd_collapse_from (s : string) :
  ∀ b, trimEnd s = s → trimEnd (collapse_from b s) = collapse_from b s.
Proof.
  induction s as [|c s IH]; intros b Hs; [done|].
  apply trimEnd_fixed_tail in Hs as [Hs Hc]. simpl.
  destruct (is_space c) eqn:E.
  - assert (Hne : s ≠ EmptyString).
    { intros Hnil. discriminate (Hc Hnil). }
    destruct b; [by apply IH|].
    simpl. rewrite (IH true Hs).
    pose proof (collapse_from_nonempty s true Hs Hne).
    by destruct (collapse_from true s).
  - simpl. rewrite (IH false Hs).
    destruct (collapse_from false s); [by rewrite E | done].
Qed.

Lemma collapse_from_black (s : string) :
  starts_black s → starts_black (collapse_from false s).
Proof.
  destruct s as [|c s]; [done|]. intros H. change (is_space c = false) in H.
  cbn [collapse_from]. rewrite H. exact H.
Qed.

Lemma single_spaced_collapse_from (s : string) :
  Vocabulary.single_spaced true (collapse_from true s) = true ∧
  Vocabulary.single_spaced false (collapse_from false s) = true.
Proof.
  induction s as [|c s [IH1 IH2]]; [done|]. simpl.
  destruct (is_space c) eqn:E; simpl.
  - by rewrite IH1.
  - by rewrite E.
Qed.

(** [s.trim().replace(/\s+/g, ' ')] has single spaces only, and none at
    its ends. *)
Lemma collapse_trim_normalised (s : string) :
  Vocabulary.normalised (collapse_spaces (trim s)).
Proof.
  unfold Vocabulary.normalised, collapse_spaces. split.
  - pose proof (trim_black s) as Hb.
    destruct (trim s) as [|c t]; [done|]. simpl in Hb. simpl. rewrite Hb. simpl.
    by rewrite Hb, (proj2 (single_spaced_collapse_from t)).
  - unfold trim at 1.
    rewrite (trimStart_of_black _ (collapse_from_black _ (trim_black s))).
    apply trimEnd_collapse_from, trimEnd_trim.
Qed.

Lemma in_unique (s : selection) :
  ∀ acc e, In e (unique s acc) → In e s.
Proof.
  induction s as [|x s IH]; intros acc e; [done|]. simpl.
  destruct (seen (fst x) acc); [right; by apply (IH acc) |].
  intros [->|H]; [by left | right; by apply (IH _ _ H)].
Qed.

(** [find] selects matching elements only. *)
Lemma in_find (s : selection) (sel : selector) (e : located) :
  In e (find s sel) → matches sel (snd e) = true.
Proof.
  unfold find. intros H. apply in_unique in H. apply in_flat_map in H as (x & _ & H).
  apply list_elem_of_In, list_elem_of_filter in H as [H _]. done.
Qed.

Lemma heading_tag_level (n : node) :
  matches [ByTag "h1"; ByTag "h2"; ByTag "h3"; ByTag "h4"; ByTag "h5"; ByTag "h6"] n = true →
  1 ≤ heading_level (tag_of n) ≤ 6.
Proof.
  destruct n as [d|tag attrs cs]; [done|]. unfold matches. simpl.
  rewrite !orb_true_iff, !String.eqb_eq.
  intros [->|[->|[->|[->|[->|[->|H]]]]]]; try (vm_compute; lia); done.
Qed.

Lemma collect_headings_ok (mainElement : selection) :
  Forall Content.heading_ok (collect_headings mainElement).
Proof.
  apply Forall_forall. intros h Hh. apply list_elem_of_In in Hh.
  unfold collect_headings in Hh. apply in_flat_map in Hh as (el & Hel & Hh).
  destruct (truthy (trim (text [el]))) eqn:Ht; [|by destruct Hh].
  destruct Hh as [<-|[]]. split; simpl.
  - apply heading_tag_level. by apply in_find in Hel.
  - by apply truthy_clean.
Qed.

Lemma collect_links_ok (mainElement : selection) :
  Forall Content.link_ok (collect_links mainElement).
Proof.
  apply Forall_forall. intros l Hl. apply list_elem_of_In in Hl.
  unfold collect_links in Hl. apply in_flat_map in Hl as (el & Hel & Hl).
  destruct (truthy (default EmptyString (attr [el] "href"))) eqn:Hh; [|by destruct Hl].
  destruct (truthy (trim (text [el]))) eqn:Ht; [|by destruct Hl].
  destruct (startsWith (default EmptyString (attr [el] "href")) "#") eqn:Hs;
    [by destruct Hl|].
  destruct Hl as [<-|[]]. unfold link_ok. cbn [href link_text]. split_and!.
  - intros E. by rewrite E in Hh.
  - done.
  - by apply truthy_clean.
Qed.

Lemma Forall_slice0 {A} (P : A → Prop) (xs : list A) (n : Z) :
  Forall P xs → Forall P (slice0 xs n).
Proof. intros H. unfold slice0. destruct (n <? 0)%Z; by apply Forall_take. Qed.

End content.

(** X17: what a successful lightweight scrape ([scrapeWithoutBrowser])
    reports is well formed.  Every heading has a level from 1 to 6 and a
    text that is not empty and has no white space at its ends; every link has
    a target that is not empty and is not a fragment of the page, and such a
    text; [textLength] is the length of a text whose white space is single
    spaces between other characters, and that text is [mainContent] when the
    summary is switched off. *)
Theorem lightweight_content_well_formed (a : Agent) (w : PageWorld) (url : string)
    (keywords : list string) :
  success (scrapeWithoutBrowser a w url keywords) = true →
  ∃ hs ls t,
    headings (scrapeWithoutBrowser a w url keywords) = Some hs ∧
    links (scrapeWithoutBrowser a w url keywords) = Some ls ∧
    Forall Content.heading_ok hs ∧
    Forall Content.link_ok ls ∧
    Vocabulary.normalised t ∧
    textLength (scrapeWithoutBrowser a w url keywords) = Some (String.length t) ∧
    (enableAIExtraction a = false →
     mainContent (scrapeWithoutBrowser a w url keywords) = Some t).
Proof.
  unfold scrapeWithoutBrowser, scrapeWithoutBrowser_body.
  destruct (fst (fetchWithRetry a w url)) as [[resp|]|e]; simpl; try discriminate.
  destruct (scoreKeywords _ _ _ _) as [km|e]; simpl; try discriminate.
  destruct (enableAIExtraction a) eqn:Hai.
  - destruct (extractMainContent a w _ keywords) as [mc|e]; simpl; try discriminate.
    intros _. eexists _, _, _. split_and!; try reflexivity.
    + apply collect_headings_ok.
    + apply (Forall_slice0 _ _ 20), collect_links_ok.
    + apply collapse_trim_normalised.
    + done.
  - simpl. intros _. eexists _, _, _. split_and!; try reflexivity.
    + apply collect_headings_ok.
    + apply (Forall_slice0 _ _ 20), collect_links_ok.
    + apply collapse_trim_normalised.
Qed.

Lemma lightweight_content_well_formed_witness :
  ∃ hs ls t,
    headings (scrapeWithoutBrowser scraperAgent Sample.world
                "https://en.wikipedia.org/wiki/GPT-4" ["GPT-4"]) = Some hs ∧
    links (scrapeWithoutBrowser scraperAgent Sample.world
             "https://en.wikipedia.org/wiki/GPT-4" ["GPT-4"]) = Some ls ∧
    Forall Content.heading_ok hs ∧
    Forall Content.link_ok ls ∧
    Vocabulary.normalised t ∧
    textLength (scrapeWithoutBrowser scraperAgent Sample.world
                  "https://en.wikipedia.org/wiki/GPT-4" ["GPT-4"]) = Some (String.length t) ∧
    (enableAIExtraction scraperAgent = false →
     mainContent (scrapeWithoutBrowser scraperAgent Sample.world
                    "https://en.wikipedia.org/wiki/GPT-4" ["GPT-4"]) = Some t).
Proof.
  apply (lightweight_content_well_formed scraperAgent Sample.world
           "https://en.wikipedia.org/wiki/GPT-4" ["GPT-4"]).
  by vm_compute.
Defined.

(** ** The page the single-URL handler extracts *)

Section handler_page.

(** Without a backslash before an [s], the replacement of
    [/\\s+/g] changes nothing. *)
Lemma replace_backslash_s_same (s : string) :
  includes s "\s" = false → Handler.replace_backslash_s false s = s.
Proof.
  induction s as [|c s IH]; [done|].
  rewrite includes_unfold. intros H. apply orb_false_elim in H as [Hp Hs].
  simpl. simpl in Hp.
  destruct (Ascii.eqb_spec c "\") as [->|Hc].
  - simpl in Hp. rewrite Hp. simpl. by rewrite IH.
  - simpl. by rewrite IH.
Qed.

End handler_page.

(** X18: the page [extractContent] hands to the single-URL handler.  Its
    headings and links are well formed, as those of the lightweight scrape
    are; its title has no white space at its ends; but its text is only
    trimmed: the pattern of the replacement is written [/\\s+/g], a backslash
    before the letter, so that a text without that pair of characters keeps
    every run of white space it has. *)
Theorem extractContent_keeps_white_space (load : string → node) (html url : string) :
  includes (trim (Dom.text (mainElementOf (remove Single.noise (load html))))) "\s" = false →
  Single.text (Handler.fields (Handler.extractContent load html url)) =
    trim (Dom.text (mainElementOf (remove Single.noise (load html)))) ∧
  trim (Single.title (Handler.fields (Handler.extractContent load html url))) =
    Single.title (Handler.fields (Handler.extractContent load html url)) ∧
  Forall Content.heading_ok
    (Single.headings (Handler.fields (Handler.extractContent load html url))) ∧
  Forall Content.link_ok (Handler.links (Handler.extractContent load html url)).
Proof.
  intros Hraw. unfold Handler.extractContent. cbn [Handler.fields Handler.links
    Single.text Single.title Single.headings].
  split_and!.
  - by apply replace_backslash_s_same.
  - unfold or_else.
    destruct (truthy (trim (Dom.text (query _ [ByTag "title"])))); [apply trim_idem|].
    destruct (truthy (trim (Dom.text (firstn 1 (query _ [ByTag "h1"])))));
      [apply trim_idem | done].
  - apply collect_headings_ok.
  - apply collect_links_ok.
Qed.

Lemma extractContent_keeps_white_space_witness :
  Single.text
    (Handler.fields
       (Handler.extractContent
          (λ _, Element "html" []
                  [Element "body" []
                     [Element "main" [] [Text " two  spaces, kept "]]])
          "<html>...</html>" "https://example.com/")) =
  "two  spaces, kept".
Proof.
  destruct (extractContent_keeps_white_space
              (λ _, Element "html" []
                      [Element "body" []
                         [Element "main" [] [Text " two  spaces, kept "]]])
              "<html>...</html>" "https://example.com/") as (H & _); [by vm_compute|].
  rewrite H. by vm_compute.
Defined.

(** ** The lightweight fetch at any attempt *)

Section backoff.

Variables (get : nat → Result Response) (m d : Z).

Lemma delays_S (k : nat) :
  Backoff.delays d (S k) = Backoff.delays d k ++ [(d * 2 ^ Z.of_nat (S k))%Z].
Proof. unfold Backoff.delays. by rewrite seq_S, fmap_app. Qed.

Lemma total_app (xs ys : list Z) :
  Backoff.total (xs ++ ys) = (Backoff.total xs + Backoff.total ys)%Z.
Proof. unfold Backoff.total. induction xs as [|x xs IH]; simpl; [done|]. rewrite IH. lia. Qed.

Lemma total_delays (k : nat) :
  Backoff.total (Backoff.delays d k) = (d * (2 ^ Z.of_nat (S k) - 2))%Z.
Proof.
  induction k as [|k IH]; [unfold Backoff.total, Backoff.delays; simpl; lia|].
  rewrite delays_S, total_app, IH. unfold Backoff.total. simpl foldr.
  rewrite (Nat2Z.inj_succ (S k)), Z.pow_succ_r by lia. lia.
Qed.

(** The loop run from [retries = 0]: after [j] failures it is at attempt
    [j], having slept the first [j] delays. *)
Lemma retry_loop_succeeds_at (r : Response) (k : nat) :
  (Z.of_nat k < m)%Z →
  (∀ n, n < k → is_ok (get n) = false) → get k = Ok r →
  ∀ (j fuel : nat), j ≤ k → k - j < fuel →
    retry_loop fuel get m d (Z.of_nat j) (Backoff.delays d j) =
    (Ok (Some r), Backoff.delays d k).
Proof.
  intros Hk Hfail Hget j. remember (k - j) as gap eqn:Hgap.
  revert j Hgap. induction gap as [|gap IH]; intros j Hgap fuel Hj Hfuel.
  - assert (j = k) as -> by lia. destruct fuel as [|fuel]; [lia|].
    apply retry_loop_first; [lia|]. by rewrite Nat2Z.id.
  - destruct fuel as [|fuel]; [lia|].
    destruct (get j) as [r'|e] eqn:Hj'.
    { specialize (Hfail j ltac:(lia)). rewrite Hj' in Hfail. discriminate Hfail. }
    rewrite (retry_loop_again get m d fuel (Z.of_nat j) _ e);
      [| lia | lia | by rewrite Nat2Z.id].
    replace (Z.of_nat j + 1)%Z with (Z.of_nat (S j)) by lia.
    rewrite <- delays_S. apply IH; lia.
Qed.

(** Every delay of the loop lies between the first and the last. *)
Lemma delays_bounds (k : nat) :
  (0 ≤ d)%Z → Forall (λ x, (d * 2 ≤ x ≤ d * 2 ^ Z.of_nat k)%Z) (Backoff.delays d k).
Proof.
  intros Hd. unfold Backoff.delays. apply Forall_fmap, Forall_forall.
  intros i Hi. apply elem_of_seq in Hi. simpl.
  assert (H1 : (2 ^ 1 ≤ 2 ^ Z.of_nat i)%Z) by (apply Z.pow_le_mono_r; lia).
  assert (H2 : (2 ^ Z.of_nat i ≤ 2 ^ Z.of_nat k)%Z) by (apply Z.pow_le_mono_r; lia).
  change (2 ^ 1)%Z with 2%Z in H1. nia.
Qed.

(** Below 1 or in the negative, the delays only fall: they are at most
    the base. *)
Lemma delays_nonpositive (k : nat) :
  (d < 1)%Z → Forall (λ x, (x < 1)%Z) (Backoff.delays d k).
Proof.
  intros Hd. unfold Backoff.delays. apply Forall_fmap, Forall_forall.
  intros i Hi. simpl.
  assert (H1 : (0 < 2 ^ Z.of_nat i)%Z) by (apply Z.pow_pos_nonneg; lia).
  nia.
Qed.

Lemma waits_in_range (k : nat) :
  (1 ≤ d)%Z → (d * 2 ^ Z.of_nat k ≤ 2147483647)%Z →
  Backoff.waits (Backoff.delays d k) = Backoff.delays d k.
Proof.
  intros Hlow Hhigh. unfold Backoff.waits.
  pose proof (delays_bounds k ltac:(lia)) as Hall.
  induction (Backoff.delays d k) as [|x xs IH]; [done|].
  apply Forall_cons in Hall as [Hx Hxs]. rewrite fmap_cons, (IH Hxs). f_equal.
  unfold Backoff.timer.
  destruct (Z.leb_spec 1 x); [|lia]. destruct (Z.leb_spec x 2147483647); [done | lia].
Qed.

Lemma waits_out_of_range (k : nat) :
  (d < 1)%Z ∨ (2147483647 < d * 2)%Z →
  Backoff.waits (Backoff.delays d k) = replicate k 1%Z.
Proof.
  intros Hout. unfold Backoff.waits.
  assert (Hall : Forall (λ x, Backoff.timer x = 1%Z) (Backoff.delays d k)).
  { destruct Hout as [Hlow | Hhigh].
    - eapply Forall_impl; [by apply delays_nonpositive|]. simpl. intros x Hx.
      unfold Backoff.timer. destruct (Z.leb_spec 1 x); [lia | done].
    - eapply Forall_impl; [apply (delays_bounds k); lia|]. simpl. intros x Hx.
      unfold Backoff.timer. destruct (Z.leb_spec 1 x); [|done].
      destruct (Z.leb_spec x 2147483647); [lia | done]. }
  assert (Hlen : length (Backoff.delays d k) = k)
    by (unfold Backoff.delays; by rewrite length_fmap, length_seq).
  rewrite <- Hlen at 2. clear Hlen.
  induction (Backoff.delays d k) as [|x xs IH]; [done|].
  apply Forall_cons in Hall as [Hx Hxs]. rewrite fmap_cons, Hx. simpl. f_equal.
  by apply IH.
Qed.

End backoff.

(** X19: the lightweight fetch ([scrapeWithoutBrowser]) that fails [k]
    times and then succeeds, within its budget, yields the response of attempt
    [k] after requesting the [k] delays [retryDelay * 2^1 .. retryDelay * 2^k]
    of the timer, and the page result is the one of an immediate success.
    When [retryDelay] is at least 1 and the last delay at most 2^31 - 1, the
    timer waits what is requested, in all [retryDelay * (2^(k+1) - 2)]
    milliseconds; when [retryDelay] is below 1 or its double above 2^31 - 1,
    every wait is one millisecond. *)
Theorem lightweight_fetch_succeeds_at (a : Agent) (w : PageWorld) (url : string)
    (keywords : list string) (k : nat) (r : Response) :
  (Z.of_nat k < maxRetries a)%Z →
  (∀ n, n < k →
        is_ok (axios_get w url (nth (random_index w) (userAgents a) EmptyString) n) = false) →
  axios_get w url (nth (random_index w) (userAgents a) EmptyString) k = Ok r →
  fetchWithRetry a w url = (Ok (Some r), Backoff.delays (retryDelay a) k) ∧
  ((1 ≤ retryDelay a)%Z → (retryDelay a * 2 ^ Z.of_nat k ≤ 2147483647)%Z →
   Backoff.waits (snd (fetchWithRetry a w url)) = Backoff.delays (retryDelay a) k ∧
   Backoff.total (Backoff.waits (snd (fetchWithRetry a w url))) =
     (retryDelay a * (2 ^ Z.of_nat (S k) - 2))%Z) ∧
  ((retryDelay a < 1)%Z ∨ (2147483647 < retryDelay a * 2)%Z →
   Backoff.waits (snd (fetchWithRetry a w url)) = replicate k 1%Z) ∧
  scrapeWithoutBrowser a w url keywords =
    scrapeWithoutBrowser a (with_axios_get w (λ _ _ _, Ok r)) url keywords.
Proof.
  intros Hk Hfail Hget.
  assert (Hfetch : fetchWithRetry a w url = (Ok (Some r), Backoff.delays (retryDelay a) k)).
  { unfold fetchWithRetry.
    apply (retry_loop_succeeds_at _ (maxRetries a) (retryDelay a) r k Hk Hfail Hget 0);
      [lia|]. unfold fetch_fuel. lia. }
  split; [exact Hfetch|]. split_and!.
  - intros Hlow Hhigh. rewrite Hfetch. simpl.
    rewrite (waits_in_range (retryDelay a) k Hlow Hhigh). split; [done|].
    apply total_delays.
  - intros Hout. rewrite Hfetch. simpl. by apply waits_out_of_range.
  - unfold scrapeWithoutBrowser, scrapeWithoutBrowser_body. rewrite Hfetch.
    assert (Hnow : fetchWithRetry a (with_axios_get w (λ _ _ _, Ok r)) url
                   = (Ok (Some r), [])).
    { unfold fetchWithRetry, fetch_fuel. simpl.
      destruct (Z.ltb_spec 0 (maxRetries a)); [done | lia]. }
    rewrite Hnow. reflexivity.
Qed.

Lemma lightweight_fetch_succeeds_at_witness :
  fetchWithRetry scraperAgent (with_axios_get Sample.world Sample.flaky_get)
    "https://en.wikipedia.org/wiki/GPT-4" = (Ok (Some Sample.ok_response), [2000; 4000]%Z) ∧
  Backoff.total
    (Backoff.waits
       (snd (fetchWithRetry scraperAgent (with_axios_get Sample.world Sample.flaky_get)
               "https://en.wikipedia.org/wiki/GPT-4"))) = 6000%Z ∧
  Backoff.waits
    (snd (fetchWithRetry
            (constructor (mkConfig None None None (Some 1073741824%Z) None None None None None))
            (with_axios_get Sample.world Sample.flaky_get)
            "https://en.wikipedia.org/wiki/GPT-4")) = [1; 1]%Z.
Proof.
  destruct (lightweight_fetch_succeeds_at scraperAgent
              (with_axios_get Sample.world Sample.flaky_get)
              "https://en.wikipedia.org/wiki/GPT-4" ["GPT-4"] 2 Sample.ok_response)
    as (H1 & H2 & _).
  - by vm_compute.
  - intros n Hn. destruct n as [|[|n]]; [reflexivity | reflexivity | lia].
  - reflexivity.
  - split; [exact H1|]. split.
    + destruct H2 as [_ H2]; [by vm_compute | by vm_compute | exact H2].
    + destruct (lightweight_fetch_succeeds_at
                  (constructor
                     (mkConfig None None None (Some 1073741824%Z) None None None None None))
                  (with_axios_get Sample.world Sample.flaky_get)
                  "https://en.wikipedia.org/wiki/GPT-4" ["GPT-4"] 2 Sample.ok_response)
        as (_ & _ & H3 & _).
      * by vm_compute.
      * intros n Hn. destruct n as [|[|n]]; [reflexivity | reflexivity | lia].
      * reflexivity.
      * apply H3. right. by vm_compute.
Defined.

(** X20: a retry budget that is not positive makes the lightweight fetch
    send no request: the loop is not entered, the response stays undefined,
    and the page fails with the type error of reading its markup, whatever
    the site would have answered.  The constructor lets a negative budget
    through (it replaces only an absent or zero one by 3). *)
Theorem lightweight_fetch_without_budget (a : Agent) (w : PageWorld) (url : string)
    (keywords : list string) :
  (maxRetries a ≤ 0)%Z →
  fetchWithRetry a w url = (Ok None, []) ∧
  scrapeWithoutBrowser a w url keywords =
    failed_lightweight w url
      (new_TypeError "Cannot read properties of undefined (reading 'data')") ∧
  (∀ get, scrapeWithoutBrowser a (with_axios_get w get) url keywords =
          scrapeWithoutBrowser a w url keywords) ∧
  (∀ config n, cfg_maxRetries config = Some n → (n < 0)%Z →
               maxRetries (constructor config) = n).
Proof.
  intros Hm.
  assert (Hfetch : ∀ w', fetchWithRetry a w' url = (Ok None, [])).
  { intros w'. unfold fetchWithRetry, fetch_fuel. simpl.
    destruct (Z.ltb_spec 0 (maxRetries a)); [lia | done]. }
  assert (Hfail : ∀ w', scrapeWithoutBrowser a w' url keywords =
                        failed_lightweight w' url
                          (new_TypeError "Cannot read properties of undefined (reading 'data')")).
  { intros w'. unfold scrapeWithoutBrowser, scrapeWithoutBrowser_body.
    by rewrite Hfetch. }
  split_and!.
  - apply Hfetch.
  - apply Hfail.
  - intros get. by rewrite !Hfail.
  - intros config n Hcfg Hn. simpl. rewrite Hcfg. simpl.
    destruct (Z.eqb_spec n 0); [lia | done].
Qed.

Lemma lightweight_fetch_without_budget_witness :
  success
    (scrapeWithoutBrowser
       (constructor (mkConfig None None (Some (-1)%Z) None None None None None None))
       Sample.world "https://en.wikipedia.org/wiki/GPT-4" ["GPT-4"]) = false ∧
  error
    (scrapeWithoutBrowser
       (constructor (mkConfig None None (Some (-1)%Z) None None None None None None))
       Sample.world "https://en.wikipedia.org/wiki/GPT-4" ["GPT-4"])
  = Some "Cannot read properties of undefined (reading 'data')".
Proof.
  destruct (lightweight_fetch_without_budget
              (constructor (mkConfig None None (Some (-1)%Z) None None None None None None))
              Sample.world "https://en.wikipedia.org/wiki/GPT-4" ["GPT-4"])
    as (_ & H & _); [by vm_compute|].
  rewrite H. split; reflexivity.
Defined.

(** ** The rendered scrape and the browser around it *)

(** X21: how the failures of the browser reach the job, for a URL that is
    rendered ([scrapeUrl] launching its own browser, [scrapePage], and the
    [catch] of the job loop).  A failure inside the [try] of [scrapePage] is
    caught there and gives the failed result with a time stamp; a failure of
    the launch, of [newPage], of [page.close()] in the [finally] or of
    [browser.close()] escapes, also when the page was scraped with success,
    and the job records its own failed result, which has no time stamp.  A
    missing description is no failure: it is read as the empty string. *)
Theorem rendered_scrape_failures (a : Agent) (w : PageWorld) (url : string)
    (keywords : list string) :
  selectStrategy a url = Rendered →
  (∀ e, puppeteer_launch w = Throw e → scrapeOne a w url keywords = failed_page url e) ∧
  (∀ e, puppeteer_launch w = Ok tt → browser_newPage w = Throw e →
        scrapeOne a w url keywords = failed_page url e) ∧
  (∀ e, puppeteer_launch w = Ok tt → browser_newPage w = Ok tt → page_close w = Throw e →
        scrapeOne a w url keywords = failed_page url e) ∧
  (∀ e, puppeteer_launch w = Ok tt → browser_newPage w = Ok tt → page_close w = Ok tt →
        browser_close w = Throw e →
        scrapeOne a w url keywords = failed_page url e) ∧
  (puppeteer_launch w = Ok tt → browser_newPage w = Ok tt → page_close w = Ok tt →
   browser_close w = Ok tt →
   scrapeOne a w url keywords =
     match scrapePage_body a w url keywords with
     | Ok r => r
     | Throw e => failed_rendered w url e
     end) ∧
  (∀ e r, page_meta_description w = Throw e → scrapePage_body a w url keywords = Ok r →
          description r = Some (Some EmptyString)).
Proof.
  intros Hs. unfold scrapeOne, scrapeUrl, scrapePage, try_finally. rewrite Hs.
  split_and!.
  - by intros e ->.
  - by intros e -> ->.
  - intros e -> -> ->. simpl. by destruct (scrapePage_body a w url keywords).
  - intros e -> -> -> ->. simpl. by destruct (scrapePage_body a w url keywords).
  - intros -> -> -> ->. simpl. by destruct (scrapePage_body a w url keywords).
  - intros e r Hd. unfold scrapePage_body. rewrite Hd.
    destruct (page_setUserAgent w); simpl; try discriminate.
    destruct (page_goto w url); simpl; try discriminate.
    destruct (page_title w); simpl; try discriminate.
    destruct (page_screenshot w); simpl; try discriminate.
    destruct (page_content w); simpl; try discriminate.
    destruct (page_innerText w); simpl; try discriminate.
    destruct (extractMainContent a w _ keywords); simpl; try discriminate.
    destruct (scoreKeywords _ _ _ _); simpl; try discriminate.
    destruct (storage_uploadFile w _); simpl; try discriminate.
    by intros [= <-].
Qed.

Lemma rendered_scrape_failures_witness :
  success (scrapeOne scraperAgent Sample.world "https://example.com/gpt" ["GPT-4"]) = true ∧
  scrapeOne scraperAgent (Crash.with_browser_close Sample.world (Throw Outage.down))
    "https://example.com/gpt" ["GPT-4"] = failed_page "https://example.com/gpt" Outage.down.
Proof.
  split; [by vm_compute|].
  destruct (rendered_scrape_failures scraperAgent
              (Crash.with_browser_close Sample.world (Throw Outage.down))
              "https://example.com/gpt" ["GPT-4"]) as (_ & _ & _ & H & _);
    [by vm_compute|].
  apply H; reflexivity.
Defined.

(** ** Discovery and the choice of the fetch *)

Section discovery.

Lemma wikipedia_lookup_includes (rest : string) :
  includes ("https://en.wikipedia.org/wiki/" +:+ rest) "wikipedia.org" = true.
Proof.
  change ("https://en.wikipedia.org/wiki/" +:+ rest)
    with ("https://en." +:+ "wikipedia.org" +:+ ("/wiki/" +:+ rest)).
  apply includes_infix.
Qed.

Lemma britannica_search_includes (rest : string) :
  includes ("https://www.britannica.com/search?query=" +:+ rest) "britannica.com" = true.
Proof.
  change ("https://www.britannica.com/search?query=" +:+ rest)
    with ("https://www." +:+ "britannica.com" +:+ ("/search?query=" +:+ rest)).
  apply includes_infix.
Qed.

Lemma encyclopedic_lightweight (a : Agent) (url : string) :
  includes url "wikipedia.org" = true ∨ includes url "britannica.com" = true →
  selectStrategy a url = Lightweight.
Proof.
  unfold selectStrategy. intros [-> | ->]; by rewrite ?orb_true_r.
Qed.

End discovery.

(** X22: the rules of [searchForUrls] in their order, and the fetch of
    what they return.  A query that mentions the weather gets the weather
    site alone, also when it mentions news or asks a question; otherwise one
    that mentions news gets the news site alone; every other query gets
    encyclopedia addresses only, and [scrapeUrl] fetches each of them without
    a browser, whatever [usePuppeteer] says. *)
Theorem discovery_rules (a : Agent) (log : Result unit) (query : string) (maxResults : Z) :
  (includes (toLowerCase query) "weather" = true →
   searchForUrls (Ok tt) query maxResults = slice0 ["https://weather.com/"] maxResults) ∧
  (includes (toLowerCase query) "weather" = false →
   includes (toLowerCase query) "news" = true →
   searchForUrls (Ok tt) query maxResults = slice0 ["https://news.google.com/"] maxResults) ∧
  (includes (toLowerCase query) "weather" = false →
   includes (toLowerCase query) "news" = false →
   ∀ url, url ∈ searchForUrls log query maxResults → selectStrategy a url = Lightweight).
Proof.
  unfold searchForUrls, searchForUrls_body. split_and!.
  - by intros ->.
  - by intros -> ->.
  - intros -> -> url. destruct log as [[]|e]; simpl; [|by intros H%elem_of_nil].
    assert (Hwiki : ∀ rest,
              selectStrategy a ("https://en.wikipedia.org/wiki/" +:+ rest) = Lightweight).
    { intros rest. apply encyclopedic_lightweight. left. apply wikipedia_lookup_includes. }
    assert (Hbrit : ∀ rest,
              selectStrategy a ("https://www.britannica.com/search?query=" +:+ rest)
              = Lightweight).
    { intros rest. apply encyclopedic_lightweight. right. apply britannica_search_includes. }
    assert (Hfallback :
              Forall (λ u, selectStrategy a u = Lightweight)
                [ "https://en.wikipedia.org/wiki/Special:Search?search="
                    +:+ encodeURIComponent query;
                  "https://www.britannica.com/search?query=" +:+ encodeURIComponent query ]).
    { repeat constructor; [|apply Hbrit].
      change ("https://en.wikipedia.org/wiki/Special:Search?search="
                +:+ encodeURIComponent query)
        with ("https://en.wikipedia.org/wiki/"
                +:+ ("Special:Search?search=" +:+ encodeURIComponent query)).
      apply Hwiki. }
    intros Hin.
    destruct (test interrogative (toLowerCase query)).
    + destruct (truthy (trim (remove_first interrogative query))); simpl in Hin.
      * revert url Hin. apply Forall_forall, Forall_slice0.
        repeat constructor. apply Hwiki.
      * revert url Hin. by apply Forall_forall, Forall_slice0.
    + simpl in Hin. revert url Hin. by apply Forall_forall, Forall_slice0.
Qed.

Lemma discovery_rules_witness :
  searchForUrls (Ok tt) "What is the weather news" 3 = ["https://weather.com/"] ∧
  searchForUrls (Ok tt) "what is new in the News" 3 = ["https://news.google.com/"] ∧
  selectStrategy scraperAgent "https://en.wikipedia.org/wiki/quantum%20computing"
  = Lightweight.
Proof.
  split_and!.
  - destruct (discovery_rules scraperAgent (Ok tt) "What is the weather news" 3)
      as (H & _). apply H. reflexivity.
  - destruct (discovery_rules scraperAgent (Ok tt) "what is new in the News" 3)
      as (_ & H & _). apply H; reflexivity.
  - destruct (discovery_rules scraperAgent (Ok tt) "what is quantum computing" 3)
      as (_ & _ & H). apply H; [reflexivity | reflexivity |].
    vm_compute. by left.
Defined.

(** ** The text handed to the summariser *)

Section truncation.

Lemma length_str_app (s t : string) :
  String.length (s +:+ t) = String.length s + String.length t.
Proof.
  induction s as [|c s IH]; [by rewrite str_app_nil|].
  rewrite str_app_cons. simpl. by rewrite IH.
Qed.

Lemma length_str_take (n : nat) :
  ∀ s, String.length (take n s) = n `min` String.length s.
Proof.
  induction n as [|n IH]; intros [|c s]; simpl; try done. by rewrite IH.
Qed.

Lemma take_prefix (n : nat) : ∀ s, ∃ rest, s = take n s +:+ rest.
Proof.
  induction n as [|n IH]; intros s.
  - exists s. destruct s; by rewrite str_app_nil.
  - destruct s as [|c s]; [by exists EmptyString|].
    destruct (IH s) as [rest Hrest]. exists rest. simpl.
    by rewrite str_app_cons, <- Hrest.
Qed.

End truncation.

(** X23: the truncation of [extractMainContent].  A text of at most
    [maxContentLength] code units is handed on whole; a longer one is cut to
    its first [maxContentLength] code units, followed by three dots.  What is
    handed on is thus never longer than [maxContentLength + 3], but it can be
    longer than the page text, by up to two code units. *)
Theorem truncate_bounds (a : Agent) (fullText : string) :
  (0 ≤ maxContentLength a)%Z →
  (Z.of_nat (String.length fullText) ≤ maxContentLength a →
   truncate a fullText = fullText)%Z ∧
  ((maxContentLength a < Z.of_nat (String.length fullText))%Z →
   (∃ rest, fullText = take (Z.to_nat (maxContentLength a)) fullText +:+ rest) ∧
   truncate a fullText = take (Z.to_nat (maxContentLength a)) fullText +:+ "..." ∧
   String.length (truncate a fullText) = Z.to_nat (maxContentLength a) + 3) ∧
  (Z.of_nat (String.length (truncate a fullText)) ≤ maxContentLength a + 3)%Z ∧
  String.length (truncate a fullText) ≤ String.length fullText + 2.
Proof.
  intros Hmax. unfold truncate.
  destruct (Z.ltb_spec (maxContentLength a) (Z.of_nat (String.length fullText)))
    as [Hlong | Hshort].
  - assert (Hlen : String.length (take (Z.to_nat (maxContentLength a)) fullText +:+ "...")
                   = Z.to_nat (maxContentLength a) + 3).
    { rewrite length_str_app, length_str_take. simpl. lia. }
    split_and!.
    + lia.
    + intros _. split_and!; [apply take_prefix | done | done].
    + rewrite Hlen. lia.
    + rewrite Hlen. lia.
  - split_and!; [done | lia | lia | lia].
Qed.

Lemma truncate_bounds_witness :
  String.length
    (truncate (constructor (mkConfig None None None None (Some 5%Z) None None None None))
       "GPT-4 is") = 8 ∧
  String.length
    (truncate (constructor (mkConfig None None None None (Some 5%Z) None None None None))
       "GPT-4 ") = 8.
Proof.
  split.
  - destruct (truncate_bounds
                (constructor (mkConfig None None None None (Some 5%Z) None None None None))
                "GPT-4 is") as (_ & H & _); [by vm_compute|].
    destruct H as (_ & _ & H); [by vm_compute | exact H].
  - destruct (truncate_bounds
                (constructor (mkConfig None None None None (Some 5%Z) None None None None))
                "GPT-4 ") as (_ & H & _); [by vm_compute|].
    destruct H as (_ & _ & H); [by vm_compute | exact H].
Defined.

(** ** The removal of the noise *)

Section removal.

Variable sel : selector.

Lemma node_ind_forall (P : node → Prop) :
  (∀ d, P (Text d)) →
  (∀ tag attrs cs, Forall P cs → P (Element tag attrs cs)) →
  ∀ n, P n.
Proof.
  intros HT HE. fix IH 1. intros [d|tag attrs cs]; [apply HT|].
  apply HE. induction cs as [|c cs IHcs]; constructor; [apply IH | apply IHcs].
Qed.

Lemma remove_element (tag : string) (attrs : list (string * string)) (cs : list node) :
  remove sel (Element tag attrs cs) =
  Element tag attrs (List.map (remove sel) (List.filter (λ c, negb (matches sel c)) cs)).
Proof.
  simpl. f_equal. induction cs as [|c cs IH]; [done|]. simpl.
  destruct (matches sel c); simpl; by rewrite IH.
Qed.

(** [remove] keeps the tag and the attributes, which is all a selector
    reads. *)
Lemma matches_remove (n : node) : matches sel (remove sel n) = matches sel n.
Proof. by destruct n. Qed.

Lemma in_elements_at (p : list nat) (n : node) (e : located) :
  In e (elements_at p n) → e = (p, n) ∨ In e (tail (elements_at p n)).
Proof. destruct n as [d|tag attrs cs]; [done|]. simpl. intros [<-|H]; auto. Qed.

Lemma in_elements_below (p : list nat) (tag : string) (attrs : list (string * string))
    (cs : list node) (e : located) :
  In e (tail (elements_at p (Element tag attrs cs))) →
  ∃ q c, In c cs ∧ In e (elements_at q c).
Proof.
  simpl. generalize 0. induction cs as [|c cs IH]; intros i H; [done|].
  apply in_app_or in H as [H|H].
  - exists (p ++ [i]), c. split; [by left | done].
  - destruct (IH _ H) as (q & c' & Hc & He). exists q, c'. split; [by right | done].
Qed.

(** After the removal nothing below the root matches. *)
Lemma remove_clears (n : node) :
  ∀ p e, In e (tail (elements_at p (remove sel n))) → matches sel (snd e) = false.
Proof.
  induction n as [d|tag attrs cs IH] using node_ind_forall; intros p e He; [done|].
  rewrite remove_element in He.
  apply in_elements_below in He as (q & c' & Hc' & He).
  apply in_map_iff in Hc' as (c & <- & Hc).
  apply filter_In in Hc as [Hc Hno]. apply negb_true_iff in Hno.
  rewrite Forall_forall in IH.
  apply in_elements_at in He as [-> | He].
  - simpl. by rewrite matches_remove.
  - apply (IH c (proj2 (list_elem_of_In _ _) Hc) q e He).
Qed.

(** Every element of a cleaned document is itself a cleaned one. *)
Lemma remove_subtrees (n : node) :
  ∀ p e, In e (elements_at p (remove sel n)) → ∃ m, snd e = remove sel m.
Proof.
  induction n as [d|tag attrs cs IH] using node_ind_forall; intros p e He; [done|].
  apply in_elements_at in He as [-> | He]; [by eexists|].
  rewrite remove_element in He.
  apply in_elements_below in He as (q & c' & Hc' & He).
  apply in_map_iff in Hc' as (c & <- & Hc).
  apply filter_In in Hc as [Hc _].
  rewrite Forall_forall in IH.
  apply (IH c (proj2 (list_elem_of_In _ _) Hc) q e He).
Qed.

Lemma remove_idem (n : node) : remove sel (remove sel n) = remove sel n.
Proof.
  induction n as [d|tag attrs cs IH] using node_ind_forall; [done|].
  rewrite !remove_element. f_equal.
  induction cs as [|c cs IHcs]; [done|].
  apply Forall_cons in IH as [Hc Hcs]. simpl.
  destruct (matches sel c) eqn:Hm; simpl; [by apply IHcs|].
  rewrite matches_remove, Hm. simpl. rewrite Hc. f_equal. by apply IHcs.
Qed.

Lemma in_query (doc : node) (s : selector) (e : located) :
  In e (query doc s) → In e (elements_at [] doc).
Proof.
  unfold query. intros H.
  by apply list_elem_of_In, list_elem_of_filter in H as [_ H%list_elem_of_In].
Qed.

Lemma in_fold_larger (P : located → Prop) (cands : selection) :
  ∀ st, (∀ e, In e cands → P e) → (∀ e, In e (snd st) → P e) →
        ∀ e, In e (snd (fold_left larger cands st)) → P e.
Proof.
  induction cands as [|c cands IH]; intros st Hc Hst; [done|]. simpl.
  apply IH; [intros e He; apply Hc; by right|].
  unfold larger. case_match; [|exact Hst].
  intros e [<-|[]]. apply Hc. by left.
Qed.

Lemma in_mainElementOf (doc : node) (e : located) :
  In e (mainElementOf doc) → In e (elements_at [] doc).
Proof.
  unfold mainElementOf, largestTextContainer.
  destruct (length (query doc main_containers) =? 0)%nat; [|apply in_query].
  revert e. apply (in_fold_larger (λ e, In e (elements_at [] doc))); intros e; apply in_query.
Qed.

Lemma in_find_below (s : selection) (sel' : selector) (d : located) :
  In d (find s sel') → ∃ e, In e s ∧ In d (tail (elements_at (fst e) (snd e))).
Proof.
  unfold find. intros H. apply in_unique in H. apply in_flat_map in H as (e & He & H).
  exists e. split; [done|].
  by apply list_elem_of_In, list_elem_of_filter in H as [_ H%list_elem_of_In].
Qed.

End removal.

(** X24: what [$(noise).remove()] leaves ([scrapeWithoutBrowser] and
    [extractContent] start with it).  In the cleaned document no element
    below the root matches the removed selector: the main element is the root
    or no such element, and no element found in it (no heading, no link) is
    one.  Cleaning twice changes nothing more. *)
Theorem removed_elements_never_selected (sel : selector) (doc : node) :
  (∀ el, el ∈ elements_at [] (remove sel doc) →
         el = ([], remove sel doc) ∨ matches sel (snd el) = false) ∧
  (∀ el, el ∈ mainElementOf (remove sel doc) →
         el = ([], remove sel doc) ∨ matches sel (snd el) = false) ∧
  (∀ el sel', el ∈ find (mainElementOf (remove sel doc)) sel' →
              matches sel (snd el) = false) ∧
  remove sel (remove sel doc) = remove sel doc.
Proof.
  assert (Hall : ∀ el, In el (elements_at [] (remove sel doc)) →
                       el = ([], remove sel doc) ∨ matches sel (snd el) = false).
  { intros el H. apply in_elements_at in H as [->|H]; [by left | right].
    by apply (remove_clears sel doc [] el). }
  split_and!.
  - intros el H%list_elem_of_In. by apply Hall.
  - intros el H%list_elem_of_In. by apply Hall, in_mainElementOf.
  - intros el sel' H%list_elem_of_In.
    apply in_find_below in H as (e & He & H).
    apply in_mainElementOf in He.
    destruct (remove_subtrees sel doc [] e He) as [m Hm].
    rewrite Hm in H. by apply (remove_clears sel m (fst e) el).
  - apply remove_idem.
Qed.

Lemma removed_elements_never_selected_witness :
  Forall (λ el, matches noise (snd el) = false)
    (find (mainElementOf (remove noise Sample.article_page)) [ByTagAttr "a" "href"]) ∧
  remove noise (remove noise Sample.article_page) = remove noise Sample.article_page.
Proof.
  destruct (removed_elements_never_selected noise Sample.article_page) as (_ & _ & H & Hi).
  split; [|exact Hi].
  apply Forall_forall. intros el Hel. by apply (H el [ByTagAttr "a" "href"]).
Defined.
